(** * The MT7621/MT7688 I2C master driver (drivers/i2c/busses/i2c-mt7621.c)

    A shallow embedding of the polling transfer engine: the two timeout
    pollers, the reset path, the chunked read path, the transfer entry
    point [mtk_i2c_master_xfer] and the clock set-up [mtk_i2c_init].

    The controller and the kernel services the driver calls (register
    reads and writes, [usleep_range], [device_reset], [clk_get_rate]) are the
    environment: an arbitrary state machine, see [Platform].  Every
    interaction with it is recorded in a log, so that statements about which
    registers were written, in which order, are statements about the log. *)

From Stdlib Require Import ZArith List Lia Bool.
From stdpp Require Import base list.
Import ListNotations.
Local Open Scope Z_scope.

(** ** C integer types

    The target is a 32-bit MIPS core: [int], [long] and pointers are 32 bits
    wide.  Unsigned types are values reduced modulo a power of two; [int] is
    kept in two's complement range. *)

Definition u8  (x : Z) : Z := x mod 2 ^ 8.
Definition u16 (x : Z) : Z := x mod 2 ^ 16.
Definition u32 (x : Z) : Z := x mod 2 ^ 32.
Definition u64 (x : Z) : Z := x mod 2 ^ 64.
Definition s32 (x : Z) : Z := (x + 2 ^ 31) mod 2 ^ 32 - 2 ^ 31.

Definition BIT (n : Z) : Z := Z.shiftl 1 n.

(** ** Register map and bit fields (the #defines of the driver) *)

Definition REG_SM0CFG0 : Z := 0x08.
Definition REG_SM0DOUT : Z := 0x10.
Definition REG_SM0DIN  : Z := 0x14.
Definition REG_SM0ST   : Z := 0x18.
Definition REG_SM0AUTO : Z := 0x1C.
Definition REG_SM0CFG1 : Z := 0x20.
Definition REG_SM0CFG2 : Z := 0x28.
Definition REG_SM0CTL0 : Z := 0x40.
Definition REG_SM0CTL1 : Z := 0x44.
Definition REG_SM0D0   : Z := 0x50.
Definition REG_SM0D1   : Z := 0x54.

Definition I2C_DEVADDR_MASK : Z := 0x7f.
Definition I2C_BUSY : Z := BIT 0.
Definition BYTECNT_MAX : Z := 64.

Definition ODRAIN_HIGH_SM0 : Z := BIT 31.
Definition VSYNC_SHIFT : Z := 28.
Definition VSYNC_PULSE : Z := Z.shiftl 0x1 VSYNC_SHIFT.
Definition CLK_DIV_SHIFT : Z := 16.
Definition CLK_DIV_MASK : Z := 0xfff.
Definition WAIT_HIGH : Z := BIT 6.
Definition SM0_EN : Z := BIT 1.

Definition SM0_MODE_START : Z := 0x1.
Definition SM0_MODE_WRITE : Z := 0x2.
Definition SM0_MODE_STOP : Z := 0x3.
Definition SM0_MODE_READ_NACK : Z := 0x4.
Definition SM0_MODE_READ_ACK : Z := 0x5.
Definition SM0_TRI_BUSY : Z := BIT 0.

Definition TIMEOUT_MS : Z := 1000.
Definition DELAY_INTERVAL_US : Z := 100.

(** Modelled from the spec: the kernel headers <linux/i2c.h> and
    <linux/errno.h> are not among the sources.  The spec names the three
    message flags (read direction, 10-bit address, block-read extension), the
    block-size maximum (32 in its scenario) and the error kinds; the numbers
    are those of the kernel's headers. *)
Definition I2C_M_RD : Z := 0x0001.
Definition I2C_M_TEN : Z := 0x0010.
Definition I2C_M_RECV_LEN : Z := 0x0400.
Definition I2C_SMBUS_BLOCK_MAX : Z := 32.
Definition EAGAIN : Z := 11.
Definition EINVAL : Z := 22.
Definition ETIMEDOUT : Z := 145.

(** ** The environment *)

(** What the driver does to the outside world, newest event first in the
    log. *)
Inductive event : Type :=
| EvRead (reg val : Z)
| EvWrite (reg val : Z)
| EvSleep (us : Z)
| EvReset.

(** The controller behind the register window together with the kernel
    services.  [hw_sleep] says how long a [usleep_range] really lasted and what
    the controller did meanwhile.  [jiffy_us] is the length of a jiffy in
    microseconds, one million over the kernel's HZ.  [dev_dbg_enabled] tells
    whether the [dev_dbg] statements are compiled in and switched on.
    [shl_undef a n] is what the target computes for [a << n] on an [int] when
    [n] is not below the width of [int], a case the C standard leaves
    undefined. *)
Class Platform : Type := {
  hw : Type;
  hw_read : hw -> Z -> Z * hw;
  hw_write : hw -> Z -> Z -> hw;
  hw_sleep : hw -> Z * hw;
  hw_reset : hw -> hw;
  hw_clk_rate : hw -> Z;
  jiffy_us : Z;
  dev_dbg_enabled : bool;
  shl_undef : Z -> Z -> Z
}.

Section Driver.
Context {P : Platform}.

(** The world the driver runs in: the device, the time in microseconds,
    and the log. *)
Record world : Type := World {
  dev : hw;
  now : Z;
  log : list event
}.

(** struct mtk_i2c, the fields the code computes with. *)
Record mtk_i2c : Type := Mtk_i2c {
  cur_clk : Z;
  clk_div : Z
}.

(** struct i2c_msg: [addr], [flags] and [len] are __u16, [buf] points to
    __u8.  A load past the end of [buf] reads 0 and a store past the end is
    dropped: the caller owns at least the bytes a transfer touches. *)
Record i2c_msg : Type := I2c_msg {
  addr : Z;
  flags : Z;
  len : Z;
  buf : list Z
}.

(** State and failure: [None] is a computation that produces no result (a
    trap, or the model's polling budget exhausted). *)
Definition M (A : Type) : Type := world -> option (A * world).

Definition ret {A : Type} (a : A) : M A := fun w => Some (a, w).

Definition bind {A B : Type} (c : M A) (k : A -> M B) : M B :=
  fun w => match c w with
           | Some (a, w') => k a w'
           | None => None
           end.

Definition trap {A : Type} : M A := fun _ => None.

End Driver.

Notation "'let!' x ':=' c 'in' k" := (bind c (fun x => k))
  (at level 10, x pattern, c at level 100, k at level 200).

Section DriverCode.
Context {P : Platform}.

(** buf[i] read and written, see [i2c_msg].  The list is the memory the
    caller owns from buf[0] on, and inside it these are the accesses of the C
    code.  Past its end the C code reaches memory that is not the buffer's;
    the model reads 0 there and drops the store, so what is proved of a
    buffer is what the code does only for a buffer that holds the bytes
    touched, which the statements about buffer contents assume. *)
Definition load (b : list Z) (i : Z) : Z :=
  if i <? 0 then 0 else u8 (default 0 (b !! Z.to_nat i)).

Definition store (b : list Z) (i : Z) (v : Z) : list Z :=
  if i <? 0 then b else <[Z.to_nat i := u8 v]> b.

(** iowrite32 / ioread32 / readl_relaxed on base + reg *)
Definition mtk_i2c_w32 (val reg : Z) : M unit := fun w =>
  Some (tt, World (hw_write (dev w) reg (u32 val)) (now w)
                  (EvWrite reg (u32 val) :: log w)).

Definition mtk_i2c_r32 (reg : Z) : M Z := fun w =>
  let (v, h) := hw_read (dev w) reg in
  Some (u32 v, World h (now w) (EvRead reg (u32 v) :: log w)).

(** usleep_range(min, max): sleeps at least [min] microseconds. *)
Definition usleep_range (min max : Z) : M unit := fun w =>
  let (d, h) := hw_sleep (dev w) in
  let d := Z.max min d in
  Some (tt, World h (now w + d) (EvSleep d :: log w)).

(** The jiffies counter ticks once every [TICK_USEC] microseconds; it does
    not wrap in the model.  msecs_to_jiffies rounds up. *)
Definition TICK_USEC : Z := Z.max 1 jiffy_us.
Definition jiffies : M Z := fun w => Some (now w / TICK_USEC, w).
Definition msecs_to_jiffies (ms : Z) : Z := (ms * 1000 + TICK_USEC - 1) / TICK_USEC.
Definition time_before (a b : Z) : bool := a <? b.

(** device_reset(i2c->adap.dev.parent) *)
Definition device_reset : M unit := fun w =>
  Some (tt, World (hw_reset (dev w)) (now w) (EvReset :: log w)).

(** clk_get_rate(i2c->clk), an unsigned long *)
Definition clk_get_rate : M Z := fun w => Some (u32 (hw_clk_rate (dev w)), w).

(** The do-while loop of [poll_down_timeout].  [budget] bounds the number
    of further iterations; [poll_budget] is enough for any environment
    (lemma [poll_down_loop_run]), so [None] is never produced. *)
Fixpoint poll_down_loop (budget : nat) (reg mask timeout : Z) : M (option Z) :=
  let! v := mtk_i2c_r32 reg in
  if Z.land v mask =? 0 then ret (Some 0)
  else
    let! _ := usleep_range DELAY_INTERVAL_US (DELAY_INTERVAL_US + 50) in
    let! j := jiffies in
    if time_before j timeout then
      match budget with
      | O => trap
      | S b => poll_down_loop b reg mask timeout
      end
    else ret None.

Definition poll_budget : nat :=
  Z.to_nat (msecs_to_jiffies TIMEOUT_MS * TICK_USEC / DELAY_INTERVAL_US).

Definition poll_down_timeout (reg mask : Z) : M Z :=
  let! j := jiffies in
  let timeout := j + msecs_to_jiffies TIMEOUT_MS in
  let! r := poll_down_loop poll_budget reg mask timeout in
  match r with
  | Some r => ret r
  | None =>
      let! v := mtk_i2c_r32 reg in
      ret (if Z.land v mask =? 0 then 0 else - EAGAIN)
  end.

Definition mtk_i2c_wait_idle : M Z := poll_down_timeout REG_SM0ST I2C_BUSY.

(** The do-while loop of [poll_up_timeout], with the same budget. *)
Fixpoint poll_up_loop (budget : nat) (reg mask timeout : Z) : M (option Z) :=
  let! status := mtk_i2c_r32 reg in
  if negb (Z.land status mask =? 0) then ret (Some 0)
  else
    let! _ := usleep_range DELAY_INTERVAL_US (DELAY_INTERVAL_US + 50) in
    let! j := jiffies in
    if time_before j timeout then
      match budget with
      | O => trap
      | S b => poll_up_loop b reg mask timeout
      end
    else ret None.

Definition poll_up_timeout (reg mask : Z) : M Z :=
  let! j := jiffies in
  let timeout := j + msecs_to_jiffies TIMEOUT_MS in
  let! r := poll_up_loop poll_budget reg mask timeout in
  match r with
  | Some r => ret r
  | None => ret (- ETIMEDOUT)
  end.

Definition mtk_i2c_wait_done : M Z := poll_down_timeout REG_SM0CTL1 SM0_TRI_BUSY.

Definition mtk_i2c_reset (i2c : mtk_i2c) : M unit :=
  let! _ := device_reset in
  (* ctrl0 *)
  let reg := Z.lor (Z.lor (Z.lor (Z.lor ODRAIN_HIGH_SM0 VSYNC_PULSE)
                                 (u32 (Z.shiftl (clk_div i2c) CLK_DIV_SHIFT)))
                          WAIT_HIGH) SM0_EN in
  let! _ := mtk_i2c_w32 reg REG_SM0CTL0 in
  (* auto mode *)
  mtk_i2c_w32 0 REG_SM0CFG2.

(** The register reads are arguments of a [dev_dbg]; they happen only when
    that statement is live.  C does not fix the order in which arguments are
    evaluated; the model reads them as listed. *)
Definition mtk_i2c_dump_reg : M unit :=
  if dev_dbg_enabled then
    let! _ := mtk_i2c_r32 REG_SM0CFG0 in
    let! _ := mtk_i2c_r32 REG_SM0DOUT in
    let! _ := mtk_i2c_r32 REG_SM0DIN in
    let! _ := mtk_i2c_r32 REG_SM0ST in
    let! _ := mtk_i2c_r32 REG_SM0AUTO in
    let! _ := mtk_i2c_r32 REG_SM0CFG1 in
    let! _ := mtk_i2c_r32 REG_SM0CFG2 in
    let! _ := mtk_i2c_r32 REG_SM0CTL0 in
    let! _ := mtk_i2c_r32 REG_SM0CTL1 in
    ret tt
  else ret tt.

(** The word written to REG_SM0CTL1 to trigger one operation: acknowledge
    mask 0xFF, page length field, mode, trigger bit.  The source writes the
    expression out at each place. *)
Definition ctl1_cmd (pglen mode : Z) : Z :=
  Z.lor (Z.lor (Z.lor (Z.shiftl 0xFF 16) (Z.shiftl pglen 8)) (Z.shiftl mode 4)) 1.

(** for(i=0; i < plen; i++) buf[i+pkt_num*8] = d >> (8*i);
    [off] is the position in the message buffer the pointer [buf] of
    [mtk_i2c_read] points to. *)
Fixpoint unpack_bytes (n : nat) (i : Z) (plen d pkt_num off : Z) (b : list Z) : list Z :=
  match n with
  | O => b
  | S n' =>
      if i <? plen then
        unpack_bytes n' (i + 1) plen d pkt_num off
                     (store b (off + (i + pkt_num * 8)) (Z.shiftr d (8 * i)))
      else b
  end.

(** The while loop of [mtk_i2c_read]; the first argument counts the
    iterations left, at most [len] of them since each takes at least one
    byte. *)
Fixpoint mtk_i2c_read_loop (n : nat) (len pkt_num off : Z) (b : list Z) : M (list Z) :=
  match n with
  | O => ret b
  | S n' =>
      if len >? 0 then
        let plen := if len >? 8 then 8 else len in
        let! _ := mtk_i2c_w32 (ctl1_cmd (plen - 1) SM0_MODE_READ_ACK) REG_SM0CTL1 in
        let! _ := mtk_i2c_wait_done in
        let! lo := mtk_i2c_r32 REG_SM0D0 in
        let! hi := mtk_i2c_r32 REG_SM0D1 in
        let d := Z.lor lo (u64 (Z.shiftl hi 32)) in
        let b' := unpack_bytes 8 0 plen d pkt_num off b in
        mtk_i2c_read_loop n' (len - plen) (pkt_num + 1) off b'
      else ret b
  end.

Definition mtk_i2c_read (len : Z) (off : Z) (b : list Z) : M (list Z) :=
  mtk_i2c_read_loop (Z.to_nat len) len 0 off b.

(** [a << n] on an [int]: the result is an [int]; GCC wraps on overflow,
    and a count of 32 or more is left to the target. *)
Definition int_shl (a n : Z) : Z :=
  if (0 <=? n) && (n <? 32) then s32 (Z.shiftl a n) else s32 (shl_undef a n).

(** for(j=0; j < len; j++) verb |= pmsg->buf[j+pkt_num*8] << (j*8);
    The byte is promoted to [int] and shifted as an [int]; the [int] is then
    converted to the uint64_t of [verb], which extends its sign. *)
Fixpoint pack_bytes (n : nat) (j : Z) (len pkt_num : Z) (b : list Z) (verb : Z) : Z :=
  match n with
  | O => verb
  | S n' =>
      if j <? len then
        pack_bytes n' (j + 1) len pkt_num b
                   (Z.lor verb (u64 (int_shl (load b (j + pkt_num * 8)) (j * 8))))
      else verb
  end.

(** The while loop of the plain-write branch of [mtk_i2c_master_xfer];
    [mlen] is pmsg->len. *)
Fixpoint xfer_write_loop (n : nat) (mlen plen pkt_num : Z) (b : list Z) : M unit :=
  match n with
  | O => ret tt
  | S n' =>
      if plen >? 0 then
        let len := if plen >? 8 then 8 else plen in
        let verb := pack_bytes 8 0 len pkt_num b 0 in
        let! _ := mtk_i2c_w32 verb REG_SM0D0 in
        let! _ := mtk_i2c_w32 (Z.shiftr verb 32) REG_SM0D1 in
        let! _ := mtk_i2c_w32 (ctl1_cmd (Z.land (mlen - 1) 0x7) SM0_MODE_WRITE) REG_SM0CTL1 in
        let! _ := mtk_i2c_wait_done in
        xfer_write_loop n' mlen (plen - len) (pkt_num + 1) b
      else ret tt
  end.

(** How the body of the for loop of [mtk_i2c_master_xfer] is left. *)
Inductive leave : Type :=
| Next                      (* fall through to i++ *)
| Return (r : Z)            (* return r *)
| ErrTimeout (r : Z).       (* goto err_timeout with ret = r *)

(** The stop operation that ends a message, with [b] the buffer as the
    data phase left it. *)
Definition xfer_stop (m : i2c_msg) (b : list Z) : M (leave * i2c_msg) :=
  let! _ := mtk_i2c_w32 (ctl1_cmd 0 SM0_MODE_STOP) REG_SM0CTL1 in
  let! _ := mtk_i2c_wait_done in
  ret (Next, I2c_msg (addr m) (flags m) (len m) b).

(** The data phase of a message, from [j = 0] to the stop operation. *)
Definition xfer_data (m : i2c_msg) : M (leave * i2c_msg) :=
  let fl := u16 (flags m) in
  let ln := u16 (len m) in
  if negb (Z.land fl I2C_M_RECV_LEN =? 0) then
    let! b1 := mtk_i2c_read 1 0 (buf m) in
    if (load b1 0 <? I2C_SMBUS_BLOCK_MAX) && (load b1 0 >? 0) then
      let! b2 := mtk_i2c_read (load b1 0) 1 b1 in
      xfer_stop m b2
    else
      let! _ := mtk_i2c_w32 (ctl1_cmd 0 SM0_MODE_STOP) REG_SM0CTL1 in
      let! _ := mtk_i2c_wait_done in
      ret (Return (- EINVAL), I2c_msg (addr m) (flags m) (len m) b1)
  else if negb (Z.land fl I2C_M_RD =? 0) then
    let! b1 := mtk_i2c_read ln 0 (buf m) in
    xfer_stop m b1
  else
    let! _ := xfer_write_loop (Z.to_nat ln) ln ln 0 (buf m) in
    xfer_stop m (buf m).

(** The body of the for loop, for the message [m] = msgs[i]. *)
Definition xfer_msg (m : i2c_msg) : M (leave * i2c_msg) :=
  let a := u16 (addr m) in
  let fl := u16 (flags m) in
  let ln := u16 (len m) in
  (* wait hardware idle *)
  let! r := mtk_i2c_wait_idle in
  if negb (r =? 0) then ret (ErrTimeout r, m)
  else if negb (Z.land fl I2C_M_TEN =? 0) then ret (Return (- EINVAL), m)
  else
    (* 7 bits address *)
    let! _ := mtk_i2c_w32 (Z.land a I2C_DEVADDR_MASK) REG_SM0CFG0 in
    (* buffer length *)
    if ln =? 0 then ret (Return (- EINVAL), m)
    else
      (* issue start *)
      let! _ := mtk_i2c_w32 (ctl1_cmd 0 SM0_MODE_START) REG_SM0CTL1 in
      let! _ := mtk_i2c_wait_done in
      (* address on the bus *)
      let rd := if negb (Z.land fl I2C_M_RD =? 0) then 1 else 0 in
      let! _ := mtk_i2c_w32 (Z.land (Z.lor (Z.shiftl a 1) rd) 0xFF) REG_SM0D0 in
      let! _ := mtk_i2c_w32 (ctl1_cmd 0 SM0_MODE_WRITE) REG_SM0CTL1 in
      let! _ := mtk_i2c_wait_done in
      xfer_data m.

(** The for loop from index [i] on, over the messages not yet handled.
    Leaving it by [Next] means i reached num. *)
Fixpoint xfer_loop (i : Z) (msgs : list i2c_msg) : M (leave * Z * list i2c_msg) :=
  match msgs with
  | [] => ret (Next, i, [])
  | m :: rest =>
      let! (l, m') := xfer_msg m in
      match l with
      | Next =>
          let! (l', i', rest') := xfer_loop (i + 1) rest in
          ret (l', i', m' :: rest')
      | _ => ret (l, i, m' :: rest)
      end
  end.

(** The transfer entry point; num is the length of [msgs].  The result is
    the returned int and the messages with their buffers as the call left
    them. *)
Definition mtk_i2c_master_xfer (i2c : mtk_i2c) (msgs : list i2c_msg)
  : M (Z * list i2c_msg) :=
  let! (l, i, msgs') := xfer_loop 0 msgs in
  match l with
  | Next =>
      (* the return value is number of executed messages *)
      ret (i, msgs')
  | Return r => ret (r, msgs')
  | ErrTimeout r =>
      let! _ := mtk_i2c_dump_reg in
      let! _ := mtk_i2c_reset i2c in
      ret (r, msgs')
  end.

(** clk_get_rate(clk) / cur_clk is an unsigned division; dividing by zero
    traps. *)
Definition mtk_i2c_init (i2c : mtk_i2c) : M mtk_i2c :=
  let! rate := clk_get_rate in
  if u32 (cur_clk i2c) =? 0 then trap
  else
    let div := u32 (rate / u32 (cur_clk i2c)) in
    let div := if div >? CLK_DIV_MASK then CLK_DIV_MASK else div in
    let i2c' := Mtk_i2c (cur_clk i2c) div in
    let! _ := mtk_i2c_reset i2c' in
    ret i2c'.

End DriverCode.

(** ** A simulated controller

    A concrete environment to run the driver on.  Every write operation
    that is not the address phase after a start latches the 64-bit window
    D1:D0 into a queue, and every read operation presents the oldest queued
    window in D1:D0: a device that echoes what was written to it.  Two
    switches keep the busy bit of the status register, or the trigger bit of
    the command register, set for ever.  A sleep lasts 125 microseconds and
    HZ is 100.  The
    [int] shift by 32 or more is that of the MIPS sllv instruction, which
    uses the low five bits of the count. *)
Record sim : Type := Sim {
  sim_d0 : Z;
  sim_d1 : Z;
  sim_queue : list (Z * Z);
  sim_addr_phase : bool;
  sim_busy : bool;
  sim_tri : bool
}.

Definition sim_read (s : sim) (reg : Z) : Z * sim :=
  if reg =? REG_SM0ST then (if sim_busy s then 1 else 0, s)
  else if reg =? REG_SM0CTL1 then (if sim_tri s then 1 else 0, s)
  else if reg =? REG_SM0D0 then (sim_d0 s, s)
  else if reg =? REG_SM0D1 then (sim_d1 s, s)
  else (0, s).

Definition sim_write (s : sim) (reg val : Z) : sim :=
  if reg =? REG_SM0D0 then
    Sim val (sim_d1 s) (sim_queue s) (sim_addr_phase s) (sim_busy s) (sim_tri s)
  else if reg =? REG_SM0D1 then
    Sim (sim_d0 s) val (sim_queue s) (sim_addr_phase s) (sim_busy s) (sim_tri s)
  else if reg =? REG_SM0CTL1 then
    let mode := Z.land (Z.shiftr val 4) 0x7 in
    if mode =? SM0_MODE_START then
      Sim (sim_d0 s) (sim_d1 s) (sim_queue s) true (sim_busy s) (sim_tri s)
    else if mode =? SM0_MODE_WRITE then
      if sim_addr_phase s then
        Sim (sim_d0 s) (sim_d1 s) (sim_queue s) false (sim_busy s) (sim_tri s)
      else
        Sim (sim_d0 s) (sim_d1 s) (sim_queue s ++ [(sim_d0 s, sim_d1 s)]) false
            (sim_busy s) (sim_tri s)
    else if mode =? SM0_MODE_READ_ACK then
      match sim_queue s with
      | (lo, hi) :: q => Sim lo hi q (sim_addr_phase s) (sim_busy s) (sim_tri s)
      | [] => Sim 0 0 [] (sim_addr_phase s) (sim_busy s) (sim_tri s)
      end
    else s
  else s.

Definition sim_platform : Platform := {|
  hw := sim;
  hw_read := sim_read;
  hw_write := sim_write;
  hw_sleep := fun s => (125, s);
  hw_reset := fun s => s;
  hw_clk_rate := fun _ => 40000000;
  jiffy_us := 10000;
  dev_dbg_enabled := false;
  shl_undef := fun a n => Z.shiftl a (n mod 32)
|}.

(** The simulated controller, idle, with the given windows queued. *)
Definition sim_idle (q : list (Z * Z)) : @world sim_platform :=
  @World sim_platform (Sim 0 0 q false false false) 0 [].

(** The same with the busy bit of the status register stuck. *)
Definition sim_stuck_busy : @world sim_platform :=
  @World sim_platform (Sim 0 0 [] false true false) 0 [].

(** The same with the trigger bit of the command register stuck. *)
Definition sim_stuck_tri : @world sim_platform :=
  @World sim_platform (Sim 0 0 [] false false true) 0 [].

(** ** Reading the log *)

(** The register writes of a log, oldest first. *)
Definition is_write (e : event) : option (Z * Z) :=
  match e with EvWrite r v => Some (r, v) | _ => None end.

Definition writes (l : list event) : list (Z * Z) := omap is_write (reverse l).

(** How many times the reset line was pulled. *)
Definition is_reset (e : event) : bool :=
  match e with EvReset => true | _ => false end.

Definition resets (l : list event) : nat := length (List.filter is_reset l).

(** What a run leaves to be seen: the result, the register writes in order
    and the number of resets. *)
Definition observe {P : Platform} {A : Type} (c : M A) (w : world)
  : option (A * list (Z * Z) * nat) :=
  match c w with
  | Some (a, w') => Some (a, writes (log w'), resets (log w'))
  | None => None
  end.

(** The log grew by the register writes [ws], in this order, and by no
    reset. *)
Definition wrote {P : Platform} (w : world) (ws : list (Z * Z)) (w' : world) : Prop :=
  writes (log w') = writes (log w) ++ ws /\ resets (log w') = resets (log w).

(** The events of a poll, oldest first: each sample that found the bit set
    is followed by a sleep. *)
Definition poll_trace (reg : Z) (steps : list (Z * Z)) : list event :=
  flat_map (fun s => [EvRead reg (fst s); EvSleep (snd s)]) steps.

Definition sleep_sum (steps : list (Z * Z)) : Z :=
  fold_right Z.add 0 (map snd steps).

(** The command words [mtk_i2c_read] writes for [len] bytes, one per
    chunk. *)
Fixpoint read_ops (n : nat) (len : Z) : list (Z * Z) :=
  match n with
  | O => []
  | S n' =>
      if len >? 0 then
        let plen := if len >? 8 then 8 else len in
        (REG_SM0CTL1, u32 (ctl1_cmd (plen - 1) SM0_MODE_READ_ACK))
          :: read_ops n' (len - plen)
      else []
  end.

(** The register writes of the plain-write loop: per chunk the two data
    registers, then the command word. *)
Fixpoint write_ops {P : Platform} (n : nat) (mlen plen pkt_num : Z) (b : list Z)
  : list (Z * Z) :=
  match n with
  | O => []
  | S n' =>
      if plen >? 0 then
        let len := if plen >? 8 then 8 else plen in
        let verb := pack_bytes 8 0 len pkt_num b 0 in
        (REG_SM0D0, u32 verb)
          :: (REG_SM0D1, u32 (Z.shiftr verb 32))
          :: (REG_SM0CTL1, u32 (ctl1_cmd (Z.land (mlen - 1) 0x7) SM0_MODE_WRITE))
          :: write_ops n' mlen (plen - len) (pkt_num + 1) b
      else []
  end.

(** The register writes of one chunk of a plain write of [mlen] bytes, with
    [c] the two words for the data registers. *)
Definition chunk_ops (mlen : Z) (c : Z * Z) : list (Z * Z) :=
  [(REG_SM0D0, fst c); (REG_SM0D1, snd c);
   (REG_SM0CTL1, ctl1_cmd (Z.land (mlen - 1) 0x7) SM0_MODE_WRITE)].

(** The register writes of the start and address phase of a message that
    passed the checks. *)
Definition addr_ops (m : i2c_msg) : list (Z * Z) :=
  [(REG_SM0CFG0, u32 (Z.land (u16 (addr m)) I2C_DEVADDR_MASK));
   (REG_SM0CTL1, u32 (ctl1_cmd 0 SM0_MODE_START));
   (REG_SM0D0,
    u32 (Z.land (Z.lor (Z.shiftl (u16 (addr m)) 1)
                       (if negb (Z.land (u16 (flags m)) I2C_M_RD =? 0) then 1 else 0))
                0xFF));
   (REG_SM0CTL1, u32 (ctl1_cmd 0 SM0_MODE_WRITE))].

(** A sample of a poll that found the bit set, with the sleep after it. *)
Definition busy_step (mask : Z) (s : Z * Z) : Prop :=
  Z.land (fst s) mask <> 0 /\ DELAY_INTERVAL_US <= snd s.

(** What a down-poll of [reg] under [mask] did between [w] and [w'] when it
    returned [r]: samples that found the bit set, each followed by a sleep,
    then one last sample [v]; [r] is decided by [v] alone, and it is an error
    only when the jiffies counter has advanced by the timeout. *)
Definition polled_down {P : Platform} (reg mask : Z) (w : world) (r : Z) (w' : world)
  : Prop :=
  exists (steps : list (Z * Z)) (v : Z),
    log w' = EvRead reg v :: reverse (poll_trace reg steps) ++ log w /\
    Forall (busy_step mask) steps /\
    now w' = now w + sleep_sum steps /\
    r = (if Z.land v mask =? 0 then 0 else - EAGAIN) /\
    (r <> 0 ->
     now w / TICK_USEC + msecs_to_jiffies TIMEOUT_MS <= now w' / TICK_USEC).

(** ** Sample requests and worlds *)

Definition i2c_400k : mtk_i2c := Mtk_i2c 400000 100.

(** The simulated controller after one sample of the status register. *)
Definition sim_sampled (q : list (Z * Z)) : @world sim_platform :=
  @World sim_platform (Sim 0 0 q false false false) 0 [EvRead REG_SM0ST 0].

(** The simulated controller with the trigger bit stuck, after one sample
    of the status register. *)
Definition sim_stuck_tri_sampled : @world sim_platform :=
  @World sim_platform (Sim 0 0 [] false false true) 0 [EvRead REG_SM0ST 0].

(** The simulated controller with the busy bit stuck, after the idle wait
    has run into its timeout. *)
Definition sim_timed_out : @world sim_platform :=
  match @mtk_i2c_wait_idle sim_platform sim_stuck_busy with
  | Some (_, w) => w
  | None => sim_stuck_busy
  end.

Definition msg_write (a : Z) (b : list Z) : i2c_msg :=
  I2c_msg a 0 (Z.of_nat (length b)) b.

Definition msg_read (a : Z) (n : nat) : i2c_msg :=
  I2c_msg a I2C_M_RD (Z.of_nat n) (replicate n 0).

(** The simulated controller after the two-byte write 00 10 to 0x50 was
    executed, and then after the idle wait of the next message. *)
Definition sim_after_write : @world sim_platform :=
  match @xfer_loop sim_platform 0 [msg_write 0x50 [0; 0x10]] (sim_idle []) with
  | Some (_, w) => w
  | None => sim_idle []
  end.

Definition sim_after_write_sampled : @world sim_platform :=
  match @mtk_i2c_wait_idle sim_platform sim_after_write with
  | Some (_, w) => w
  | None => sim_after_write
  end.

(** ** The rest of the register layout and the register writes of a message *)

(** REG_SM0CTL1 and REG_SM0CTL0 fields the driver #defines next to the ones
    above. *)
Definition ACK_SHIFT : Z := 16.
Definition ACK_MASK : Z := 0xff.
Definition PGLEN_SHIFT : Z := 8.
Definition PGLEN_MASK : Z := 0x7.
Definition SM0_MODE_SHIFT : Z := 4.
Definition SM0_MODE_MASK : Z := 0x7.
Definition VSYNC_MASK : Z := 0x3.

(** The register writes of the data phase of [m], stop included; [n0] is
    the length byte of a block read. *)
Definition data_ops {P : Platform} (m : i2c_msg) (n0 : Z) : list (Z * Z) :=
  let fl := u16 (flags m) in
  let ln := u16 (len m) in
  (if negb (Z.land fl I2C_M_RECV_LEN =? 0) then
     read_ops (Z.to_nat 1) 1 ++
     (if (n0 <? I2C_SMBUS_BLOCK_MAX) && (n0 >? 0) then read_ops (Z.to_nat n0) n0 else [])
   else if negb (Z.land fl I2C_M_RD =? 0) then read_ops (Z.to_nat ln) ln
   else write_ops (Z.to_nat ln) ln ln 0 (buf m))
  ++ [(REG_SM0CTL1, ctl1_cmd 0 SM0_MODE_STOP)].

(** How the data phase is left: by [return -EINVAL] for a block read with
    a length byte out of range, by falling through otherwise. *)
Definition data_leave (m : i2c_msg) (n0 : Z) : leave :=
  if negb (Z.land (u16 (flags m)) I2C_M_RECV_LEN =? 0)
     && negb ((n0 <? I2C_SMBUS_BLOCK_MAX) && (n0 >? 0))
  then Return (- EINVAL) else Next.

(** A write to REG_SM0CTL1 whose mode field is [mode]. *)
Definition is_cmd (mode : Z) (rv : Z * Z) : bool :=
  (fst rv =? REG_SM0CTL1)
  && (Z.land (Z.shiftr (snd rv) SM0_MODE_SHIFT) SM0_MODE_MASK =? mode).

Definition count_cmd (mode : Z) (ws : list (Z * Z)) : nat :=
  length (List.filter (is_cmd mode) ws).

(** The registers a transfer writes while it does not time out. *)
Definition xfer_reg (rv : Z * Z) : Prop :=
  fst rv = REG_SM0CFG0 \/ fst rv = REG_SM0CTL1 \/
  fst rv = REG_SM0D0 \/ fst rv = REG_SM0D1.

(** What a message keeps through a transfer: its header, the size of its
    buffer, and the buffer itself when it is a plain write. *)
Definition msg_kept (m m' : i2c_msg) : Prop :=
  addr m' = addr m /\ flags m' = flags m /\ len m' = len m /\
  length (buf m') = length (buf m) /\
  (Z.land (u16 (flags m)) I2C_M_RECV_LEN = 0 ->
   Z.land (u16 (flags m)) I2C_M_RD = 0 -> buf m' = buf m).

(** ** Reading the log for register reads, and closed forms *)

(** The values read from register [reg], oldest first. *)
Definition is_read_of (reg : Z) (e : event) : option Z :=
  match e with
  | EvRead r v => if r =? reg then Some v else None
  | _ => None
  end.

Definition reads_of (reg : Z) (l : list event) : list Z :=
  omap (is_read_of reg) (reverse l).

(** Byte [j] of the eight bytes a read operation delivers in REG_SM0D0
    ([lo]) and REG_SM0D1 ([hi]): the low register first, each least
    significant byte first. *)
Definition window_byte (lohi : Z * Z) (j : Z) : Z :=
  u8 (Z.shiftr (if j <? 4 then fst lohi else snd lohi) (8 * (j mod 4))).

(** The command words of a read of [len] bytes, in closed form: one per
    chunk of eight, with the chunk's own length less one in the count
    field. *)
Definition read_cmds (len : Z) : list (Z * Z) :=
  (fun k => (REG_SM0CTL1, ctl1_cmd (Z.min 8 (len - 8 * k) - 1) SM0_MODE_READ_ACK))
    <$> seqZ 0 ((len + 7) / 8).

(** ** Bring-up and removal

    [mtk_i2c_probe] and [mtk_i2c_remove] talk to the kernel's device
    model.  What each service answers is an input, held in
    [platform_device]; the calls that change something outside the driver
    are recorded as [kcall]s, each stamped with the number of hardware events
    logged before it, oldest first. *)

Record platform_device : Type := Platform_device {
  (** platform_get_resource(pdev, IORESOURCE_MEM, 0) is not NULL *)
  mem_resource : bool;
  (** devm_kzalloc returned memory *)
  kzalloc_ok : bool;
  (** PTR_ERR(i2c->base) when devm_ioremap_resource gave an error pointer *)
  ioremap_err : option Z;
  (** PTR_ERR(i2c->clk) when devm_clk_get gave an error pointer *)
  clk_err : option Z;
  (** the value of "clock-frequency" when of_property_read_u32 returns 0 *)
  clock_frequency : option Z;
  (** the int i2c_add_adapter returns *)
  add_adapter_ret : Z
}.

(** The fields of the adapter whose values the source spells out. *)
Record i2c_adapter : Type := I2c_adapter {
  retries : Z;
  max_write_len : Z;
  max_read_len : Z
}.

Inductive kcall : Type :=
| ClkPrepareEnable
| ClkDisableUnprepare
| SetDrvdata
| AddAdapter (adap : i2c_adapter)
| DelAdapter.

Section Probe.
Context {P : Platform}.

(** -ENODEV and -ENOMEM come from <linux/errno.h>, which is not among the
    sources: their values are parameters. *)
Variables ENODEV ENOMEM : Z.

Definition kstamp (c : kcall) : M (kcall * nat) :=
  fun w => Some ((c, length (log w)), w).

(** The result is the returned int, the driver data of the device (set
    once the structure is filled in) and the calls made.  The messages to the
    kernel log are left out. *)
Definition mtk_i2c_probe (pdev : platform_device)
  : M (Z * option mtk_i2c * list (kcall * nat)) :=
  if negb (mem_resource pdev) then ret (- ENODEV, None, [])
  else if negb (kzalloc_ok pdev) then ret (- ENOMEM, None, [])
  else
    match ioremap_err pdev with
    | Some e => ret (e, None, [])
    | None =>
        match clk_err pdev with
        | Some _ => ret (- ENODEV, None, [])
        | None =>
            let! k1 := kstamp ClkPrepareEnable in
            let cur := match clock_frequency pdev with
                       | Some v => u32 v
                       | None => 400000
                       end in
            let adap := I2c_adapter 3 BYTECNT_MAX BYTECNT_MAX in
            let! k2 := kstamp SetDrvdata in
            (* devm_kzalloc zeroes the structure *)
            let! i2c := mtk_i2c_init (Mtk_i2c cur 0) in
            let! k3 := kstamp (AddAdapter adap) in
            let r := add_adapter_ret pdev in
            if r <? 0 then
              let! k4 := kstamp ClkDisableUnprepare in
              ret (r, Some i2c, [k1; k2; k3; k4])
            else ret (r, Some i2c, [k1; k2; k3])
        end
    end.

Definition mtk_i2c_remove (i2c : mtk_i2c) : M (Z * list (kcall * nat)) :=
  let! k1 := kstamp DelAdapter in
  let! k2 := kstamp ClkDisableUnprepare in
  ret (0, [k1; k2]).

End Probe.

(** How many times more the clock was enabled than disabled. *)
Definition clk_enabled (calls : list (kcall * nat)) : Z :=
  fold_right (fun c n => match fst c with
                         | ClkPrepareEnable => n + 1
                         | ClkDisableUnprepare => n - 1
                         | _ => n
                         end) 0 calls.

(** * The board driver, drivers/misc/linkit.c

    It reads two 16-byte strings from the factory partition, cleans them
    and, on the board named in the source, claims the bootstrap latch GPIO
    and drives it low. *)

Definition LINKIT_LATCH_GPIO : Z := 11.

(** struct linkit_hw_data: two char[16], as the bytes in memory. *)
Record linkit_hw_data : Type := Linkit_hw_data {
  board : list Z;
  rev : list Z
}.

(** The bytes of the string literal "LINKITS7688", without the
    terminator. *)
Definition LINKITS7688 : list Z :=
  [0x4C; 0x49; 0x4E; 0x4B; 0x49; 0x54; 0x53; 0x37; 0x36; 0x38; 0x38].

(** What the services of the kernel answer. *)
Record linkit_env : Type := Linkit_env {
  (** PTR_ERR(mtd) when get_mtd_device_nm("factory") gave an error pointer *)
  mtd_err : option Z;
  (** [hw] after mtd_read(mtd, 0x400, sizeof(hw), &retlen, &hw); the
      result of the call is not looked at, so on a failed read this is what
      the stack held *)
  hw_after_read : linkit_hw_data;
  (** what devm_gpio_request returns *)
  gpio_request_ret : Z
}.

Inductive lcall : Type :=
| PutMtdDevice
| DevInfo (s : list Z)            (* the string printed for %s *)
| GpioRequest (gpio : Z)
| GpioDirectionOutput (gpio value : Z).

(** The characters of the C string at the start of [s]: the bytes before
    the first NUL. *)
Fixpoint cstr (s : list Z) : list Z :=
  match s with
  | [] => []
  | b :: s' => if u8 b =? 0 then [] else u8 b :: cstr s'
  end.

(** strcmp(s + i, lit) against a string literal given without its
    terminator; the driver looks only at whether the result is zero. *)
Fixpoint strcmp (s : list Z) (i : Z) (lit : list Z) : Z :=
  match lit with
  | [] => load s i
  | c :: lit' =>
      if load s i =? u8 c then
        if u8 c =? 0 then 0 else strcmp s (i + 1) lit'
      else load s i - u8 c
  end.

Section Linkit.

(** Whether plain [char] is signed is the compiler's choice. *)
Variable char_signed : bool.

(** The value of a [char] that holds the byte [b], promoted to [int]. *)
Definition char_val (b : Z) : Z :=
  if char_signed && (128 <=? u8 b) then u8 b - 256 else u8 b.

(** for (i = 0; i < 15; i++) if (s[i] <= 0x20) s[i] = '\0'; *)
Fixpoint sanify_loop (n : nat) (i : Z) (s : list Z) : list Z :=
  match n with
  | O => s
  | S n' =>
      if i <? 15 then
        sanify_loop n' (i + 1)
                    (if char_val (load s i) <=? 0x20 then store s i 0 else s)
      else s
  end.

Definition sanify_string (s : list Z) : list Z :=
  store (sanify_loop 15 0 s) 15 0.

(** The result is the returned int and the calls made, oldest first. *)
Definition linkit_probe (env : linkit_env) : Z * list lcall :=
  match mtd_err env with
  | Some e => (e, [])
  | None =>
      let hw := hw_after_read env in
      let hw := Linkit_hw_data (sanify_string (board hw)) (sanify_string (rev hw)) in
      let info := [PutMtdDevice; DevInfo (cstr (board hw)); DevInfo (cstr (rev hw))] in
      if strcmp (board hw) 0 LINKITS7688 =? 0 then
        if negb (gpio_request_ret env =? 0) then
          (-1, info ++ [GpioRequest LINKIT_LATCH_GPIO])
        else
          (0, info ++ [GpioRequest LINKIT_LATCH_GPIO;
                       GpioDirectionOutput LINKIT_LATCH_GPIO 0])
      else (0, info)
  end.

End Linkit.

(** The raw bytes that make [linkit_probe] take the board for a
    LinkIt Smart 7688: the name, then a byte that [sanify_string] turns into
    the terminator. *)
Definition names_board (char_signed : bool) (raw : list Z) : Prop :=
  (forall k : nat, (k < 11)%nat -> LINKITS7688 !! k = Some (load raw (Z.of_nat k))) /\
  char_val char_signed (load raw 11) <= 0x20.


(** * Properties *)

Arguments writes : simpl never.
Arguments resets : simpl never.
Arguments u32 : simpl never.

Lemma writes_app (e l : list event) : writes (e ++ l) = writes l ++ writes e.
Proof. unfold writes. now rewrite reverse_app, omap_app. Qed.

Lemma writes_cons (e : event) (l : list event) :
  writes (e :: l) = writes l ++ match is_write e with Some x => [x] | None => [] end.
Proof.
  unfold writes. rewrite reverse_cons, omap_app. simpl.
  now destruct (is_write e).
Qed.

Lemma resets_cons (e : event) (l : list event) :
  resets (e :: l) = ((if is_reset e then 1 else 0) + resets l)%nat.
Proof. unfold resets. simpl. now destruct (is_reset e). Qed.

Lemma resets_app (e l : list event) : resets (e ++ l) = (resets e + resets l)%nat.
Proof. unfold resets. now rewrite List.filter_app, length_app. Qed.

Lemma u32_range (x : Z) : 0 <= u32 x < 2 ^ 32.
Proof. unfold u32. apply Z.mod_pos_bound. lia. Qed.

Lemma u32_small (x : Z) : 0 <= x < 2 ^ 32 -> u32 x = x.
Proof. intros H. unfold u32. now apply Z.mod_small. Qed.

Lemma u16_range (x : Z) : 0 <= u16 x < 2 ^ 16.
Proof. unfold u16. apply Z.mod_pos_bound. lia. Qed.

(** The 7-bit mask keeps the address modulo 128. *)
Lemma low7_u32 (a : Z) :
  u32 (Z.land (u16 a) I2C_DEVADDR_MASK) = u16 a mod 128.
Proof.
  change I2C_DEVADDR_MASK with (Z.ones 7). rewrite Z.land_ones by lia.
  change (2 ^ 7) with 128. apply u32_small.
  pose proof (Z.mod_pos_bound (u16 a) 128). lia.
Qed.

(** The address byte is the low eight bits of twice the address plus the
    direction bit. *)
Lemma addr_byte_u32 (a rd : Z) :
  rd = 0 \/ rd = 1 ->
  u32 (Z.land (Z.lor (Z.shiftl (u16 a) 1) rd) 0xFF) = (2 * u16 a + rd) mod 256.
Proof.
  intros Hrd. pose proof (u16_range a) as Ha.
  assert (Hlor : Z.lor (Z.shiftl (u16 a) 1) rd = 2 * u16 a + rd).
  { rewrite Z.shiftl_mul_pow2 by lia. change (2 ^ 1) with 2.
    destruct Hrd as [-> | ->].
    - rewrite Z.lor_0_r. lia.
    - pose proof (Z.add_lor_land (u16 a * 2) 1) as H.
      change 1 with (Z.ones 1) in H at 2. rewrite Z.land_ones in H by lia.
      change (2 ^ 1) with 2 in H. rewrite Z.mod_mul in H by lia. lia. }
  rewrite Hlor. change 0xFF with (Z.ones 8). rewrite Z.land_ones by lia.
  change (2 ^ 8) with 256. apply u32_small.
  pose proof (Z.mod_pos_bound (2 * u16 a + rd) 256). lia.
Qed.

(** A poll leaves only samples and sleeps in the log. *)
Lemma poll_trace_quiet (reg : Z) (steps : list (Z * Z)) :
  writes (reverse (poll_trace reg steps)) = [] /\
  resets (reverse (poll_trace reg steps)) = 0%nat.
Proof.
  induction steps as [|[v d] steps [IHw IHr]]; [now split|].
  cbn [poll_trace flat_map fst snd]. fold (poll_trace reg steps).
  change (?a :: ?b :: ?l) with ([a; b] ++ l).
  rewrite reverse_app, writes_app, resets_app, IHw, IHr. now split.
Qed.

Ltac log_now :=
  unfold wrote; cbn [log now dev];
  rewrite ?writes_cons, ?resets_cons; cbn [is_write is_reset];
  rewrite ?app_nil_r; repeat split; try reflexivity; try lia.

Section Basics.
Context {P : Platform}.

Lemma bind_run {A B : Type} (c : M A) (k : A -> M B) w a w1 :
  c w = Some (a, w1) -> bind c k w = k a w1.
Proof. intros H. unfold bind. now rewrite H. Qed.

Lemma wrote_refl (w : world) : wrote w [] w.
Proof. split; [now rewrite app_nil_r | reflexivity]. Qed.

Lemma wrote_trans (w w1 w2 : world) (a b : list (Z * Z)) :
  wrote w a w1 -> wrote w1 b w2 -> wrote w (a ++ b) w2.
Proof.
  intros [Ha Hr] [Hb Hs]. split.
  - now rewrite Hb, Ha, app_assoc.
  - now rewrite Hs.
Qed.

(** *** Primitives *)

Lemma w32_run (val reg : Z) (w : world) :
  exists w', mtk_i2c_w32 val reg w = Some (tt, w') /\ wrote w [(reg, u32 val)] w'
             /\ now w' = now w.
Proof. eexists. split; [reflexivity|]. log_now. Qed.

Lemma r32_run (reg : Z) (w : world) :
  exists v w', mtk_i2c_r32 reg w = Some (v, w') /\ wrote w [] w' /\ now w' = now w
               /\ log w' = EvRead reg v :: log w.
Proof.
  unfold mtk_i2c_r32. destruct (hw_read (dev w) reg) as [v h].
  eexists _, _. split; [reflexivity|]. log_now.
Qed.

Lemma usleep_run (lo hi : Z) (w : world) :
  exists d w', usleep_range lo hi w = Some (tt, w') /\ wrote w [] w'
               /\ lo <= d /\ now w' = now w + d /\ log w' = EvSleep d :: log w.
Proof.
  unfold usleep_range. destruct (hw_sleep (dev w)) as [d h].
  exists (Z.max lo d). eexists. split; [reflexivity|]. log_now.
Qed.

(** *** The pollers *)

Lemma TICK_USEC_pos : 0 < TICK_USEC.
Proof. unfold TICK_USEC. lia. Qed.

(** [time_before] on jiffies, read on the microsecond clock. *)
Lemma before_deadline (t timeout : Z) :
  t / TICK_USEC < timeout -> t < timeout * TICK_USEC.
Proof.
  intros H. pose proof TICK_USEC_pos as Ht.
  destruct (Z_lt_le_dec t (timeout * TICK_USEC)) as [|Hge]; [assumption|].
  assert (timeout <= t / TICK_USEC) by (apply Z.div_le_lower_bound; lia). lia.
Qed.

Lemma poll_down_loop_eq (budget : nat) (reg mask timeout : Z) :
  poll_down_loop budget reg mask timeout =
  (let! v := mtk_i2c_r32 reg in
   if Z.land v mask =? 0 then ret (Some 0)
   else
     let! _ := usleep_range DELAY_INTERVAL_US (DELAY_INTERVAL_US + 50) in
     let! j := jiffies in
     if time_before j timeout then
       match budget with
       | O => trap
       | S b => poll_down_loop b reg mask timeout
       end
     else ret None).
Proof. now destruct budget. Qed.

(** The loop of [poll_down_timeout] always comes back when the budget
    covers the time left: either with a sample that found the bit clear, or
    past the deadline after a sleep. *)
Lemma poll_down_loop_run (reg mask timeout : Z) (budget : nat) :
  forall w : world,
    timeout * TICK_USEC - now w <= DELAY_INTERVAL_US * (Z.of_nat budget + 1) ->
    exists r w' steps,
      poll_down_loop budget reg mask timeout w = Some (r, w') /\
      Forall (busy_step mask) steps /\
      now w' = now w + sleep_sum steps /\
      match r with
      | Some z =>
          exists v, z = 0 /\ Z.land v mask = 0 /\
                    log w' = EvRead reg v :: reverse (poll_trace reg steps) ++ log w
      | None =>
          log w' = reverse (poll_trace reg steps) ++ log w /\
          timeout <= now w' / TICK_USEC
      end.
Proof.
  induction budget as [|b IH]; intros w Hb; rewrite poll_down_loop_eq;
    destruct (r32_run reg w) as (v & w1 & Hr & _ & Hn1 & Hl1);
    rewrite (bind_run _ _ _ _ _ Hr);
    (destruct (Z.land v mask =? 0) eqn:Hv;
     [ exists (Some 0), w1, []; split; [reflexivity|]; split; [constructor|];
       split; [cbn; lia|]; exists v; apply Z.eqb_eq in Hv; now rewrite Hl1
     | ]);
    apply Z.eqb_neq in Hv;
    destruct (usleep_run DELAY_INTERVAL_US (DELAY_INTERVAL_US + 50) w1)
      as (d & w2 & Hs & _ & Hd & Hn2 & Hl2);
    rewrite (bind_run _ _ _ _ _ Hs);
    unfold jiffies at 1; unfold bind at 1; unfold time_before;
    destruct (now w2 / TICK_USEC <? timeout) eqn:Ht.
  - apply Z.ltb_lt, before_deadline in Ht. unfold DELAY_INTERVAL_US in *. lia.
  - apply Z.ltb_ge in Ht. exists None, w2, [(v, d)].
    split; [reflexivity|]. split; [repeat constructor; auto|].
    split; [cbn; lia|]. split; [|lia]. now rewrite Hl2, Hl1.
  - apply Z.ltb_lt, before_deadline in Ht.
    destruct (IH w2) as (r & w' & steps & Hrun & Hall & Hnow & Hlog).
    { unfold DELAY_INTERVAL_US in *. lia. }
    exists r, w', ((v, d) :: steps). split; [exact Hrun|].
    split; [constructor; [split; auto | exact Hall]|].
    split; [cbn [sleep_sum map fold_right snd]; fold (sleep_sum steps); lia|].
    assert (Hrev : forall l, reverse (poll_trace reg ((v, d) :: steps)) ++ l
                   = reverse (poll_trace reg steps) ++ EvSleep d :: EvRead reg v :: l).
    { intros l. cbn [poll_trace flat_map fst snd]. fold (poll_trace reg steps).
      change (?a :: ?b :: ?t) with ([a; b] ++ t) at 1.
      rewrite reverse_app. rewrite <- app_assoc. reflexivity. }
    destruct r as [z|].
    + destruct Hlog as (v' & Hz & Hv' & Hlog). exists v'. repeat split; auto.
      rewrite Hlog, Hl2, Hl1. now rewrite <- Hrev.
    + destruct Hlog as [Hlog Hto]. split; [|exact Hto].
      rewrite Hlog, Hl2, Hl1. now rewrite <- Hrev.
  - apply Z.ltb_ge in Ht. exists None, w2, [(v, d)].
    split; [reflexivity|]. split; [repeat constructor; auto|].
    split; [cbn; lia|]. split; [|lia]. now rewrite Hl2, Hl1.
Qed.

Lemma poll_budget_enough (w : world) :
  (now w / TICK_USEC + msecs_to_jiffies TIMEOUT_MS) * TICK_USEC - now w
  <= DELAY_INTERVAL_US * (Z.of_nat poll_budget + 1).
Proof.
  pose proof TICK_USEC_pos as Ht.
  assert (HT : 0 <= msecs_to_jiffies TIMEOUT_MS).
  { unfold msecs_to_jiffies, TIMEOUT_MS. apply Z.div_pos; lia. }
  pose proof (Z.mul_div_le (now w) TICK_USEC Ht) as Hfloor.
  unfold poll_budget. rewrite Z2Nat.id by (apply Z.div_pos; [nia | reflexivity]).
  pose proof (Z.mul_succ_div_gt (msecs_to_jiffies TIMEOUT_MS * TICK_USEC)
                DELAY_INTERVAL_US eq_refl) as Hceil.
  nia.
Qed.

(** [poll_down_timeout] always returns.  Its last act is a sample of the
    register, and that sample alone decides the result; it fails only when
    the jiffies counter has advanced by the timeout. *)
Lemma poll_down_timeout_run (reg mask : Z) (w : world) :
  exists r w' steps v,
    poll_down_timeout reg mask w = Some (r, w') /\
    log w' = EvRead reg v :: reverse (poll_trace reg steps) ++ log w /\
    Forall (busy_step mask) steps /\
    now w' = now w + sleep_sum steps /\
    r = (if Z.land v mask =? 0 then 0 else - EAGAIN) /\
    (r <> 0 ->
     now w / TICK_USEC + msecs_to_jiffies TIMEOUT_MS <= now w' / TICK_USEC).
Proof.
  unfold poll_down_timeout. unfold jiffies at 1. unfold bind at 1.
  destruct (poll_down_loop_run reg mask (now w / TICK_USEC + msecs_to_jiffies TIMEOUT_MS)
              poll_budget w) as (r & w1 & steps & Hrun & Hall & Hnow & Hlog).
  { apply poll_budget_enough. }
  rewrite (bind_run _ _ _ _ _ Hrun). destruct r as [z|].
  - destruct Hlog as (v & -> & Hv & Hlog).
    exists 0, w1, steps, v. split; [reflexivity|].
    repeat split; auto.
    + apply Z.eqb_eq in Hv. now rewrite Hv.
    + intros H. now contradiction H.
  - destruct Hlog as [Hlog Hto].
    destruct (r32_run reg w1) as (v & w2 & Hr & _ & Hn2 & Hl2).
    rewrite (bind_run _ _ _ _ _ Hr).
    exists (if Z.land v mask =? 0 then 0 else - EAGAIN), w2, steps, v.
    split; [reflexivity|]. repeat split; auto.
    + now rewrite Hl2, Hlog.
    + lia.
    + intros _. now rewrite Hn2.
Qed.

(** What the rest of the driver needs to know of a wait. *)
Lemma poll_down_timeout_quiet (reg mask : Z) (w : world) :
  exists r w', poll_down_timeout reg mask w = Some (r, w') /\ wrote w [] w' /\
               (r = 0 \/ r = - EAGAIN).
Proof.
  destruct (poll_down_timeout_run reg mask w)
    as (r & w' & steps & v & Hrun & Hlog & _ & _ & Hr & _).
  exists r, w'. split; [exact Hrun|]. split.
  - destruct (poll_trace_quiet reg steps) as [Hw Hs].
    unfold wrote. rewrite Hlog.
    change (EvRead reg v :: ?l) with ([EvRead reg v] ++ l).
    rewrite !writes_app, !resets_app, Hw, Hs. now rewrite !app_nil_r.
  - destruct (Z.land v mask =? 0); auto.
Qed.

Lemma wait_done_run (w : world) :
  exists r w', mtk_i2c_wait_done w = Some (r, w') /\ wrote w [] w'.
Proof.
  destruct (poll_down_timeout_quiet REG_SM0CTL1 SM0_TRI_BUSY w) as (r & w' & H & Hw & _).
  now exists r, w'.
Qed.

Lemma wait_idle_run (w : world) :
  exists r w', mtk_i2c_wait_idle w = Some (r, w') /\ wrote w [] w' /\
               (r = 0 \/ r = - EAGAIN).
Proof. apply poll_down_timeout_quiet. Qed.

(** *** Reset and register dump *)

Lemma reset_run (i2c : mtk_i2c) (w : world) :
  exists w',
    mtk_i2c_reset i2c w = Some (tt, w') /\
    writes (log w') =
      writes (log w) ++
      [(REG_SM0CTL0,
        u32 (Z.lor (Z.lor (Z.lor (Z.lor ODRAIN_HIGH_SM0 VSYNC_PULSE)
                                 (u32 (Z.shiftl (clk_div i2c) CLK_DIV_SHIFT)))
                          WAIT_HIGH) SM0_EN));
       (REG_SM0CFG2, u32 0)] /\
    resets (log w') = S (resets (log w)).
Proof.
  unfold mtk_i2c_reset, bind, device_reset, mtk_i2c_w32. cbn [dev now log].
  eexists. split; [reflexivity|]. cbn [log].
  rewrite !writes_cons, !resets_cons. cbn [is_write is_reset].
  rewrite app_nil_r, <- app_assoc. now split.
Qed.

Lemma dump_reg_run (w : world) :
  exists w', mtk_i2c_dump_reg w = Some (tt, w') /\ wrote w [] w'.
Proof.
  unfold mtk_i2c_dump_reg. destruct dev_dbg_enabled.
  2: { exists w. split; [reflexivity | apply wrote_refl]. }
  assert (Hstep : forall (reg : Z) (k : Z -> M unit) (w0 : world),
             (forall v w1, wrote w0 [] w1 ->
                           exists w', k v w1 = Some (tt, w') /\ wrote w0 [] w') ->
             exists w', bind (mtk_i2c_r32 reg) k w0 = Some (tt, w') /\ wrote w0 [] w').
  { intros reg k w0 Hk. destruct (r32_run reg w0) as (v & w1 & Hr & Hw & _).
    rewrite (bind_run _ _ _ _ _ Hr). now apply Hk. }
  apply Hstep. intros _ w1 H1.
  assert (Hchain : forall (reg : Z) (k : Z -> M unit) (w0 : world),
             wrote w [] w0 ->
             (forall v w1, wrote w [] w1 ->
                           exists w', k v w1 = Some (tt, w') /\ wrote w [] w') ->
             exists w', bind (mtk_i2c_r32 reg) k w0 = Some (tt, w') /\ wrote w [] w').
  { intros reg k w0 H0 Hk. destruct (r32_run reg w0) as (v & w2 & Hr & Hw & _).
    rewrite (bind_run _ _ _ _ _ Hr). apply Hk.
    exact (wrote_trans _ _ _ [] [] H0 Hw). }
  do 8 (apply Hchain; [assumption|]; clear dependent w1; intros _ w1 H1).
  exists w1. now split.
Qed.

(** *** The read path *)

Lemma load_store_other (b : list Z) (k v : Z) :
  1 <= k -> load (store b k v) 0 = load b 0.
Proof.
  intros Hk. unfold load, store. cbn [Z.ltb Z.compare Z.to_nat].
  destruct (k <? 0) eqn:E; [reflexivity|].
  rewrite list_lookup_insert_ne; [reflexivity|]. lia.
Qed.

Lemma length_store (b : list Z) (k v : Z) : length (store b k v) = length b.
Proof. unfold store. destruct (k <? 0); [reflexivity | apply length_insert]. Qed.

Lemma unpack_bytes_keeps (n : nat) :
  forall (i plen d pkt_num off : Z) (b : list Z),
    length (unpack_bytes n i plen d pkt_num off b) = length b /\
    (0 <= i -> 0 <= pkt_num -> 1 <= off ->
     load (unpack_bytes n i plen d pkt_num off b) 0 = load b 0).
Proof.
  induction n as [|n IH]; intros i plen d pkt_num off b; [now split|].
  cbn [unpack_bytes]. destruct (i <? plen); [|now split].
  destruct (IH (i + 1) plen d pkt_num off
               (store b (off + (i + pkt_num * 8)) (Z.shiftr d (8 * i)))) as [Hl Hk].
  split.
  - now rewrite Hl, length_store.
  - intros Hi Hp Ho. rewrite Hk by lia. apply load_store_other. lia.
Qed.

(** [mtk_i2c_read] always returns; it writes one command word per chunk
    and nothing else, and through a pointer past the first byte it leaves the
    first byte alone. *)
Lemma read_loop_run (n : nat) :
  forall (len pkt_num off : Z) (b : list Z) (w : world),
    exists b' w',
      mtk_i2c_read_loop n len pkt_num off b w = Some (b', w') /\
      wrote w (read_ops n len) w' /\
      length b' = length b /\
      (0 <= pkt_num -> 1 <= off -> load b' 0 = load b 0).
Proof.
  induction n as [|n IH]; intros len pkt_num off b w.
  { exists b, w. split; [reflexivity|]. split; [apply wrote_refl|]. now split. }
  cbn [mtk_i2c_read_loop read_ops]. destruct (len >? 0).
  2: { exists b, w. split; [reflexivity|]. split; [apply wrote_refl|]. now split. }
  set (plen := if len >? 8 then 8 else len).
  destruct (w32_run (ctl1_cmd (plen - 1) SM0_MODE_READ_ACK) REG_SM0CTL1 w)
    as (w1 & H1 & Hw1 & _).
  rewrite (bind_run _ _ _ _ _ H1).
  destruct (wait_done_run w1) as (r & w2 & H2 & Hw2).
  rewrite (bind_run _ _ _ _ _ H2).
  destruct (r32_run REG_SM0D0 w2) as (lo & w3 & H3 & Hw3 & _).
  rewrite (bind_run _ _ _ _ _ H3).
  destruct (r32_run REG_SM0D1 w3) as (hi & w4 & H4 & Hw4 & _).
  rewrite (bind_run _ _ _ _ _ H4).
  set (b1 := unpack_bytes 8 0 plen _ pkt_num off b).
  destruct (IH (len - plen) (pkt_num + 1) off b1 w4) as (b' & w' & H5 & Hw5 & Hl & Hk).
  exists b', w'. split; [exact H5|].
  destruct (unpack_bytes_keeps 8 0 plen (Z.lor lo (u64 (Z.shiftl hi 32))) pkt_num off b)
    as [Hl1 Hk1].
  fold b1 in Hl1, Hk1. split; [|split].
  - pose proof (wrote_trans _ _ _ _ _ Hw1
                  (wrote_trans _ _ _ _ _ Hw2
                     (wrote_trans _ _ _ _ _ Hw3
                        (wrote_trans _ _ _ _ _ Hw4 Hw5)))) as H.
    exact H.
  - now rewrite Hl.
  - intros Hp Ho. rewrite Hk by lia. apply Hk1; lia.
Qed.

Lemma read_run (len off : Z) (b : list Z) (w : world) :
  exists b' w',
    mtk_i2c_read len off b w = Some (b', w') /\
    wrote w (read_ops (Z.to_nat len) len) w' /\
    length b' = length b /\
    (1 <= off -> load b' 0 = load b 0).
Proof.
  destruct (read_loop_run (Z.to_nat len) len 0 off b w) as (b' & w' & H & Hw & Hl & Hk).
  exists b', w'. split; [exact H|]. split; [exact Hw|]. split; [exact Hl|].
  intros Ho. apply Hk; lia.
Qed.

(** *** The plain-write loop *)

Lemma write_loop_run (n : nat) :
  forall (mlen plen pkt_num : Z) (b : list Z) (w : world),
    exists w',
      xfer_write_loop n mlen plen pkt_num b w = Some (tt, w') /\
      wrote w (write_ops n mlen plen pkt_num b) w'.
Proof.
  induction n as [|n IH]; intros mlen plen pkt_num b w.
  { exists w. split; [reflexivity | apply wrote_refl]. }
  cbn [xfer_write_loop write_ops]. destruct (plen >? 0).
  2: { exists w. split; [reflexivity | apply wrote_refl]. }
  set (len := if plen >? 8 then 8 else plen).
  set (verb := pack_bytes 8 0 len pkt_num b 0).
  destruct (w32_run verb REG_SM0D0 w) as (w1 & H1 & Hw1 & _).
  rewrite (bind_run _ _ _ _ _ H1).
  destruct (w32_run (Z.shiftr verb 32) REG_SM0D1 w1) as (w2 & H2 & Hw2 & _).
  rewrite (bind_run _ _ _ _ _ H2).
  destruct (w32_run (ctl1_cmd (Z.land (mlen - 1) 0x7) SM0_MODE_WRITE) REG_SM0CTL1 w2)
    as (w3 & H3 & Hw3 & _).
  rewrite (bind_run _ _ _ _ _ H3).
  destruct (wait_done_run w3) as (r & w4 & H4 & Hw4).
  rewrite (bind_run _ _ _ _ _ H4).
  destruct (IH mlen (plen - len) (pkt_num + 1) b w4) as (w' & H5 & Hw5).
  exists w'. split; [exact H5|].
  exact (wrote_trans _ _ _ _ _ Hw1
           (wrote_trans _ _ _ _ _ Hw2
              (wrote_trans _ _ _ _ _ Hw3
                 (wrote_trans _ _ _ _ _ Hw4 Hw5)))).
Qed.

End Basics.

Section Transfer.
Context {P : Platform}.

Arguments mtk_i2c_w32 : simpl never.
Arguments mtk_i2c_wait_done : simpl never.
Arguments mtk_i2c_wait_idle : simpl never.
Arguments mtk_i2c_read : simpl never.
Arguments xfer_msg : simpl never.
Arguments ctl1_cmd : simpl never.

(** *** One message *)

Lemma xfer_stop_run (m : i2c_msg) (b : list Z) (w : world) :
  exists w',
    xfer_stop m b w = Some ((Next, I2c_msg (addr m) (flags m) (len m) b), w') /\
    wrote w [(REG_SM0CTL1, u32 (ctl1_cmd 0 SM0_MODE_STOP))] w'.
Proof.
  unfold xfer_stop.
  destruct (w32_run (ctl1_cmd 0 SM0_MODE_STOP) REG_SM0CTL1 w) as (w1 & H1 & Hw1 & _).
  rewrite (bind_run _ _ _ _ _ H1).
  destruct (wait_done_run w1) as (r & w2 & H2 & Hw2).
  rewrite (bind_run _ _ _ _ _ H2).
  exists w2. split; [reflexivity|]. exact (wrote_trans _ _ _ _ _ Hw1 Hw2).
Qed.

Lemma read_ops_one :
  read_ops (Z.to_nat 1) 1 = [(REG_SM0CTL1, u32 (ctl1_cmd 0 SM0_MODE_READ_ACK))].
Proof. reflexivity. Qed.

(** The data phase always comes back.  It is left by [return -EINVAL] only
    in the block-read branch, exactly when the length byte is out of range, and
    then after one read command and one stop command. *)
Lemma xfer_data_run (m : i2c_msg) (w : world) :
  exists l m' w' ws,
    xfer_data m w = Some ((l, m'), w') /\ wrote w ws w' /\
    (Z.land (u16 (flags m)) I2C_M_RECV_LEN = 0 -> l = Next) /\
    (Z.land (u16 (flags m)) I2C_M_RECV_LEN <> 0 ->
     if (load (buf m') 0 <? I2C_SMBUS_BLOCK_MAX) && (load (buf m') 0 >? 0)
     then l = Next
     else l = Return (- EINVAL) /\
          ws = [(REG_SM0CTL1, u32 (ctl1_cmd 0 SM0_MODE_READ_ACK));
                (REG_SM0CTL1, u32 (ctl1_cmd 0 SM0_MODE_STOP))]).
Proof.
  unfold xfer_data.
  destruct (Z.land (u16 (flags m)) I2C_M_RECV_LEN =? 0) eqn:Hrl; cbn [negb].
  - apply Z.eqb_eq in Hrl.
    destruct (negb (Z.land (u16 (flags m)) I2C_M_RD =? 0)).
    + destruct (read_run (u16 (len m)) 0 (buf m) w) as (b1 & w1 & H1 & Hw1 & _).
      rewrite (bind_run _ _ _ _ _ H1).
      destruct (xfer_stop_run m b1 w1) as (w2 & H2 & Hw2).
      eexists _, _, w2, _. split; [exact H2|].
      split; [exact (wrote_trans _ _ _ _ _ Hw1 Hw2)|]. split; [reflexivity|].
      intros H. now contradiction H.
    + destruct (write_loop_run (Z.to_nat (u16 (len m))) (u16 (len m)) (u16 (len m))
                  0 (buf m) w) as (w1 & H1 & Hw1).
      rewrite (bind_run _ _ _ _ _ H1).
      destruct (xfer_stop_run m (buf m) w1) as (w2 & H2 & Hw2).
      eexists _, _, w2, _. split; [exact H2|].
      split; [exact (wrote_trans _ _ _ _ _ Hw1 Hw2)|]. split; [reflexivity|].
      intros H. now contradiction H.
  - apply Z.eqb_neq in Hrl.
    destruct (read_run 1 0 (buf m) w) as (b1 & w1 & H1 & Hw1 & _).
    rewrite (bind_run _ _ _ _ _ H1). rewrite read_ops_one in Hw1.
    destruct ((load b1 0 <? I2C_SMBUS_BLOCK_MAX) && (load b1 0 >? 0)) eqn:Hn.
    + destruct (read_run (load b1 0) 1 b1 w1) as (b2 & w2 & H2 & Hw2 & _ & Hk).
      rewrite (bind_run _ _ _ _ _ H2).
      destruct (xfer_stop_run m b2 w2) as (w3 & H3 & Hw3).
      eexists _, _, w3, _. split; [exact H3|].
      split; [exact (wrote_trans _ _ _ _ _ Hw1 (wrote_trans _ _ _ _ _ Hw2 Hw3))|].
      split; [intros H; now contradiction Hrl|].
      intros _. cbn [buf]. rewrite Hk by lia. now rewrite Hn.
    + destruct (w32_run (ctl1_cmd 0 SM0_MODE_STOP) REG_SM0CTL1 w1) as (w2 & H2 & Hw2 & _).
      rewrite (bind_run _ _ _ _ _ H2).
      destruct (wait_done_run w2) as (r & w3 & H3 & Hw3).
      rewrite (bind_run _ _ _ _ _ H3).
      eexists _, _, w3, _. split; [reflexivity|].
      split; [exact (wrote_trans _ _ _ _ _ Hw1 (wrote_trans _ _ _ _ _ Hw2 Hw3))|].
      split; [intros H; now contradiction Hrl|].
      intros _. cbn [buf]. rewrite Hn. now split.
Qed.

Lemma xfer_msg_idle_timeout (m : i2c_msg) (w w1 : world) (r : Z) :
  mtk_i2c_wait_idle w = Some (r, w1) -> r <> 0 ->
  xfer_msg m w = Some ((ErrTimeout r, m), w1).
Proof.
  intros Hi Hr. unfold xfer_msg. rewrite (bind_run _ _ _ _ _ Hi).
  apply Z.eqb_neq in Hr. now rewrite Hr.
Qed.

Lemma xfer_msg_ten (m : i2c_msg) (w w1 : world) :
  mtk_i2c_wait_idle w = Some (0, w1) ->
  Z.land (u16 (flags m)) I2C_M_TEN <> 0 ->
  xfer_msg m w = Some ((Return (- EINVAL), m), w1).
Proof.
  intros Hi Ht. unfold xfer_msg. rewrite (bind_run _ _ _ _ _ Hi).
  apply Z.eqb_neq in Ht. now rewrite Ht.
Qed.

Lemma xfer_msg_len0 (m : i2c_msg) (w w1 : world) :
  mtk_i2c_wait_idle w = Some (0, w1) ->
  Z.land (u16 (flags m)) I2C_M_TEN = 0 ->
  u16 (len m) = 0 ->
  exists w2,
    xfer_msg m w = Some ((Return (- EINVAL), m), w2) /\
    wrote w1 [(REG_SM0CFG0, u32 (Z.land (u16 (addr m)) I2C_DEVADDR_MASK))] w2.
Proof.
  intros Hi Ht Hl. unfold xfer_msg. rewrite (bind_run _ _ _ _ _ Hi).
  apply Z.eqb_eq in Ht. rewrite Ht. cbn [negb Z.eqb].
  destruct (w32_run (Z.land (u16 (addr m)) I2C_DEVADDR_MASK) REG_SM0CFG0 w1)
    as (w2 & H2 & Hw2 & _).
  rewrite (bind_run _ _ _ _ _ H2). rewrite Hl. cbn [Z.eqb].
  now exists w2.
Qed.

Lemma xfer_msg_addressed (m : i2c_msg) (w w1 : world) :
  mtk_i2c_wait_idle w = Some (0, w1) ->
  Z.land (u16 (flags m)) I2C_M_TEN = 0 ->
  u16 (len m) <> 0 ->
  exists w2, wrote w1 (addr_ops m) w2 /\ xfer_msg m w = xfer_data m w2.
Proof.
  intros Hi Ht Hl. unfold xfer_msg. rewrite (bind_run _ _ _ _ _ Hi).
  apply Z.eqb_eq in Ht. rewrite Ht. cbn [negb Z.eqb].
  destruct (w32_run (Z.land (u16 (addr m)) I2C_DEVADDR_MASK) REG_SM0CFG0 w1)
    as (w2 & H2 & Hw2 & _).
  rewrite (bind_run _ _ _ _ _ H2).
  apply Z.eqb_neq in Hl. rewrite Hl.
  destruct (w32_run (ctl1_cmd 0 SM0_MODE_START) REG_SM0CTL1 w2) as (w3 & H3 & Hw3 & _).
  rewrite (bind_run _ _ _ _ _ H3).
  destruct (wait_done_run w3) as (r4 & w4 & H4 & Hw4).
  rewrite (bind_run _ _ _ _ _ H4).
  match goal with
  | |- context [bind (mtk_i2c_w32 ?v REG_SM0D0) _ w4] =>
      destruct (w32_run v REG_SM0D0 w4) as (w5 & H5 & Hw5 & _)
  end.
  rewrite (bind_run _ _ _ _ _ H5).
  destruct (w32_run (ctl1_cmd 0 SM0_MODE_WRITE) REG_SM0CTL1 w5) as (w6 & H6 & Hw6 & _).
  rewrite (bind_run _ _ _ _ _ H6).
  destruct (wait_done_run w6) as (r7 & w7 & H7 & Hw7).
  rewrite (bind_run _ _ _ _ _ H7).
  exists w7. split; [|reflexivity].
  exact (wrote_trans _ _ _ _ _ Hw2
           (wrote_trans _ _ _ _ _ Hw3
              (wrote_trans _ _ _ _ _ Hw4
                 (wrote_trans _ _ _ _ _ Hw5
                    (wrote_trans _ _ _ _ _ Hw6 Hw7))))).
Qed.

(** *** The loop over the messages and the entry point *)

(** Once the messages [pre] are executed the loop goes on with what
    follows them. *)
Lemma xfer_loop_app (pre : list i2c_msg) :
  forall (i j : Z) (w w0 : world) (pre' rest : list i2c_msg),
    xfer_loop i pre w = Some ((Next, j, pre'), w0) ->
    j = i + Z.of_nat (length pre) /\
    xfer_loop i (pre ++ rest) w =
      match xfer_loop j rest w0 with
      | Some ((l, k, rest'), w') => Some ((l, k, pre' ++ rest'), w')
      | None => None
      end.
Proof.
  induction pre as [|m pre IH]; intros i j w w0 pre' rest H.
  - cbn in H. injection H as <- <- <-. split; [cbn; lia|].
    cbn [app]. now destruct (xfer_loop i rest w) as [[[[l k] rest'] w']|].
  - cbn [xfer_loop app length] in *. unfold bind at 1 in H. unfold bind at 1.
    destruct (xfer_msg m w) as [[[l m'] w1]|]; [|discriminate].
    destruct l; try discriminate.
    unfold bind at 1 in H.
    destruct (xfer_loop (i + 1) pre w1) as [[[[l' i'] rest'] w2]|] eqn:E;
      [|discriminate].
    cbn in H. injection H as -> -> <- ->.
    destruct (IH _ _ _ _ _ rest E) as [Hj Happ]. split; [lia|].
    unfold bind at 1. rewrite Happ.
    now destruct (xfer_loop j rest w0) as [[[[l k] rest''] w']|].
Qed.

Lemma master_xfer_return (i2c : mtk_i2c) (pre post pre' : list i2c_msg)
      (m m' : i2c_msg) (w w0 w' : world) (j r : Z) :
  xfer_loop 0 pre w = Some ((Next, j, pre'), w0) ->
  xfer_msg m w0 = Some ((Return r, m'), w') ->
  mtk_i2c_master_xfer i2c (pre ++ m :: post) w = Some ((r, pre' ++ m' :: post), w').
Proof.
  intros Hpre Hm. destruct (xfer_loop_app _ _ _ _ _ _ (m :: post) Hpre) as [_ Happ].
  unfold mtk_i2c_master_xfer. unfold bind at 1. rewrite Happ.
  cbn [xfer_loop]. unfold bind at 1. now rewrite Hm.
Qed.

Lemma master_xfer_timeout (i2c : mtk_i2c) (pre post pre' : list i2c_msg)
      (m m' : i2c_msg) (w w0 w1 : world) (j r : Z) :
  xfer_loop 0 pre w = Some ((Next, j, pre'), w0) ->
  xfer_msg m w0 = Some ((ErrTimeout r, m'), w1) ->
  exists w',
    mtk_i2c_master_xfer i2c (pre ++ m :: post) w = Some ((r, pre' ++ m' :: post), w') /\
    resets (log w') = S (resets (log w1)) /\
    exists ctl0, writes (log w') = writes (log w1) ++ [(REG_SM0CTL0, ctl0); (REG_SM0CFG2, 0)].
Proof.
  intros Hpre Hm. destruct (xfer_loop_app _ _ _ _ _ _ (m :: post) Hpre) as [_ Happ].
  unfold mtk_i2c_master_xfer. unfold bind at 1. rewrite Happ.
  cbn [xfer_loop]. unfold bind at 1. rewrite Hm. unfold ret at 1. cbn iota beta.
  destruct (dump_reg_run w1) as (w2 & H2 & Hw2 & Hr2).
  rewrite (bind_run _ _ _ _ _ H2).
  destruct (reset_run i2c w2) as (w3 & H3 & Hw3 & Hr3).
  rewrite (bind_run _ _ _ _ _ H3).
  exists w3. split; [reflexivity|]. split; [now rewrite Hr3, Hr2|].
  eexists. rewrite Hw3, Hw2, app_nil_r. reflexivity.
Qed.

Lemma master_xfer_last (i2c : mtk_i2c) (pre pre' : list i2c_msg)
      (m m' : i2c_msg) (w w0 w' : world) (j : Z) :
  xfer_loop 0 pre w = Some ((Next, j, pre'), w0) ->
  xfer_msg m w0 = Some ((Next, m'), w') ->
  mtk_i2c_master_xfer i2c (pre ++ [m]) w
  = Some ((Z.of_nat (length (pre ++ [m])), pre' ++ [m']), w').
Proof.
  intros Hpre Hm. destruct (xfer_loop_app _ _ _ _ _ _ [m] Hpre) as [Hj Happ].
  unfold mtk_i2c_master_xfer. unfold bind at 1. rewrite Happ.
  cbn [xfer_loop]. unfold bind at 1. rewrite Hm. cbn.
  rewrite length_app. cbn [length]. unfold ret. do 3 f_equal. lia.
Qed.

End Transfer.

(** ** The poller the engine does not use *)

Section PollUp.
Context {P : Platform}.

Lemma poll_up_loop_eq (budget : nat) (reg mask timeout : Z) :
  poll_up_loop budget reg mask timeout =
  (let! status := mtk_i2c_r32 reg in
   if negb (Z.land status mask =? 0) then ret (Some 0)
   else
     let! _ := usleep_range DELAY_INTERVAL_US (DELAY_INTERVAL_US + 50) in
     let! j := jiffies in
     if time_before j timeout then
       match budget with
       | O => trap
       | S b => poll_up_loop b reg mask timeout
       end
     else ret None).
Proof. now destruct budget. Qed.

Lemma poll_up_loop_run (reg mask timeout : Z) (budget : nat) :
  forall w : world,
    timeout * TICK_USEC - now w <= DELAY_INTERVAL_US * (Z.of_nat budget + 1) ->
    exists r w',
      poll_up_loop budget reg mask timeout w = Some (r, w') /\
      match r with
      | Some z => z = 0 /\ exists v l, log w' = EvRead reg v :: l /\ Z.land v mask <> 0
      | None => (exists d l, log w' = EvSleep d :: l) /\ timeout <= now w' / TICK_USEC
      end.
Proof.
  induction budget as [|b IH]; intros w Hb; rewrite poll_up_loop_eq;
    destruct (r32_run reg w) as (v & w1 & Hr & _ & Hn1 & Hl1);
    rewrite (bind_run _ _ _ _ _ Hr);
    (destruct (Z.land v mask =? 0) eqn:Hv; cbn [negb];
     [ | exists (Some 0), w1; split; [reflexivity|]; split; [reflexivity|];
         exists v, (log w); apply Z.eqb_neq in Hv; now split ]);
    destruct (usleep_run DELAY_INTERVAL_US (DELAY_INTERVAL_US + 50) w1)
      as (d & w2 & Hs & _ & Hd & Hn2 & Hl2);
    rewrite (bind_run _ _ _ _ _ Hs);
    unfold jiffies at 1; unfold bind at 1; unfold time_before;
    destruct (now w2 / TICK_USEC <? timeout) eqn:Ht.
  - apply Z.ltb_lt, before_deadline in Ht. unfold DELAY_INTERVAL_US in *. lia.
  - apply Z.ltb_ge in Ht. exists None, w2. split; [reflexivity|].
    split; [now exists d, (log w1) | lia].
  - apply Z.ltb_lt, before_deadline in Ht. apply IH. unfold DELAY_INTERVAL_US in *. lia.
  - apply Z.ltb_ge in Ht. exists None, w2. split; [reflexivity|].
    split; [now exists d, (log w1) | lia].
Qed.

(** X3: [poll_up_timeout], which the engine does not call, always returns too,
    but it has no sample after its last sleep: it returns 0 on a sample that
    found the bit set, and otherwise -ETIMEDOUT straight after the sleep that
    passed the deadline. *)
Theorem poll_up_ends_on_sleep (reg mask : Z) (w : world) :
  exists r w',
    poll_up_timeout reg mask w = Some (r, w') /\
    ((r = 0 /\ exists v l, log w' = EvRead reg v :: l /\ Z.land v mask <> 0) \/
     (r = - ETIMEDOUT /\ (exists d l, log w' = EvSleep d :: l) /\
      now w / TICK_USEC + msecs_to_jiffies TIMEOUT_MS <= now w' / TICK_USEC)).
Proof.
  unfold poll_up_timeout. unfold jiffies at 1. unfold bind at 1.
  destruct (poll_up_loop_run reg mask (now w / TICK_USEC + msecs_to_jiffies TIMEOUT_MS)
              poll_budget w) as (r & w1 & Hrun & Hpost).
  { apply poll_budget_enough. }
  rewrite (bind_run _ _ _ _ _ Hrun). destruct r as [z|].
  - destruct Hpost as (-> & Hlast). exists 0, w1. split; [reflexivity|].
    left. split; [reflexivity | exact Hlast].
  - destruct Hpost as (Hlast & Hlate). exists (- ETIMEDOUT), w1.
    split; [reflexivity|]. right. split; [reflexivity|]. split; [exact Hlast | exact Hlate].
Qed.

End PollUp.

(** ** The loop counters are never what ends a loop

    The loops of the driver are written by recursion on a counter that is at
    least the number of iterations left.  Any two counters that are large
    enough give the same run. *)

Section Counters.
Context {P : Platform}.

Lemma bind_ext {A B : Type} (c : M A) (k k' : A -> M B) (w : world) :
  (forall a w1, k a w1 = k' a w1) -> bind c k w = bind c k' w.
Proof.
  intros H. unfold bind. destruct (c w) as [[a w1]|]; [apply H | reflexivity].
Qed.

Lemma pack_bytes_counter (n : nat) :
  forall (n' : nat) (j len pkt_num : Z) (b : list Z) (verb : Z),
    len - j <= Z.of_nat n -> len - j <= Z.of_nat n' ->
    pack_bytes n j len pkt_num b verb = pack_bytes n' j len pkt_num b verb.
Proof.
  induction n as [|n IH]; intros [|n'] j len pkt_num b verb Hn Hn';
    cbn [pack_bytes]; try reflexivity.
  - destruct (j <? len) eqn:E; [apply Z.ltb_lt in E; lia | reflexivity].
  - destruct (j <? len) eqn:E; [apply Z.ltb_lt in E; lia | reflexivity].
  - destruct (j <? len) eqn:E; [|reflexivity]. apply IH; lia.
Qed.

Lemma unpack_bytes_counter (n : nat) :
  forall (n' : nat) (i plen d pkt_num off : Z) (b : list Z),
    plen - i <= Z.of_nat n -> plen - i <= Z.of_nat n' ->
    unpack_bytes n i plen d pkt_num off b = unpack_bytes n' i plen d pkt_num off b.
Proof.
  induction n as [|n IH]; intros [|n'] i plen d pkt_num off b Hn Hn';
    cbn [unpack_bytes]; try reflexivity.
  - destruct (i <? plen) eqn:E; [apply Z.ltb_lt in E; lia | reflexivity].
  - destruct (i <? plen) eqn:E; [apply Z.ltb_lt in E; lia | reflexivity].
  - destruct (i <? plen) eqn:E; [|reflexivity]. apply IH; lia.
Qed.

Lemma read_loop_counter (n : nat) :
  forall (n' : nat) (len pkt_num off : Z) (b : list Z) (w : world),
    len <= Z.of_nat n -> len <= Z.of_nat n' ->
    mtk_i2c_read_loop n len pkt_num off b w = mtk_i2c_read_loop n' len pkt_num off b w.
Proof.
  induction n as [|n IH]; intros [|n'] len pkt_num off b w Hn Hn';
    cbn [mtk_i2c_read_loop]; try reflexivity.
  - destruct (len >? 0) eqn:E; [apply Z.gtb_lt in E; lia | reflexivity].
  - destruct (len >? 0) eqn:E; [apply Z.gtb_lt in E; lia | reflexivity].
  - destruct (len >? 0) eqn:E; [|reflexivity]. apply Z.gtb_lt in E.
    do 4 (apply bind_ext; intros ? ?). apply IH; destruct (len >? 8); lia.
Qed.

Lemma write_loop_counter (n : nat) :
  forall (n' : nat) (mlen plen pkt_num : Z) (b : list Z) (w : world),
    plen <= Z.of_nat n -> plen <= Z.of_nat n' ->
    xfer_write_loop n mlen plen pkt_num b w = xfer_write_loop n' mlen plen pkt_num b w.
Proof.
  induction n as [|n IH]; intros [|n'] mlen plen pkt_num b w Hn Hn';
    cbn [xfer_write_loop]; try reflexivity.
  - destruct (plen >? 0) eqn:E; [apply Z.gtb_lt in E; lia | reflexivity].
  - destruct (plen >? 0) eqn:E; [apply Z.gtb_lt in E; lia | reflexivity].
  - destruct (plen >? 0) eqn:E; [|reflexivity]. apply Z.gtb_lt in E.
    do 4 (apply bind_ext; intros ? ?). apply IH; destruct (plen >? 8); lia.
Qed.

End Counters.

(** * The claims *)

Section Validation.
Context {P : Platform}.

(** C9, as the code has it.  A message with the 10-bit-address flag set, at
    any place in a request: the messages before it were executed, and the
    controller was found idle.  Then the entry point returns -EINVAL and leaves the message
    untouched; since the idle wait began no register was written and the
    controller was not reset. *)
Theorem ten_bit_address_rejected
        (i2c : mtk_i2c) (pre post pre' : list i2c_msg) (m : i2c_msg)
        (w w0 w1 : world) (j : Z) :
  xfer_loop 0 pre w = Some ((Next, j, pre'), w0) ->
  mtk_i2c_wait_idle w0 = Some (0, w1) ->
  Z.land (u16 (flags m)) I2C_M_TEN <> 0 ->
  mtk_i2c_master_xfer i2c (pre ++ m :: post) w
  = Some ((- EINVAL, pre' ++ m :: post), w1) /\
  writes (log w1) = writes (log w0) /\
  resets (log w1) = resets (log w0).
Proof.
  intros Hpre Hidle Hten. split.
  - eapply master_xfer_return; [exact Hpre|]. now apply xfer_msg_ten.
  - destruct (wait_idle_run w0) as (r & w' & Hrun & [Hw Hr] & _).
    rewrite Hidle in Hrun. injection Hrun as <- <-.
    rewrite app_nil_r in Hw. now split.
Qed.

(** C5, as the code has it.  A message of length 0 without the 10-bit flag,
    at any place in a request, the controller found idle: the entry point
    returns -EINVAL and leaves the message untouched, after exactly one
    register write for that message, the 7-bit address into REG_SM0CFG0; no
    command word is written and the controller is not reset. *)
Theorem zero_length_rejected_after_address
        (i2c : mtk_i2c) (pre post pre' : list i2c_msg) (m : i2c_msg)
        (w w0 w1 : world) (j : Z) :
  xfer_loop 0 pre w = Some ((Next, j, pre'), w0) ->
  mtk_i2c_wait_idle w0 = Some (0, w1) ->
  Z.land (u16 (flags m)) I2C_M_TEN = 0 ->
  u16 (len m) = 0 ->
  exists w2,
    mtk_i2c_master_xfer i2c (pre ++ m :: post) w
    = Some ((- EINVAL, pre' ++ m :: post), w2) /\
    writes (log w2) = writes (log w0) ++ [(REG_SM0CFG0, u16 (addr m) mod 128)] /\
    resets (log w2) = resets (log w0).
Proof.
  intros Hpre Hidle Hten Hlen.
  destruct (xfer_msg_len0 m w0 w1 Hidle Hten Hlen) as (w2 & Hm & Hw2 & Hr2).
  exists w2. split; [eapply master_xfer_return; eauto|].
  destruct (wait_idle_run w0) as (r & w' & Hrun & [Hw Hr] & _).
  rewrite Hidle in Hrun. injection Hrun as <- <-.
  rewrite app_nil_r in Hw. rewrite Hw2, Hr2, Hw, Hr. split; [|reflexivity].
  do 3 f_equal. apply low7_u32.
Qed.

End Validation.

Lemma ten_bit_address_rejected_witness :
  @mtk_i2c_master_xfer sim_platform i2c_400k
     ([msg_write 0x50 [0; 0x10]] ++ I2c_msg 0x50 I2C_M_TEN 1 [0] :: [msg_read 0x50 4])
     (sim_idle [])
  = Some ((- EINVAL,
           [msg_write 0x50 [0; 0x10]] ++ I2c_msg 0x50 I2C_M_TEN 1 [0] :: [msg_read 0x50 4]),
          sim_after_write_sampled) /\
  writes (log sim_after_write_sampled) = writes (log sim_after_write) /\
  resets (log sim_after_write_sampled) = resets (log sim_after_write).
Proof.
  apply (@ten_bit_address_rejected sim_platform i2c_400k
           [msg_write 0x50 [0; 0x10]] [msg_read 0x50 4] [msg_write 0x50 [0; 0x10]]
           (I2c_msg 0x50 I2C_M_TEN 1 [0])
           (sim_idle []) sim_after_write sim_after_write_sampled 1).
  - vm_compute. reflexivity.
  - vm_compute. reflexivity.
  - vm_compute. discriminate.
Defined.

(** C9 as the spec has it fails: the idle wait comes before the flag is
    looked at.  On a controller whose busy bit stays set the 10-bit message
    is not answered with -EINVAL: the wait times out, the entry point returns
    -EAGAIN, the controller is reset and two registers are written. *)
Lemma ten_bit_on_busy_controller_times_out :
  observe (P := sim_platform)
    (mtk_i2c_master_xfer i2c_400k [I2c_msg 0x50 I2C_M_TEN 1 [0]]) sim_stuck_busy
  = Some ((- EAGAIN, [I2c_msg 0x50 I2C_M_TEN 1 [0]]),
          [(REG_SM0CTL0, 0x90640042); (REG_SM0CFG2, 0)], 1%nat) /\
  - EAGAIN <> - EINVAL /\
  [(REG_SM0CTL0, 0x90640042); (REG_SM0CFG2, 0)] <> writes (log sim_stuck_busy).
Proof.
  split; [vm_compute; reflexivity|]. split; [discriminate | vm_compute; discriminate].
Qed.

Lemma zero_length_rejected_after_address_witness :
  exists w2,
    @mtk_i2c_master_xfer sim_platform i2c_400k
       ([msg_write 0x50 [0; 0x10]] ++ I2c_msg 0x44 0 0 [] :: [msg_read 0x50 4])
       (sim_idle [])
    = Some ((- EINVAL,
             [msg_write 0x50 [0; 0x10]] ++ I2c_msg 0x44 0 0 [] :: [msg_read 0x50 4]), w2) /\
    writes (log w2) = writes (log sim_after_write) ++ [(REG_SM0CFG0, u16 0x44 mod 128)] /\
    resets (log w2) = resets (log sim_after_write).
Proof.
  apply (@zero_length_rejected_after_address sim_platform i2c_400k
           [msg_write 0x50 [0; 0x10]] [msg_read 0x50 4] [msg_write 0x50 [0; 0x10]]
           (I2c_msg 0x44 0 0 [])
           (sim_idle []) sim_after_write sim_after_write_sampled 1).
  - vm_compute. reflexivity.
  - vm_compute. reflexivity.
  - reflexivity.
  - reflexivity.
Defined.

(** C5 as the spec has it fails: on an idle controller the zero-length
    message is refused with -EINVAL, but REG_SM0CFG0 has been written. *)
Lemma zero_length_writes_address_register :
  observe (P := sim_platform)
    (mtk_i2c_master_xfer i2c_400k [I2c_msg 0x44 0 0 []]) (sim_idle [])
  = Some ((- EINVAL, [I2c_msg 0x44 0 0 []]), [(REG_SM0CFG0, 0x44)], 0%nat) /\
  [(REG_SM0CFG0, 0x44)] <> writes (log (sim_idle [])).
Proof. split; [vm_compute; reflexivity | vm_compute; discriminate]. Qed.

Section DataPhase.
Context {P : Platform}.

(** C6.  A block-read message that passed the checks, at any place in a
    request, the controller found idle.  The message body always comes back;
    when the first received byte, the one stored in buf[0], is 0 or at least
    I2C_SMBUS_BLOCK_MAX, the entry point returns -EINVAL, and after the start
    and address phase exactly two command words were written: the read of
    the one length byte and one stop.  No second read is issued and the
    controller is not reset. *)
Theorem block_read_bad_length
        (i2c : mtk_i2c) (pre post pre' : list i2c_msg) (m : i2c_msg)
        (w w0 w1 : world) (j : Z) :
  xfer_loop 0 pre w = Some ((Next, j, pre'), w0) ->
  mtk_i2c_wait_idle w0 = Some (0, w1) ->
  Z.land (u16 (flags m)) I2C_M_TEN = 0 ->
  u16 (len m) <> 0 ->
  Z.land (u16 (flags m)) I2C_M_RECV_LEN <> 0 ->
  exists l m' w',
    xfer_msg m w0 = Some ((l, m'), w') /\
    (load (buf m') 0 = 0 \/ I2C_SMBUS_BLOCK_MAX <= load (buf m') 0 ->
     l = Return (- EINVAL) /\
     mtk_i2c_master_xfer i2c (pre ++ m :: post) w
     = Some ((- EINVAL, pre' ++ m' :: post), w') /\
     writes (log w') =
       writes (log w0) ++ addr_ops m ++
       [(REG_SM0CTL1, ctl1_cmd 0 SM0_MODE_READ_ACK);
        (REG_SM0CTL1, ctl1_cmd 0 SM0_MODE_STOP)] /\
     resets (log w') = resets (log w0)).
Proof.
  intros Hpre Hidle Hten Hlen Hrl.
  destruct (xfer_msg_addressed m w0 w1 Hidle Hten Hlen) as (w2 & [Hw2 Hr2] & Heq).
  destruct (xfer_data_run m w2) as (l & m' & w' & ws & Hrun & [Hw Hr] & _ & Hblk).
  specialize (Hblk Hrl). rewrite <- Heq in Hrun.
  exists l, m', w'. split; [exact Hrun|]. intros Hbad.
  destruct ((load (buf m') 0 <? I2C_SMBUS_BLOCK_MAX) && (load (buf m') 0 >? 0)) eqn:Hn.
  { apply andb_true_iff in Hn. destruct Hn as [H1 H2].
    apply Z.ltb_lt in H1. apply Z.gtb_lt in H2. lia. }
  destruct Hblk as [-> ->]. split; [reflexivity|].
  split; [eapply master_xfer_return; eauto|].
  destruct (wait_idle_run w0) as (r & wi & Hi & [Hwi Hri] & _).
  rewrite Hidle in Hi. injection Hi as <- <-. rewrite app_nil_r in Hwi.
  split.
  - rewrite Hw, Hw2, Hwi. now rewrite <- app_assoc.
  - now rewrite Hr, Hr2, Hri.
Qed.

(** C10, as the code has it.  A message without the 10-bit flag whose
    address is above 0x7F, of non-zero length, at the end of a request, the
    controller found idle.  The address is not checked: REG_SM0CFG0 receives
    its low seven bits and the address byte put into REG_SM0D0 is the low
    eight bits of (address << 1) | direction, each followed by its command
    word.  A message that is not a block read is then executed, and the entry
    point reports every message of the request as executed; a block read is
    executed too unless the length byte it received is out of range, the only
    reason left to refuse it. *)
Theorem wide_address_truncated
        (i2c : mtk_i2c) (pre pre' : list i2c_msg) (m : i2c_msg)
        (w w0 w1 : world) (j : Z) :
  xfer_loop 0 pre w = Some ((Next, j, pre'), w0) ->
  mtk_i2c_wait_idle w0 = Some (0, w1) ->
  Z.land (u16 (flags m)) I2C_M_TEN = 0 ->
  0x7F < u16 (addr m) ->
  u16 (len m) <> 0 ->
  exists l m' w' ws,
    xfer_msg m w0 = Some ((l, m'), w') /\
    writes (log w') =
      writes (log w0) ++
      [(REG_SM0CFG0, u16 (addr m) mod 128);
       (REG_SM0CTL1, ctl1_cmd 0 SM0_MODE_START);
       (REG_SM0D0,
        (2 * u16 (addr m)
         + (if negb (Z.land (u16 (flags m)) I2C_M_RD =? 0) then 1 else 0)) mod 256);
       (REG_SM0CTL1, ctl1_cmd 0 SM0_MODE_WRITE)] ++ ws /\
    resets (log w') = resets (log w0) /\
    (Z.land (u16 (flags m)) I2C_M_RECV_LEN = 0 ->
     l = Next /\
     mtk_i2c_master_xfer i2c (pre ++ [m]) w
     = Some ((Z.of_nat (length (pre ++ [m])), pre' ++ [m']), w')) /\
    (Z.land (u16 (flags m)) I2C_M_RECV_LEN <> 0 ->
     l = Next \/
     l = Return (- EINVAL) /\
     (load (buf m') 0 = 0 \/ I2C_SMBUS_BLOCK_MAX <= load (buf m') 0)).
Proof.
  intros Hpre Hidle Hten _ Hlen.
  destruct (xfer_msg_addressed m w0 w1 Hidle Hten Hlen) as (w2 & [Hw2 Hr2] & Heq).
  destruct (xfer_data_run m w2) as (l & m' & w' & ws & Hrun & [Hw Hr] & Hplain & Hblk).
  rewrite <- Heq in Hrun.
  exists l, m', w', ws. split; [exact Hrun|].
  destruct (wait_idle_run w0) as (r & wi & Hi & [Hwi Hri] & _).
  rewrite Hidle in Hi. injection Hi as <- <-. rewrite app_nil_r in Hwi.
  split; [|split; [|split]].
  - rewrite Hw, Hw2, Hwi. unfold addr_ops.
    rewrite low7_u32, addr_byte_u32 by (destruct (negb _); auto).
    now rewrite <- app_assoc.
  - now rewrite Hr, Hr2, Hri.
  - intros Hrl. specialize (Hplain Hrl). subst l. split; [reflexivity|].
    eapply master_xfer_last; eauto.
  - intros Hrl. specialize (Hblk Hrl).
    destruct ((load (buf m') 0 <? I2C_SMBUS_BLOCK_MAX) && (load (buf m') 0 >? 0))
      eqn:Hn; [now left|].
    right. destruct Hblk as [-> _]. split; [reflexivity|].
    apply andb_false_iff in Hn as [Hn | Hn].
    + apply Z.ltb_ge in Hn. now right.
    + rewrite Z.gtb_ltb in Hn. apply Z.ltb_ge in Hn.
      assert (0 <= load (buf m') 0).
      { unfold load. destruct (0 <? 0); [lia|]. unfold u8.
        apply Z.mod_pos_bound. lia. }
      left. lia.
Qed.

End DataPhase.

Lemma block_read_bad_length_witness :
  exists w',
    @mtk_i2c_master_xfer sim_platform i2c_400k
       ([] ++ I2c_msg 0x44 0x401 1 (replicate 34 0) :: []) (sim_idle [(200, 0)])
    = Some ((- EINVAL, [] ++ I2c_msg 0x44 0x401 1 (200 :: replicate 33 0) :: []), w') /\
    writes (log w') =
      writes (log (sim_idle [(200, 0)])) ++
      addr_ops (I2c_msg 0x44 0x401 1 (replicate 34 0)) ++
      [(REG_SM0CTL1, ctl1_cmd 0 SM0_MODE_READ_ACK);
       (REG_SM0CTL1, ctl1_cmd 0 SM0_MODE_STOP)] /\
    resets (log w') = resets (log (sim_idle [(200, 0)])).
Proof.
  destruct (@block_read_bad_length sim_platform i2c_400k [] [] []
              (I2c_msg 0x44 0x401 1 (replicate 34 0))
              (sim_idle [(200, 0)]) (sim_idle [(200, 0)]) (sim_sampled [(200, 0)]) 0)
    as (l & m' & w' & Hrun & Hbad).
  - reflexivity.
  - vm_compute. reflexivity.
  - reflexivity.
  - vm_compute. discriminate.
  - vm_compute. discriminate.
  - vm_compute in Hrun. injection Hrun as Hl Hm Hw.
    rewrite <- Hm in Hbad. destruct Hbad as (_ & Hx & Hws & Hrs).
    + right. vm_compute. discriminate.
    + exists w'. split; [exact Hx|]. split; [exact Hws | exact Hrs].
Defined.

Lemma wide_address_truncated_witness :
  exists m' w' ws,
    @mtk_i2c_master_xfer sim_platform i2c_400k ([] ++ [I2c_msg 0x150 0 1 [0xAB]])
       (sim_idle [])
    = Some ((1, [] ++ [m']), w') /\
    writes (log w') =
      writes (log (sim_idle [])) ++
      [(REG_SM0CFG0, 0x50);
       (REG_SM0CTL1, ctl1_cmd 0 SM0_MODE_START);
       (REG_SM0D0, 0xA0);
       (REG_SM0CTL1, ctl1_cmd 0 SM0_MODE_WRITE)] ++ ws.
Proof.
  destruct (@wide_address_truncated sim_platform i2c_400k [] []
              (I2c_msg 0x150 0 1 [0xAB]) (sim_idle []) (sim_idle []) (sim_sampled []) 0)
    as (l & m' & w' & ws & Hrun & Hws & Hrs & Hplain & _).
  - reflexivity.
  - vm_compute. reflexivity.
  - reflexivity.
  - vm_compute. reflexivity.
  - vm_compute. discriminate.
  - destruct Hplain as [_ Hx]; [reflexivity|].
    exists m', w', ws. split; [exact Hx | exact Hws].
Defined.

(** C10 as the spec has it fails: a message with a wide address is not
    always let through.  With length 0 it is refused with -EINVAL after the
    write to REG_SM0CFG0, and no address byte is put into REG_SM0D0. *)
Lemma wide_address_zero_length_rejected :
  observe (P := sim_platform)
    (mtk_i2c_master_xfer i2c_400k [I2c_msg 0x150 0 0 []]) (sim_idle [])
  = Some ((- EINVAL, [I2c_msg 0x150 0 0 []]), [(REG_SM0CFG0, 0x50)], 0%nat) /\
  - EINVAL <> 1.
Proof. split; [vm_compute; reflexivity | discriminate]. Qed.

Section Clock.
Context {P : Platform}.

(** C7.  [mtk_i2c_init] with a non-zero bus frequency returns; the divisor
    it stores is the quotient of the clock rate by the bus frequency, or
    0xFFF when the quotient is larger, so it is never above 0xFFF; REG_SM0CTL0
    is then written once by the reset.  With 40 MHz and 100 kHz the divisor
    is 400. *)
Theorem clock_divisor_clamped (i2c : mtk_i2c) (w : world) :
  u32 (cur_clk i2c) <> 0 ->
  exists i2c' w',
    mtk_i2c_init i2c w = Some (i2c', w') /\
    cur_clk i2c' = cur_clk i2c /\
    clk_div i2c' = Z.min (u32 (hw_clk_rate (dev w)) / u32 (cur_clk i2c)) 0xFFF /\
    0 <= clk_div i2c' <= 0xFFF /\
    resets (log w') = S (resets (log w)) /\
    (hw_clk_rate (dev w) = 40000000 -> cur_clk i2c = 100000 -> clk_div i2c' = 400).
Proof.
  intros Hcur. unfold mtk_i2c_init, clk_get_rate. unfold bind at 1.
  apply Z.eqb_neq in Hcur. rewrite Hcur. apply Z.eqb_neq in Hcur.
  set (rate := u32 (hw_clk_rate (dev w))). set (cur := u32 (cur_clk i2c)).
  pose proof (u32_range (hw_clk_rate (dev w))) as Hrate. fold rate in Hrate.
  pose proof (u32_range (cur_clk i2c)) as Hc. fold cur in Hc. fold cur in Hcur.
  assert (Hq : 0 <= rate / cur <= rate).
  { split; [apply Z.div_pos; lia|]. apply Z.div_le_upper_bound; nia. }
  rewrite (u32_small (rate / cur)) by lia.
  set (div := if rate / cur >? CLK_DIV_MASK then CLK_DIV_MASK else rate / cur).
  assert (Hdiv : div = Z.min (rate / cur) 0xFFF).
  { unfold div, CLK_DIV_MASK. destruct (rate / cur >? 0xfff) eqn:E.
    - apply Z.gtb_lt in E. lia.
    - rewrite Z.gtb_ltb in E. apply Z.ltb_ge in E. lia. }
  destruct (reset_run (Mtk_i2c (cur_clk i2c) div) w) as (w' & Hrun & _ & Hres).
  rewrite (bind_run _ _ _ _ _ Hrun).
  eexists _, w'. split; [reflexivity|]. cbn [cur_clk clk_div].
  split; [reflexivity|]. split; [exact Hdiv|]. split; [lia|].
  split; [exact Hres|].
  intros H40 H100. rewrite Hdiv. unfold rate, cur. rewrite H40, H100. reflexivity.
Qed.

(** C8.  Both waits of the engine always return, having done nothing but
    sample their register and sleep.  The last thing each does is a sample,
    also when the timeout ran out during the sleep before it; that sample
    decides: 0 when the bit is clear, -EAGAIN when it is set, and -EAGAIN is
    returned only when the jiffies counter has advanced by the timeout. *)
Theorem waits_decided_by_final_sample (w : world) :
  (exists r w', mtk_i2c_wait_idle w = Some (r, w') /\
                polled_down REG_SM0ST I2C_BUSY w r w') /\
  (exists r w', mtk_i2c_wait_done w = Some (r, w') /\
                polled_down REG_SM0CTL1 SM0_TRI_BUSY w r w').
Proof.
  split.
  - destruct (poll_down_timeout_run REG_SM0ST I2C_BUSY w)
      as (r & w' & steps & v & Hrun & H).
    exists r, w'. split; [exact Hrun|]. now exists steps, v.
  - destruct (poll_down_timeout_run REG_SM0CTL1 SM0_TRI_BUSY w)
      as (r & w' & steps & v & Hrun & H).
    exists r, w'. split; [exact Hrun|]. now exists steps, v.
Qed.

End Clock.

Lemma clock_divisor_clamped_witness :
  exists i2c' w',
    @mtk_i2c_init sim_platform (Mtk_i2c 100000 0) (sim_idle []) = Some (i2c', w') /\
    clk_div i2c' = 400 /\
    resets (log w') = 1%nat.
Proof.
  destruct (@clock_divisor_clamped sim_platform (Mtk_i2c 100000 0) (sim_idle []))
    as (i2c' & w' & Hrun & _ & _ & _ & Hrs & H400).
  - vm_compute. discriminate.
  - exists i2c', w'. split; [exact Hrun|]. split; [|exact Hrs].
    apply H400; reflexivity.
Defined.

(** * Where the code departs from the claims *)

Lemma s32_range (x : Z) : - 2 ^ 31 <= s32 x < 2 ^ 31.
Proof. unfold s32. pose proof (Z.mod_pos_bound (x + 2 ^ 31) (2 ^ 32)). lia. Qed.

(** An [int] converted to uint64_t has its upper word all zeros or all
    ones. *)
Lemma sext_high (x : Z) :
  Z.shiftr (u64 (s32 x)) 32 = 0 \/ Z.shiftr (u64 (s32 x)) 32 = 0xFFFFFFFF.
Proof.
  pose proof (s32_range x) as H. rewrite Z.shiftr_div_pow2 by lia. unfold u64.
  destruct (Z_lt_le_dec (s32 x) 0) as [Hn | Hp].
  - right. replace (s32 x mod 2 ^ 64) with (s32 x + 2 ^ 64).
    + symmetry. apply Z.div_unique with (r := s32 x + 2 ^ 32); lia.
    + apply Z.mod_unique with (q := -1); lia.
  - left. rewrite Z.mod_small by lia. apply Z.div_small. lia.
Qed.

Section Packing.
Context {P : Platform}.

Lemma int_shl_high (a n : Z) :
  Z.shiftr (u64 (int_shl a n)) 32 = 0 \/ Z.shiftr (u64 (int_shl a n)) 32 = 0xFFFFFFFF.
Proof. unfold int_shl. destruct ((0 <=? n) && (n <? 32)); apply sext_high. Qed.

(** Once the upper word of [verb] is all ones it stays so. *)
Lemma pack_bytes_high_ones (n : nat) :
  forall (j len pkt_num : Z) (b : list Z) (verb : Z),
    Z.shiftr verb 32 = 0xFFFFFFFF ->
    Z.shiftr (pack_bytes n j len pkt_num b verb) 32 = 0xFFFFFFFF.
Proof.
  induction n as [|n IH]; intros j len pkt_num b verb Hv; [exact Hv|].
  cbn [pack_bytes]. destruct (j <? len); [|exact Hv].
  apply IH. rewrite Z.shiftr_lor, Hv.
  destruct (int_shl_high (load b (j + pkt_num * 8)) (j * 8)) as [-> | ->]; reflexivity.
Qed.

(** The upper word of the packed window is never anything but all zeros
    or all ones: bytes 4 to 7 of a chunk do not reach it. *)
Lemma pack_bytes_high (n : nat) :
  forall (j len pkt_num : Z) (b : list Z) (verb : Z),
    Z.shiftr verb 32 = 0 \/ Z.shiftr verb 32 = 0xFFFFFFFF ->
    Z.shiftr (pack_bytes n j len pkt_num b verb) 32 = 0 \/
    Z.shiftr (pack_bytes n j len pkt_num b verb) 32 = 0xFFFFFFFF.
Proof.
  induction n as [|n IH]; intros j len pkt_num b verb Hv; [exact Hv|].
  cbn [pack_bytes]. destruct (j <? len); [|exact Hv].
  apply IH. rewrite Z.shiftr_lor.
  destruct Hv as [-> | ->];
    destruct (int_shl_high (load b (j + pkt_num * 8)) (j * 8)) as [-> | ->]; auto.
Qed.

Lemma pack_5_high :
  Z.shiftr (pack_bytes 8 0 5 0 [0; 0; 0; 0x80; 1] 0) 32 = 0xFFFFFFFF.
Proof.
  change (pack_bytes 8 0 5 0 [0; 0; 0; 0x80; 1] 0)
    with (pack_bytes 4 4 5 0 [0; 0; 0; 0x80; 1] 0xFFFFFFFF80000000).
  now apply pack_bytes_high_ones.
Qed.

End Packing.

(** C1 at its failing input: a one-byte write to a controller whose
    trigger bit never clears.  Each operation-done wait runs into its timeout
    and returns -EAGAIN, yet the entry point reports the message as executed,
    having written every command word and reset nothing. *)
Theorem done_timeout_is_ignored :
  observe (P := sim_platform) mtk_i2c_wait_done sim_stuck_tri
  = Some (- EAGAIN, [], 0%nat) /\
  observe (P := sim_platform)
    (mtk_i2c_master_xfer i2c_400k [msg_write 0x50 [0]]) sim_stuck_tri
  = Some ((1, [msg_write 0x50 [0]]),
          [(REG_SM0CFG0, 0x50);
           (REG_SM0CTL1, ctl1_cmd 0 SM0_MODE_START);
           (REG_SM0D0, 0xA0);
           (REG_SM0CTL1, ctl1_cmd 0 SM0_MODE_WRITE);
           (REG_SM0D0, 0);
           (REG_SM0D1, 0);
           (REG_SM0CTL1, ctl1_cmd 0 SM0_MODE_WRITE);
           (REG_SM0CTL1, ctl1_cmd 0 SM0_MODE_STOP)],
          0%nat).
Proof. split; vm_compute; reflexivity. Qed.

(** C2 at its failing input: the five bytes 00 00 00 80 01 are one chunk.
    On every platform, whatever it does with the undefined shift, REG_SM0D1
    receives 0xFFFFFFFF where little-endian packing puts 0x00000001: byte 3,
    shifted as an [int], is negative and its sign fills the upper word.  On
    the simulated controller REG_SM0D0 receives 0x80000001. *)
Theorem write_window_sign_extended :
  (forall (P : Platform) (w : world),
      exists w' d0,
        xfer_write_loop (Z.to_nat 5) 5 5 0 [0; 0; 0; 0x80; 1] w = Some (tt, w') /\
        writes (log w') =
          writes (log w) ++
          [(REG_SM0D0, d0); (REG_SM0D1, 0xFFFFFFFF);
           (REG_SM0CTL1, ctl1_cmd 4 SM0_MODE_WRITE)]) /\
  observe (P := sim_platform)
    (mtk_i2c_master_xfer i2c_400k [msg_write 0x50 [0; 0; 0; 0x80; 1]]) (sim_idle [])
  = Some ((1, [msg_write 0x50 [0; 0; 0; 0x80; 1]]),
          [(REG_SM0CFG0, 0x50);
           (REG_SM0CTL1, ctl1_cmd 0 SM0_MODE_START);
           (REG_SM0D0, 0xA0);
           (REG_SM0CTL1, ctl1_cmd 0 SM0_MODE_WRITE);
           (REG_SM0D0, 0x80000001);
           (REG_SM0D1, 0xFFFFFFFF);
           (REG_SM0CTL1, ctl1_cmd 4 SM0_MODE_WRITE);
           (REG_SM0CTL1, ctl1_cmd 0 SM0_MODE_STOP)],
          0%nat).
Proof.
  split; [|vm_compute; reflexivity].
  intros P w.
  destruct (write_loop_run (Z.to_nat 5) 5 5 0 [0; 0; 0; 0x80; 1] w) as (w' & Hrun & Hw & _).
  exists w'. eexists. split; [exact Hrun|]. rewrite Hw.
  change (Z.to_nat 5) with 5%nat. cbn [write_ops Z.gtb Z.compare Z.sub Z.add].
  rewrite pack_5_high. reflexivity.
Qed.

(** C3 at its failing input: the same five bytes written to the echoing
    controller and read back come out as 01 00 00 80 FF. *)
Theorem round_trip_loses_bytes :
  option_map fst
    (@mtk_i2c_master_xfer sim_platform i2c_400k
       [msg_write 0x50 [0; 0; 0; 0x80; 1]; msg_read 0x50 5] (sim_idle []))
  = Some (2, [msg_write 0x50 [0; 0; 0; 0x80; 1];
              I2c_msg 0x50 I2C_M_RD 5 [1; 0; 0; 0x80; 0xFF]]).
Proof. vm_compute. reflexivity. Qed.

(** C4 at its failing input: the ten bytes 01 .. 0A are two chunks.  On
    every platform both command words carry the count field (10 - 1) & 7 = 1,
    and the REG_SM0D1 of the first chunk receives all zeros or all ones where
    the chunk's bytes 05 06 07 08 belong.  On the simulated controller
    REG_SM0D0 receives 0x0C070605, bytes 4 to 7 or-ed over bytes 0 to 3. *)
Theorem write_count_field_kept_window_lost :
  (forall (P : Platform) (w : world),
      exists w' a0 a1 b0 b1,
        xfer_write_loop (Z.to_nat 10) 10 10 0 [1; 2; 3; 4; 5; 6; 7; 8; 9; 10] w
        = Some (tt, w') /\
        writes (log w') =
          writes (log w) ++
          [(REG_SM0D0, a0); (REG_SM0D1, a1); (REG_SM0CTL1, ctl1_cmd 1 SM0_MODE_WRITE);
           (REG_SM0D0, b0); (REG_SM0D1, b1); (REG_SM0CTL1, ctl1_cmd 1 SM0_MODE_WRITE)] /\
        (a1 = 0 \/ a1 = 0xFFFFFFFF)) /\
  observe (P := sim_platform)
    (mtk_i2c_master_xfer i2c_400k [msg_write 0x50 [1; 2; 3; 4; 5; 6; 7; 8; 9; 10]])
    (sim_idle [])
  = Some ((1, [msg_write 0x50 [1; 2; 3; 4; 5; 6; 7; 8; 9; 10]]),
          [(REG_SM0CFG0, 0x50);
           (REG_SM0CTL1, ctl1_cmd 0 SM0_MODE_START);
           (REG_SM0D0, 0xA0);
           (REG_SM0CTL1, ctl1_cmd 0 SM0_MODE_WRITE);
           (REG_SM0D0, 0x0C070605);
           (REG_SM0D1, 0);
           (REG_SM0CTL1, ctl1_cmd 1 SM0_MODE_WRITE);
           (REG_SM0D0, 0x0A09);
           (REG_SM0D1, 0);
           (REG_SM0CTL1, ctl1_cmd 1 SM0_MODE_WRITE);
           (REG_SM0CTL1, ctl1_cmd 0 SM0_MODE_STOP)],
          0%nat).
Proof.
  split; [|vm_compute; reflexivity].
  intros P w.
  destruct (write_loop_run (Z.to_nat 10) 10 10 0 [1; 2; 3; 4; 5; 6; 7; 8; 9; 10] w)
    as (w' & Hrun & Hw & _).
  exists w'. do 4 eexists. split; [exact Hrun|]. rewrite Hw.
  change (Z.to_nat 10) with 10%nat. cbn [write_ops Z.gtb Z.compare Z.sub Z.add Z.opp
    Z.pos_sub Pos.compare Pos.compare_cont Pos.add Pos.succ Z.succ_double Z.pred_double
    Z.double Pos.pred_double].
  split; [reflexivity|].
  assert (H : Z.shiftr (pack_bytes 8 0 8 0 [1; 2; 3; 4; 5; 6; 7; 8; 9; 10] 0) 32 = 0 \/
             Z.shiftr (pack_bytes 8 0 8 0 [1; 2; 3; 4; 5; 6; 7; 8; 9; 10] 0) 32
             = 0xFFFFFFFF)
    by (apply pack_bytes_high; now left).
  destruct H as [H | H]; rewrite H; [now left | now right].
Qed.

(** * What does hold of the timeout path and of the write path *)

Section Recovery.
Context {P : Platform}.

(** The jiffies counter ticks only once per [TICK_USEC]: when it has
    advanced by msecs_to_jiffies(ms), more than [ms] milliseconds less one
    tick have passed, not necessarily all of them. *)
Lemma jiffies_elapsed (ms a b : Z) :
  a / TICK_USEC + msecs_to_jiffies ms <= b / TICK_USEC ->
  ms * 1000 - TICK_USEC < b - a.
Proof.
  intros H. pose proof TICK_USEC_pos as HT. unfold msecs_to_jiffies in H.
  set (T := TICK_USEC) in *.
  pose proof (Z.div_mod a T ltac:(lia)) as Ha.
  pose proof (Z.mod_pos_bound a T HT) as Ha'.
  pose proof (Z.div_mod b T ltac:(lia)) as Hb.
  pose proof (Z.mod_pos_bound b T HT) as Hb'.
  pose proof (Z.div_mod (ms * 1000 + T - 1) T ltac:(lia)) as Hj.
  pose proof (Z.mod_pos_bound (ms * 1000 + T - 1) T HT) as Hj'.
  nia.
Qed.

(** X1: A timeout of the idle wait, at any place in a request: the entry point
    returns -EAGAIN, which is below the number of messages; the message and
    those after it are left as they were; the controller is reset exactly once
    and the two configuration registers are rewritten; the jiffies counter had
    advanced by msecs_to_jiffies(TIMEOUT_MS) during the wait, so that more
    than 1000 ms less one tick had passed (the wait can give up up to one tick
    before the full 1000 ms). *)
Theorem idle_timeout_resets_once
        (i2c : mtk_i2c) (pre post pre' : list i2c_msg) (m : i2c_msg)
        (w w0 w1 : world) (j r : Z) :
  xfer_loop 0 pre w = Some ((Next, j, pre'), w0) ->
  mtk_i2c_wait_idle w0 = Some (r, w1) ->
  r <> 0 ->
  exists w' ctl0,
    mtk_i2c_master_xfer i2c (pre ++ m :: post) w
    = Some ((- EAGAIN, pre' ++ m :: post), w') /\
    - EAGAIN < Z.of_nat (length (pre ++ m :: post)) /\
    resets (log w') = S (resets (log w0)) /\
    writes (log w') = writes (log w0) ++ [(REG_SM0CTL0, ctl0); (REG_SM0CFG2, 0)] /\
    now w0 / TICK_USEC + msecs_to_jiffies TIMEOUT_MS <= now w1 / TICK_USEC /\
    TIMEOUT_MS * 1000 - TICK_USEC < now w1 - now w0.
Proof.
  intros Hpre Hidle Hr.
  destruct (poll_down_timeout_run REG_SM0ST I2C_BUSY w0)
    as (r' & wi & steps & v & Hrun & Hlog & _ & _ & Hres & Hlate).
  fold mtk_i2c_wait_idle in Hrun. rewrite Hidle in Hrun. injection Hrun as <- <-.
  assert (Hr' : r = - EAGAIN) by (destruct (Z.land v I2C_BUSY =? 0); congruence).
  destruct (wait_idle_run w0) as (r2 & w2 & Hi & [Hwi Hri] & _).
  rewrite Hidle in Hi. injection Hi as <- <-. rewrite app_nil_r in Hwi.
  destruct (master_xfer_timeout i2c pre post pre' m m w w0 w1 j r Hpre
              (xfer_msg_idle_timeout m w0 w1 r Hidle Hr))
    as (w' & Hx & Hres' & ctl0 & Hw').
  exists w', ctl0. rewrite <- Hr'. split; [exact Hx|].
  split; [rewrite Hr'; unfold EAGAIN; lia|].
  split; [now rewrite Hres', Hri|]. split; [now rewrite Hw', Hwi|].
  split; [now apply Hlate | apply jiffies_elapsed; now apply Hlate].
Qed.

(** The number of chunks of a plain write. *)
Lemma write_ops_count (n : nat) :
  forall (mlen plen pkt_num : Z) (b : list Z),
    0 <= plen <= Z.of_nat n ->
    Z.of_nat (length (write_ops n mlen plen pkt_num b)) = 3 * ((plen + 7) / 8).
Proof.
  induction n as [|n IH]; intros mlen plen pkt_num b Hp.
  - replace plen with 0 by lia. reflexivity.
  - cbn [write_ops]. destruct (plen >? 0) eqn:E0.
    + apply Z.gtb_lt in E0. destruct (plen >? 8) eqn:E8.
      * apply Z.gtb_lt in E8. cbn [length]. rewrite !Nat2Z.inj_succ, IH by lia.
        replace (plen + 7) with (plen - 8 + 7 + 1 * 8) by lia.
        rewrite Z.div_add by lia. lia.
      * rewrite Z.gtb_ltb in E8. apply Z.ltb_ge in E8.
        cbn [length]. rewrite !Nat2Z.inj_succ, IH by lia.
        replace (plen - plen + 7) with 7 by lia.
        assert ((plen + 7) / 8 = 1) as ->
            by (symmetry; apply Z.div_unique with (r := plen - 1); lia).
        reflexivity.
    + rewrite Z.gtb_ltb in E0. apply Z.ltb_ge in E0. replace plen with 0 by lia.
      reflexivity.
Qed.

(** Every chunk is two data-register writes followed by the same command
    word, whose count field is (mlen - 1) & 7. *)
Lemma write_ops_shape (n : nat) :
  forall (mlen plen pkt_num : Z) (b : list Z),
    exists chunks : list (Z * Z),
      write_ops n mlen plen pkt_num b = flat_map (chunk_ops mlen) chunks.
Proof.
  induction n as [|n IH]; intros mlen plen pkt_num b; [now exists []|].
  cbn [write_ops]. destruct (plen >? 0); [|now exists []].
  set (len := if plen >? 8 then 8 else plen).
  destruct (IH mlen (plen - len) (pkt_num + 1) b) as (chunks & ->).
  eexists ((_, _) :: chunks). cbn [flat_map chunk_ops fst snd app]. do 3 f_equal.
  f_equal.
  assert (H : 0 <= Z.land (mlen - 1) 7 < 8).
  { change 7 with (Z.ones 3). rewrite Z.land_ones by lia. apply Z.mod_pos_bound. lia. }
  set (pg := Z.land (mlen - 1) 7) in *. clearbody pg.
  assert (Hpg : pg = 0 \/ pg = 1 \/ pg = 2 \/ pg = 3 \/ pg = 4 \/ pg = 5 \/ pg = 6 \/ pg = 7)
    by lia.
  repeat destruct Hpg as [-> | Hpg]; try subst pg; reflexivity.
Qed.

Lemma length_chunk_ops (mlen : Z) (chunks : list (Z * Z)) :
  length (flat_map (chunk_ops mlen) chunks) = (3 * length chunks)%nat.
Proof.
  induction chunks as [|c chunks IH]; [reflexivity|].
  cbn [flat_map chunk_ops app length]. rewrite IH. lia.
Qed.

(** X2: The plain-write loop on a message of [L] bytes always returns, having
    issued ceil(L/8) write operations: for each, the two data registers are
    written and then the command word, and every command word carries the
    count field (L - 1) & 7, whichever chunk it triggers.  Nothing else is
    written and the controller is not reset. *)
Theorem write_path_operations (m : i2c_msg) (w : world) :
  exists w' chunks,
    xfer_write_loop (Z.to_nat (u16 (len m))) (u16 (len m)) (u16 (len m)) 0 (buf m) w
    = Some (tt, w') /\
    writes (log w') = writes (log w) ++ flat_map (chunk_ops (u16 (len m))) chunks /\
    Z.of_nat (length chunks) = (u16 (len m) + 7) / 8 /\
    resets (log w') = resets (log w).
Proof.
  pose proof (u16_range (len m)) as HL. set (L := u16 (len m)) in *.
  destruct (write_loop_run (Z.to_nat L) L L 0 (buf m) w) as (w' & Hrun & Hw & Hr).
  destruct (write_ops_shape (Z.to_nat L) L L 0 (buf m)) as (chunks & Hshape).
  exists w', chunks. split; [exact Hrun|]. split; [now rewrite Hw, Hshape|].
  split; [|exact Hr].
  pose proof (write_ops_count (Z.to_nat L) L L 0 (buf m)) as Hc.
  rewrite Hshape, length_chunk_ops in Hc. lia.
Qed.

End Recovery.

Lemma idle_timeout_resets_once_witness :
  exists w' ctl0,
    @mtk_i2c_master_xfer sim_platform i2c_400k
       ([] ++ msg_write 0x50 [0; 0x10] :: [msg_read 0x50 4]) sim_stuck_busy
    = Some ((- EAGAIN, [] ++ msg_write 0x50 [0; 0x10] :: [msg_read 0x50 4]), w') /\
    - EAGAIN < Z.of_nat (length ([] ++ msg_write 0x50 [0; 0x10] :: [msg_read 0x50 4])) /\
    resets (log w') = S (resets (log sim_stuck_busy)) /\
    writes (log w') = writes (log sim_stuck_busy) ++ [(REG_SM0CTL0, ctl0); (REG_SM0CFG2, 0)] /\
    now sim_stuck_busy / @TICK_USEC sim_platform
    + @msecs_to_jiffies sim_platform TIMEOUT_MS
    <= now sim_timed_out / @TICK_USEC sim_platform /\
    TIMEOUT_MS * 1000 - @TICK_USEC sim_platform < now sim_timed_out - now sim_stuck_busy.
Proof.
  apply (@idle_timeout_resets_once sim_platform i2c_400k [] [msg_read 0x50 4] []
           (msg_write 0x50 [0; 0x10]) sim_stuck_busy sim_stuck_busy sim_timed_out 0
           (- EAGAIN)).
  - reflexivity.
  - vm_compute. reflexivity.
  - vm_compute. discriminate.
Defined.

Section DoneWaits.
Context {P : Platform}.

(** X4: A message that is not a block read, passed the checks and is the last
    of its request, the controller found idle: whatever the operation-done
    waits return, the message is left by falling through to the next
    iteration, the entry point reports every message of the request as
    executed, and the controller is not reset. *)
Theorem done_waits_never_abort
        (i2c : mtk_i2c) (pre pre' : list i2c_msg) (m : i2c_msg)
        (w w0 w1 : world) (j : Z) :
  xfer_loop 0 pre w = Some ((Next, j, pre'), w0) ->
  mtk_i2c_wait_idle w0 = Some (0, w1) ->
  Z.land (u16 (flags m)) I2C_M_TEN = 0 ->
  u16 (len m) <> 0 ->
  Z.land (u16 (flags m)) I2C_M_RECV_LEN = 0 ->
  exists m' w',
    xfer_msg m w0 = Some ((Next, m'), w') /\
    mtk_i2c_master_xfer i2c (pre ++ [m]) w
    = Some ((Z.of_nat (length (pre ++ [m])), pre' ++ [m']), w') /\
    resets (log w') = resets (log w0).
Proof.
  intros Hpre Hidle Hten Hlen Hrl.
  destruct (xfer_msg_addressed m w0 w1 Hidle Hten Hlen) as (w2 & [Hw2 Hr2] & Heq).
  destruct (xfer_data_run m w2) as (l & m' & w' & ws & Hrun & [Hw Hr] & Hplain & _).
  rewrite <- Heq in Hrun. rewrite (Hplain Hrl) in Hrun.
  destruct (wait_idle_run w0) as (r & wi & Hi & [Hwi Hri] & _).
  rewrite Hidle in Hi. injection Hi as <- <-.
  exists m', w'. split; [exact Hrun|].
  split; [eapply master_xfer_last; eauto | now rewrite Hr, Hr2, Hri].
Qed.

End DoneWaits.

Lemma done_waits_never_abort_witness :
  exists m' w',
    @xfer_msg sim_platform (msg_write 0x50 [0]) sim_stuck_tri = Some ((Next, m'), w') /\
    @mtk_i2c_master_xfer sim_platform i2c_400k ([] ++ [msg_write 0x50 [0]]) sim_stuck_tri
    = Some ((Z.of_nat (length ([] ++ [msg_write 0x50 [0]])), [] ++ [m']), w') /\
    resets (log w') = resets (log sim_stuck_tri).
Proof.
  apply (@done_waits_never_abort sim_platform i2c_400k [] [] (msg_write 0x50 [0])
           sim_stuck_tri sim_stuck_tri sim_stuck_tri_sampled 0).
  - reflexivity.
  - vm_compute. reflexivity.
  - reflexivity.
  - vm_compute. discriminate.
  - reflexivity.
Defined.

Section Totality.
Context {P : Platform}.

(** The body of the loop always comes back, in one of three ways, and
    never resets the controller itself. *)
Lemma xfer_msg_total (m : i2c_msg) (w : world) :
  exists l m' w',
    xfer_msg m w = Some ((l, m'), w') /\
    (l = Next \/ l = Return (- EINVAL) \/ l = ErrTimeout (- EAGAIN)) /\
    resets (log w') = resets (log w).
Proof.
  destruct (wait_idle_run w) as (r & w1 & Hidle & [_ Hr1] & Hr).
  destruct Hr as [-> | ->].
  2: { exists (ErrTimeout (- EAGAIN)), m, w1.
       split; [apply xfer_msg_idle_timeout; [exact Hidle | discriminate]|].
       split; [auto | exact Hr1]. }
  destruct (Z.eq_dec (Z.land (u16 (flags m)) I2C_M_TEN) 0) as [Hten | Hten].
  2: { exists (Return (- EINVAL)), m, w1.
       split; [now apply xfer_msg_ten|]. split; [auto | exact Hr1]. }
  destruct (Z.eq_dec (u16 (len m)) 0) as [Hlen | Hlen].
  { destruct (xfer_msg_len0 m w w1 Hidle Hten Hlen) as (w2 & Hm & _ & Hr2).
    exists (Return (- EINVAL)), m, w2. split; [exact Hm|].
    split; [auto | now rewrite Hr2]. }
  destruct (xfer_msg_addressed m w w1 Hidle Hten Hlen) as (w2 & [_ Hr2] & Heq).
  destruct (xfer_data_run m w2) as (l & m' & w' & ws & Hrun & [_ Hr3] & Hplain & Hblk).
  rewrite <- Heq in Hrun. exists l, m', w'. split; [exact Hrun|].
  split; [|now rewrite Hr3, Hr2].
  destruct (Z.eq_dec (Z.land (u16 (flags m)) I2C_M_RECV_LEN) 0) as [Hrl | Hrl].
  - left. now apply Hplain.
  - specialize (Hblk Hrl).
    destruct ((load (buf m') 0 <? I2C_SMBUS_BLOCK_MAX) && (load (buf m') 0 >? 0));
      [now left | right; left; apply Hblk].
Qed.

Lemma xfer_loop_total (msgs : list i2c_msg) :
  forall (i : Z) (w : world),
    exists l k msgs' w',
      xfer_loop i msgs w = Some ((l, k, msgs'), w') /\
      (l = Next /\ k = i + Z.of_nat (length msgs) \/
       l = Return (- EINVAL) \/ l = ErrTimeout (- EAGAIN)) /\
      length msgs' = length msgs /\
      resets (log w') = resets (log w).
Proof.
  induction msgs as [|m msgs IH]; intros i w.
  - exists Next, i, [], w. split; [reflexivity|]. cbn [length].
    split; [left; split; [reflexivity | lia] | now split].
  - cbn [xfer_loop]. destruct (xfer_msg_total m w) as (l & m' & w1 & Hm & Hl & Hr1).
    rewrite (bind_run _ _ _ _ _ Hm). cbn beta iota.
    destruct Hl as [-> | [-> | ->]].
    + destruct (IH (i + 1) w1) as (l & k & msgs' & w' & Hrun & Hl & Hlen & Hr).
      rewrite (bind_run _ _ _ _ _ Hrun). cbn beta iota.
      exists l, k, (m' :: msgs'), w'. split; [reflexivity|]. cbn [length].
      split; [|split; [now rewrite Hlen | now rewrite Hr, Hr1]].
      destruct Hl as [[-> ->] | Hl]; [left; split; [reflexivity | lia] | now right].
    + exists (Return (- EINVAL)), i, (m' :: msgs), w1. split; [reflexivity|].
      split; [auto | now split].
    + exists (ErrTimeout (- EAGAIN)), i, (m' :: msgs), w1. split; [reflexivity|].
      split; [auto | now split].
Qed.

(** X5: The transfer entry point always returns, whatever the request and the
    controller: with the number of messages, with -EINVAL or with -EAGAIN.
    The controller is reset exactly once when the result is -EAGAIN and not
    at all otherwise. *)
Theorem master_xfer_returns (i2c : mtk_i2c) (msgs : list i2c_msg) (w : world) :
  exists r msgs' w',
    mtk_i2c_master_xfer i2c msgs w = Some ((r, msgs'), w') /\
    length msgs' = length msgs /\
    (r = Z.of_nat (length msgs) /\ resets (log w') = resets (log w) \/
     r = - EINVAL /\ resets (log w') = resets (log w) \/
     r = - EAGAIN /\ resets (log w') = S (resets (log w))).
Proof.
  unfold mtk_i2c_master_xfer.
  destruct (xfer_loop_total msgs 0 w) as (l & k & msgs' & w1 & Hrun & Hl & Hlen & Hr).
  rewrite (bind_run _ _ _ _ _ Hrun). cbn beta iota.
  destruct Hl as [[-> ->] | [-> | ->]].
  - exists (Z.of_nat (length msgs)), msgs', w1.
    split; [unfold ret; do 3 f_equal; lia|]. split; [exact Hlen|]. now left.
  - exists (- EINVAL), msgs', w1. split; [reflexivity|]. split; [exact Hlen|].
    right. now left.
  - destruct (dump_reg_run w1) as (w2 & H2 & _ & Hr2).
    rewrite (bind_run _ _ _ _ _ H2).
    destruct (reset_run i2c w2) as (w3 & H3 & _ & Hr3).
    rewrite (bind_run _ _ _ _ _ H3).
    exists (- EAGAIN), msgs', w3. split; [reflexivity|]. split; [exact Hlen|].
    right. right. split; [reflexivity|]. now rewrite Hr3, Hr2, Hr.
Qed.

End Totality.

(** The two-message request of the specification on the simulated
    controller: a write of 00 10 to 0x50, then a read of four bytes from
    0x50.  Each message is start, address byte, one data operation and stop;
    the write carries its two bytes in REG_SM0D0 with count field 1, the read
    asks for count field 3; the result is 2. *)
Theorem write_then_read_scenario :
  observe (P := sim_platform)
    (mtk_i2c_master_xfer i2c_400k [msg_write 0x50 [0; 0x10]; msg_read 0x50 4])
    (sim_idle [])
  = Some ((2, [msg_write 0x50 [0; 0x10]; I2c_msg 0x50 I2C_M_RD 4 [0; 0x10; 0; 0]]),
          [(REG_SM0CFG0, 0x50);
           (REG_SM0CTL1, ctl1_cmd 0 SM0_MODE_START);
           (REG_SM0D0, 0xA0);
           (REG_SM0CTL1, ctl1_cmd 0 SM0_MODE_WRITE);
           (REG_SM0D0, 0x1000);
           (REG_SM0D1, 0);
           (REG_SM0CTL1, ctl1_cmd 1 SM0_MODE_WRITE);
           (REG_SM0CTL1, ctl1_cmd 0 SM0_MODE_STOP);
           (REG_SM0CFG0, 0x50);
           (REG_SM0CTL1, ctl1_cmd 0 SM0_MODE_START);
           (REG_SM0D0, 0xA1);
           (REG_SM0CTL1, ctl1_cmd 0 SM0_MODE_WRITE);
           (REG_SM0CTL1, ctl1_cmd 3 SM0_MODE_READ_ACK);
           (REG_SM0CTL1, ctl1_cmd 0 SM0_MODE_STOP)],
          0%nat).
Proof. vm_compute. reflexivity. Qed.

(** * The register writes of a message, and what a request keeps *)

Lemma ctl1_cmd_layout (pglen mode : Z) :
  0 <= pglen < 8 -> 0 <= mode < 8 ->
  u32 (ctl1_cmd pglen mode) = ctl1_cmd pglen mode /\
  Z.land (Z.shiftr (ctl1_cmd pglen mode) SM0_MODE_SHIFT) SM0_MODE_MASK = mode.
Proof.
  intros Hp Hm.
  assert (Hpg : pglen = 0 \/ pglen = 1 \/ pglen = 2 \/ pglen = 3 \/
                pglen = 4 \/ pglen = 5 \/ pglen = 6 \/ pglen = 7) by lia.
  assert (Hmd : mode = 0 \/ mode = 1 \/ mode = 2 \/ mode = 3 \/
                mode = 4 \/ mode = 5 \/ mode = 6 \/ mode = 7) by lia.
  clear Hp Hm.
  repeat destruct Hpg as [-> | Hpg]; try subst pglen;
    repeat destruct Hmd as [-> | Hmd]; try subst mode;
    repeat split; reflexivity.
Qed.

(** X6: The fields of a command word do not overlap: written with a count
    field and a mode below 8, the word fits 32 bits and the layout the driver
    #defines reads back the acknowledge mask 0xFF, the count field, the mode
    and the trigger bit. *)
Theorem ctl1_cmd_fields (pglen mode : Z) :
  0 <= pglen < 8 -> 0 <= mode < 8 ->
  u32 (ctl1_cmd pglen mode) = ctl1_cmd pglen mode /\
  Z.land (Z.shiftr (ctl1_cmd pglen mode) ACK_SHIFT) ACK_MASK = 0xFF /\
  Z.land (Z.shiftr (ctl1_cmd pglen mode) PGLEN_SHIFT) PGLEN_MASK = pglen /\
  Z.land (Z.shiftr (ctl1_cmd pglen mode) SM0_MODE_SHIFT) SM0_MODE_MASK = mode /\
  Z.land (ctl1_cmd pglen mode) SM0_TRI_BUSY = 1.
Proof.
  intros Hp Hm.
  assert (Hpg : pglen = 0 \/ pglen = 1 \/ pglen = 2 \/ pglen = 3 \/
                pglen = 4 \/ pglen = 5 \/ pglen = 6 \/ pglen = 7) by lia.
  assert (Hmd : mode = 0 \/ mode = 1 \/ mode = 2 \/ mode = 3 \/
                mode = 4 \/ mode = 5 \/ mode = 6 \/ mode = 7) by lia.
  clear Hp Hm.
  repeat destruct Hpg as [-> | Hpg]; try subst pglen;
    repeat destruct Hmd as [-> | Hmd]; try subst mode;
    repeat split; reflexivity.
Qed.

Lemma ctl1_cmd_fields_witness :
  u32 (ctl1_cmd 7 SM0_MODE_READ_ACK) = ctl1_cmd 7 SM0_MODE_READ_ACK /\
  Z.land (Z.shiftr (ctl1_cmd 7 SM0_MODE_READ_ACK) ACK_SHIFT) ACK_MASK = 0xFF /\
  Z.land (Z.shiftr (ctl1_cmd 7 SM0_MODE_READ_ACK) PGLEN_SHIFT) PGLEN_MASK = 7 /\
  Z.land (Z.shiftr (ctl1_cmd 7 SM0_MODE_READ_ACK) SM0_MODE_SHIFT) SM0_MODE_MASK
  = SM0_MODE_READ_ACK /\
  Z.land (ctl1_cmd 7 SM0_MODE_READ_ACK) SM0_TRI_BUSY = 1.
Proof.
  apply (ctl1_cmd_fields 7 SM0_MODE_READ_ACK); unfold SM0_MODE_READ_ACK; lia.
Defined.

(** ** Counting commands *)

Ltac xfer_reg_now :=
  unfold xfer_reg; cbn [fst];
  first [ left; reflexivity
        | right; left; reflexivity
        | right; right; left; reflexivity
        | right; right; right; reflexivity ].

Ltac forall_xfer_reg :=
  repeat (constructor 2; [xfer_reg_now|]); try (constructor 1); try assumption.

Lemma count_cmd_app (mode : Z) (a b : list (Z * Z)) :
  count_cmd mode (a ++ b) = (count_cmd mode a + count_cmd mode b)%nat.
Proof. unfold count_cmd. now rewrite List.filter_app, length_app. Qed.

Lemma count_cmd_cons (mode : Z) (rv : Z * Z) (ws : list (Z * Z)) :
  count_cmd mode (rv :: ws)
  = ((if is_cmd mode rv then 1 else 0) + count_cmd mode ws)%nat.
Proof. unfold count_cmd. cbn [List.filter]. now destruct (is_cmd mode rv). Qed.

(** A command word of mode [mode'] counts for mode [mode] only. *)
Lemma is_cmd_word (mode pglen mode' : Z) :
  0 <= pglen < 8 -> 0 <= mode' < 8 ->
  is_cmd mode (REG_SM0CTL1, u32 (ctl1_cmd pglen mode')) = (mode' =? mode).
Proof.
  intros Hp Hm. destruct (ctl1_cmd_layout pglen mode' Hp Hm) as (Hu & Hmode).
  unfold is_cmd. cbn [fst snd]. now rewrite Hu, Hmode, Z.eqb_refl.
Qed.

Lemma is_cmd_raw (mode pglen mode' : Z) :
  0 <= pglen < 8 -> 0 <= mode' < 8 ->
  is_cmd mode (REG_SM0CTL1, ctl1_cmd pglen mode') = (mode' =? mode).
Proof.
  intros Hp Hm. destruct (ctl1_cmd_layout pglen mode' Hp Hm) as (_ & Hmode).
  unfold is_cmd. cbn [fst snd]. now rewrite Hmode, Z.eqb_refl.
Qed.

Lemma is_cmd_other (mode r v : Z) :
  r <> REG_SM0CTL1 -> is_cmd mode (r, v) = false.
Proof. intros H. unfold is_cmd. cbn [fst]. apply Z.eqb_neq in H. now rewrite H. Qed.

Lemma read_ops_cmds (n : nat) :
  forall len : Z,
    Forall xfer_reg (read_ops n len) /\
    count_cmd SM0_MODE_START (read_ops n len) = 0%nat /\
    count_cmd SM0_MODE_STOP (read_ops n len) = 0%nat.
Proof.
  induction n as [|n IH]; intros len; [now repeat split|].
  cbn [read_ops]. destruct (len >? 0) eqn:E; [|now repeat split].
  apply Z.gtb_lt in E. destruct (IH (len - (if len >? 8 then 8 else len))) as (Hf & Hs & Ht).
  assert (Hp : 0 <= (if len >? 8 then 8 else len) - 1 < 8).
  { destruct (len >? 8) eqn:E8; [lia|]. rewrite Z.gtb_ltb in E8. apply Z.ltb_ge in E8. lia. }
  rewrite !count_cmd_cons, !is_cmd_word, Hs, Ht by (unfold SM0_MODE_READ_ACK; lia).
  split; [forall_xfer_reg | now split].
Qed.

Section Counting.
Context {P : Platform}.

Lemma chunk_ops_cmds (mlen : Z) (chunks : list (Z * Z)) :
  Forall xfer_reg (flat_map (chunk_ops mlen) chunks) /\
  count_cmd SM0_MODE_START (flat_map (chunk_ops mlen) chunks) = 0%nat /\
  count_cmd SM0_MODE_STOP (flat_map (chunk_ops mlen) chunks) = 0%nat.
Proof.
  assert (Hp : 0 <= Z.land (mlen - 1) 7 < 8).
  { change 7 with (Z.ones 3). rewrite Z.land_ones by lia. apply Z.mod_pos_bound. lia. }
  induction chunks as [|c chunks (Hf & Hs & Ht)]; [now repeat split|].
  cbn [flat_map chunk_ops app]. rewrite !count_cmd_cons, Hs, Ht.
  rewrite !(is_cmd_other _ REG_SM0D0), !(is_cmd_other _ REG_SM0D1) by discriminate.
  rewrite !is_cmd_raw by (unfold SM0_MODE_WRITE; lia).
  split; [forall_xfer_reg | now split].
Qed.

Lemma write_ops_cmds (n : nat) (mlen plen pkt_num : Z) (b : list Z) :
  Forall xfer_reg (write_ops n mlen plen pkt_num b) /\
  count_cmd SM0_MODE_START (write_ops n mlen plen pkt_num b) = 0%nat /\
  count_cmd SM0_MODE_STOP (write_ops n mlen plen pkt_num b) = 0%nat.
Proof.
  destruct (write_ops_shape n mlen plen pkt_num b) as (chunks & ->).
  apply chunk_ops_cmds.
Qed.

Lemma addr_ops_cmds (m : i2c_msg) :
  Forall xfer_reg (addr_ops m) /\
  count_cmd SM0_MODE_START (addr_ops m) = 1%nat /\
  count_cmd SM0_MODE_STOP (addr_ops m) = 0%nat.
Proof.
  split; [unfold addr_ops; forall_xfer_reg | split; reflexivity].
Qed.

Lemma data_ops_cmds (m : i2c_msg) (n0 : Z) :
  Forall xfer_reg (data_ops m n0) /\
  count_cmd SM0_MODE_START (data_ops m n0) = 0%nat /\
  count_cmd SM0_MODE_STOP (data_ops m n0) = 1%nat.
Proof.
  unfold data_ops.
  assert (Hstop : Forall xfer_reg [(REG_SM0CTL1, ctl1_cmd 0 SM0_MODE_STOP)] /\
                  count_cmd SM0_MODE_START [(REG_SM0CTL1, ctl1_cmd 0 SM0_MODE_STOP)] = 0%nat /\
                  count_cmd SM0_MODE_STOP [(REG_SM0CTL1, ctl1_cmd 0 SM0_MODE_STOP)] = 1%nat).
  { split; [forall_xfer_reg | split; reflexivity]. }
  destruct Hstop as (Hf & Hs & Ht).
  assert (Hbody : forall ws, Forall xfer_reg ws /\ count_cmd SM0_MODE_START ws = 0%nat /\
                             count_cmd SM0_MODE_STOP ws = 0%nat ->
            Forall xfer_reg (ws ++ [(REG_SM0CTL1, ctl1_cmd 0 SM0_MODE_STOP)]) /\
            count_cmd SM0_MODE_START (ws ++ [(REG_SM0CTL1, ctl1_cmd 0 SM0_MODE_STOP)]) = 0%nat /\
            count_cmd SM0_MODE_STOP (ws ++ [(REG_SM0CTL1, ctl1_cmd 0 SM0_MODE_STOP)]) = 1%nat).
  { intros ws (Hf' & Hs' & Ht'). rewrite !count_cmd_app, Hs, Ht, Hs', Ht'.
    split; [apply Forall_app; now split | now split]. }
  apply Hbody.
  destruct (negb (Z.land (u16 (flags m)) I2C_M_RECV_LEN =? 0)).
  - destruct (read_ops_cmds (Z.to_nat 1) 1) as (Hf1 & Hs1 & Ht1).
    destruct ((n0 <? I2C_SMBUS_BLOCK_MAX) && (n0 >? 0)).
    + destruct (read_ops_cmds (Z.to_nat n0) n0) as (Hf2 & Hs2 & Ht2).
      rewrite !count_cmd_app, Hs1, Ht1, Hs2, Ht2.
      split; [apply Forall_app; now split | now split].
    + rewrite app_nil_r. now repeat split.
  - destruct (negb (Z.land (u16 (flags m)) I2C_M_RD =? 0)).
    + apply read_ops_cmds.
    + apply write_ops_cmds.
Qed.

End Counting.

Section Trace.
Context {P : Platform}.

Lemma stop_word : u32 (ctl1_cmd 0 SM0_MODE_STOP) = ctl1_cmd 0 SM0_MODE_STOP.
Proof. reflexivity. Qed.

(** The data phase always comes back, having written what [data_ops] lists
    for the length byte it stored, left as [data_leave] says, the message
    kept. *)
Lemma xfer_data_trace (m : i2c_msg) (w : world) :
  exists l m' w',
    xfer_data m w = Some ((l, m'), w') /\
    wrote w (data_ops m (load (buf m') 0)) w' /\
    l = data_leave m (load (buf m') 0) /\
    msg_kept m m'.
Proof.
  unfold xfer_data, data_ops, data_leave, msg_kept.
  destruct (Z.land (u16 (flags m)) I2C_M_RECV_LEN =? 0) eqn:Hrl; cbn [negb andb].
  - apply Z.eqb_eq in Hrl.
    destruct (Z.land (u16 (flags m)) I2C_M_RD =? 0) eqn:Hrd; cbn [negb].
    + apply Z.eqb_eq in Hrd.
      destruct (write_loop_run (Z.to_nat (u16 (len m))) (u16 (len m)) (u16 (len m))
                  0 (buf m) w) as (w1 & H1 & Hw1).
      rewrite (bind_run _ _ _ _ _ H1).
      destruct (xfer_stop_run m (buf m) w1) as (w2 & H2 & Hw2).
      rewrite stop_word in Hw2.
      eexists _, _, w2. split; [exact H2|].
      split; [exact (wrote_trans _ _ _ _ _ Hw1 Hw2)|]. split; [reflexivity|].
      cbn [addr flags len buf]. repeat split; reflexivity.
    + apply Z.eqb_neq in Hrd.
      destruct (read_run (u16 (len m)) 0 (buf m) w) as (b1 & w1 & H1 & Hw1 & Hl1 & _).
      rewrite (bind_run _ _ _ _ _ H1).
      destruct (xfer_stop_run m b1 w1) as (w2 & H2 & Hw2).
      rewrite stop_word in Hw2.
      eexists _, _, w2. split; [exact H2|].
      split; [exact (wrote_trans _ _ _ _ _ Hw1 Hw2)|]. split; [reflexivity|].
      cbn [addr flags len buf]. repeat split; try reflexivity; try exact Hl1.
      intros _ H. now contradiction Hrd.
  - apply Z.eqb_neq in Hrl.
    destruct (read_run 1 0 (buf m) w) as (b1 & w1 & H1 & Hw1 & Hl1 & _).
    rewrite (bind_run _ _ _ _ _ H1).
    destruct ((load b1 0 <? I2C_SMBUS_BLOCK_MAX) && (load b1 0 >? 0)) eqn:Hn.
    + destruct (read_run (load b1 0) 1 b1 w1) as (b2 & w2 & H2 & Hw2 & Hl2 & Hk).
      rewrite (bind_run _ _ _ _ _ H2).
      destruct (xfer_stop_run m b2 w2) as (w3 & H3 & Hw3).
      rewrite stop_word in Hw3.
      eexists _, _, w3. split; [exact H3|]. cbn [addr flags len buf].
      rewrite Hk by lia. rewrite Hn. cbn [negb].
      split; [|split; [reflexivity|]].
      * rewrite <- app_assoc.
        exact (wrote_trans _ _ _ _ _ Hw1 (wrote_trans _ _ _ _ _ Hw2 Hw3)).
      * repeat split; try reflexivity; [now rewrite Hl2, Hl1|].
        intros H. now contradiction Hrl.
    + destruct (w32_run (ctl1_cmd 0 SM0_MODE_STOP) REG_SM0CTL1 w1) as (w2 & H2 & Hw2 & _).
      rewrite (bind_run _ _ _ _ _ H2).
      destruct (wait_done_run w2) as (r & w3 & H3 & Hw3).
      rewrite (bind_run _ _ _ _ _ H3). rewrite stop_word in Hw2.
      eexists _, _, w3. split; [reflexivity|]. cbn [addr flags len buf].
      rewrite Hn. cbn [negb]. rewrite app_nil_r.
      split; [|split; [reflexivity|]].
      * pose proof (wrote_trans _ _ _ _ _ Hw1 (wrote_trans _ _ _ _ _ Hw2 Hw3)) as H.
        now rewrite app_nil_r in H.
      * repeat split; try reflexivity; [exact Hl1|].
        intros H. now contradiction Hrl.
Qed.

End Trace.

Section Requests.
Context {P : Platform}.

Lemma msg_kept_refl (m : i2c_msg) : msg_kept m m.
Proof. unfold msg_kept. now repeat split. Qed.

Lemma cfg0_ops_cmds (v : Z) :
  Forall xfer_reg [(REG_SM0CFG0, v)] /\
  count_cmd SM0_MODE_START [(REG_SM0CFG0, v)] = 0%nat /\
  count_cmd SM0_MODE_STOP [(REG_SM0CFG0, v)] = 0%nat.
Proof. split; [forall_xfer_reg | split; reflexivity]. Qed.

(** What every run of the loop body does, however it is left. *)
Lemma xfer_msg_inv (m : i2c_msg) (w : world) :
  exists l m' w' ws,
    xfer_msg m w = Some ((l, m'), w') /\
    wrote w ws w' /\
    msg_kept m m' /\
    Forall xfer_reg ws /\
    count_cmd SM0_MODE_START ws = count_cmd SM0_MODE_STOP ws /\
    (count_cmd SM0_MODE_START ws <= 1)%nat /\
    (l = Next -> count_cmd SM0_MODE_START ws = 1%nat) /\
    (l = Next \/ l = Return (- EINVAL) \/ l = ErrTimeout (- EAGAIN)) /\
    (count_cmd SM0_MODE_START ws = 0%nat -> m' = m).
Proof.
  destruct (wait_idle_run w) as (r & w1 & Hidle & Hq & Hr).
  destruct Hr as [-> | ->].
  2: { exists (ErrTimeout (- EAGAIN)), m, w1, [].
       split; [apply xfer_msg_idle_timeout; [exact Hidle | discriminate]|].
       split; [exact Hq|]. split; [apply msg_kept_refl|].
       repeat split; auto; try discriminate. }
  destruct (Z.eq_dec (Z.land (u16 (flags m)) I2C_M_TEN) 0) as [Hten | Hten].
  2: { exists (Return (- EINVAL)), m, w1, [].
       split; [now apply xfer_msg_ten|].
       split; [exact Hq|]. split; [apply msg_kept_refl|].
       repeat split; auto; try discriminate. }
  destruct (Z.eq_dec (u16 (len m)) 0) as [Hlen | Hlen].
  { destruct (xfer_msg_len0 m w w1 Hidle Hten Hlen) as (w2 & Hm & Hw2).
    destruct (cfg0_ops_cmds (u32 (Z.land (u16 (addr m)) I2C_DEVADDR_MASK)))
      as (Hf & Hs & Ht).
    eexists (Return (- EINVAL)), m, w2, _. split; [exact Hm|].
    split; [exact (wrote_trans _ _ _ _ _ Hq Hw2)|]. split; [apply msg_kept_refl|].
    cbn [app]. rewrite Hs, Ht. repeat split; auto; try discriminate. }
  destruct (xfer_msg_addressed m w w1 Hidle Hten Hlen) as (w2 & Hw2 & Heq).
  destruct (xfer_data_trace m w2) as (l & m' & w' & Hrun & Hw & Hl & Hkept).
  rewrite <- Heq in Hrun.
  destruct (addr_ops_cmds m) as (Hfa & Hsa & Hta).
  destruct (data_ops_cmds m (load (buf m') 0)) as (Hfd & Hsd & Htd).
  eexists l, m', w', _. split; [exact Hrun|].
  split; [exact (wrote_trans _ _ _ _ _ Hq (wrote_trans _ _ _ _ _ Hw2 Hw))|].
  split; [exact Hkept|]. cbn [app]. rewrite !count_cmd_app, Hsa, Hta, Hsd, Htd.
  split; [apply Forall_app; now split|].
  split; [reflexivity|]. split; [lia|]. split; [reflexivity|].
  split; [|intros H; discriminate H].
  rewrite Hl. unfold data_leave. destruct (_ && _); auto.
Qed.

(** A message that passed the checks on a controller found idle: its
    register writes are the start and address phase followed by the data
    phase, for a block read as the length byte stored in buf[0] commands. *)
Lemma xfer_msg_trace (m : i2c_msg) (w0 w1 : world) :
  mtk_i2c_wait_idle w0 = Some (0, w1) ->
  Z.land (u16 (flags m)) I2C_M_TEN = 0 ->
  u16 (len m) <> 0 ->
  exists l m' w',
    xfer_msg m w0 = Some ((l, m'), w') /\
    writes (log w') = writes (log w0) ++ addr_ops m ++ data_ops m (load (buf m') 0) /\
    resets (log w') = resets (log w0) /\
    l = data_leave m (load (buf m') 0) /\
    msg_kept m m'.
Proof.
  intros Hidle Hten Hlen.
  destruct (xfer_msg_addressed m w0 w1 Hidle Hten Hlen) as (w2 & [Hw2 Hr2] & Heq).
  destruct (xfer_data_trace m w2) as (l & m' & w' & Hrun & [Hw Hr] & Hl & Hkept).
  rewrite <- Heq in Hrun.
  destruct (wait_idle_run w0) as (r & wi & Hi & [Hwi Hri] & _).
  rewrite Hidle in Hi. injection Hi as <- <-. rewrite app_nil_r in Hwi.
  exists l, m', w'. split; [exact Hrun|].
  split; [rewrite Hw, Hw2, Hwi; now rewrite <- app_assoc|].
  split; [now rewrite Hr, Hr2, Hri|]. now split.
Qed.

Lemma Forall2_msg_kept_refl (msgs : list i2c_msg) : Forall2 msg_kept msgs msgs.
Proof. induction msgs; constructor; [apply msg_kept_refl | assumption]. Qed.

Lemma xfer_loop_inv (msgs : list i2c_msg) :
  forall (i : Z) (w : world),
    exists l k msgs' w' ws,
      xfer_loop i msgs w = Some ((l, k, msgs'), w') /\
      wrote w ws w' /\
      Forall2 msg_kept msgs msgs' /\
      Forall xfer_reg ws /\
      count_cmd SM0_MODE_START ws = count_cmd SM0_MODE_STOP ws /\
      (count_cmd SM0_MODE_START ws <= length msgs)%nat /\
      (l = Next -> count_cmd SM0_MODE_START ws = length msgs) /\
      (l = Next \/ l = Return (- EINVAL) \/ l = ErrTimeout (- EAGAIN)) /\
      drop (count_cmd SM0_MODE_START ws) msgs'
      = drop (count_cmd SM0_MODE_START ws) msgs.
Proof.
  induction msgs as [|m msgs IH]; intros i w.
  - exists Next, i, [], w, []. split; [reflexivity|]. split; [apply wrote_refl|].
    split; [constructor|]. split; [constructor|]. cbn [length].
    repeat split; auto.
  - cbn [xfer_loop].
    destruct (xfer_msg_inv m w)
      as (l & m' & w1 & ws1 & Hm & Hw1 & Hk1 & Hf1 & Hc1 & Hle1 & Hn1 & Hl1 & Hun1).
    rewrite (bind_run _ _ _ _ _ Hm). cbn beta iota.
    assert (Hstay : l <> Next ->
      exists l0 k msgs' w' ws,
        ret (l, i, m' :: msgs) w1 = Some ((l0, k, msgs'), w') /\
        wrote w ws w' /\ Forall2 msg_kept (m :: msgs) msgs' /\ Forall xfer_reg ws /\
        count_cmd SM0_MODE_START ws = count_cmd SM0_MODE_STOP ws /\
        (count_cmd SM0_MODE_START ws <= length (m :: msgs))%nat /\
        (l0 = Next -> count_cmd SM0_MODE_START ws = length (m :: msgs)) /\
        (l0 = Next \/ l0 = Return (- EINVAL) \/ l0 = ErrTimeout (- EAGAIN)) /\
        drop (count_cmd SM0_MODE_START ws) msgs'
        = drop (count_cmd SM0_MODE_START ws) (m :: msgs)).
    { intros Hne. exists l, i, (m' :: msgs), w1, ws1. split; [reflexivity|].
      split; [exact Hw1|].
      split; [constructor; [exact Hk1 | apply Forall2_msg_kept_refl]|].
      split; [exact Hf1|]. split; [exact Hc1|]. cbn [length].
      split; [lia|]. split; [intros H; now contradiction Hne|]. split; [exact Hl1|].
      destruct (count_cmd SM0_MODE_START ws1) as [|[|c]] eqn:Ec; [| reflexivity | lia].
      now rewrite (Hun1 eq_refl). }
    destruct l as [|r|r]; [| apply Hstay; discriminate | apply Hstay; discriminate].
    clear Hstay.
    destruct (IH (i + 1) w1)
      as (l & k & msgs' & w' & ws & Hrun & Hw & Hk & Hf & Hc & Hle & Hn & Hl & Hd).
    rewrite (bind_run _ _ _ _ _ Hrun). cbn beta iota.
    exists l, k, (m' :: msgs'), w', (ws1 ++ ws). split; [reflexivity|].
    split; [exact (wrote_trans _ _ _ _ _ Hw1 Hw)|].
    split; [constructor; assumption|].
    split; [apply Forall_app; now split|].
    rewrite !count_cmd_app, <- Hc, <- Hc1, (Hn1 eq_refl). cbn [length].
    split; [reflexivity|]. split; [lia|].
    split; [intros H; rewrite (Hn H); reflexivity|]. split; [exact Hl|].
    exact Hd.
Qed.

Lemma master_xfer_inv (i2c : mtk_i2c) (msgs : list i2c_msg) (w : world) :
  exists r msgs' w' ws,
    mtk_i2c_master_xfer i2c msgs w = Some ((r, msgs'), w') /\
    writes (log w') = writes (log w) ++ ws /\
    Forall2 msg_kept msgs msgs' /\
    count_cmd SM0_MODE_START ws = count_cmd SM0_MODE_STOP ws /\
    (count_cmd SM0_MODE_START ws <= length msgs)%nat /\
    (r = Z.of_nat (length msgs) -> count_cmd SM0_MODE_START ws = length msgs) /\
    (r <> - EAGAIN -> Forall xfer_reg ws /\ resets (log w') = resets (log w)) /\
    (r = Z.of_nat (length msgs) \/ r = - EINVAL \/ r = - EAGAIN) /\
    drop (count_cmd SM0_MODE_START ws) msgs'
    = drop (count_cmd SM0_MODE_START ws) msgs.
Proof.
  unfold mtk_i2c_master_xfer.
  destruct (xfer_loop_inv msgs 0 w)
    as (l & k & msgs' & w1 & ws & Hrun & [Hw Hr] & Hk & Hf & Hc & Hle & Hn & Hl & Hd).
  rewrite (bind_run _ _ _ _ _ Hrun). cbn beta iota.
  pose proof (Forall2_length _ _ _ Hk) as Hlen.
  destruct Hl as [-> | [-> | ->]].
  - destruct (xfer_loop_app msgs 0 k w w1 msgs' [] Hrun) as [-> _].
    exists (Z.of_nat (length msgs)), msgs', w1, ws.
    split; [unfold ret; do 3 f_equal; lia|].
    split; [exact Hw|]. split; [exact Hk|]. split; [exact Hc|]. split; [exact Hle|].
    split; [intros _; now apply Hn|]. split; [intros _; now split|].
    split; [now left | exact Hd].
  - exists (- EINVAL), msgs', w1, ws. split; [reflexivity|].
    split; [exact Hw|]. split; [exact Hk|]. split; [exact Hc|]. split; [exact Hle|].
    split; [unfold EINVAL; lia|]. split; [intros _; now split|].
    split; [right; now left | exact Hd].
  - destruct (dump_reg_run w1) as (w2 & H2 & Hw2 & Hr2).
    rewrite (bind_run _ _ _ _ _ H2).
    destruct (reset_run i2c w2) as (w3 & H3 & Hw3 & Hr3).
    rewrite (bind_run _ _ _ _ _ H3).
    eexists (- EAGAIN), msgs', w3, (ws ++ _). split; [reflexivity|].
    split; [rewrite Hw3, Hw2, Hw, app_nil_r; now rewrite <- app_assoc|].
    split; [exact Hk|].
    rewrite !count_cmd_app, !count_cmd_cons.
    rewrite !(is_cmd_other _ REG_SM0CTL0), !(is_cmd_other _ REG_SM0CFG2) by discriminate.
    change (count_cmd _ []) with 0%nat. rewrite !Nat.add_0_r.
    split; [exact Hc|]. split; [exact Hle|].
    split; [unfold EAGAIN; lia|]. split; [intros H; now contradiction H|].
    split; [right; now right | exact Hd].
Qed.

End Requests.

(** ** Reads of the data registers *)

Arguments reads_of : simpl never.

Lemma reads_of_cons (reg : Z) (e : event) (l : list event) :
  reads_of reg (e :: l)
  = reads_of reg l ++ match is_read_of reg e with Some v => [v] | None => [] end.
Proof.
  unfold reads_of. rewrite reverse_cons, omap_app. simpl.
  now destruct (is_read_of reg e).
Qed.

Lemma reads_of_app (reg : Z) (e l : list event) :
  reads_of reg (e ++ l) = reads_of reg l ++ reads_of reg e.
Proof. unfold reads_of. now rewrite reverse_app, omap_app. Qed.

(** A poll of another register adds no read of [reg]. *)
Lemma poll_trace_reads (reg reg' : Z) (steps : list (Z * Z)) :
  reg' <> reg -> reads_of reg (reverse (poll_trace reg' steps)) = [].
Proof.
  intros Hne. apply Z.eqb_neq in Hne.
  induction steps as [|[v d] steps IH]; [reflexivity|].
  cbn [poll_trace flat_map fst snd]. fold (poll_trace reg' steps).
  change (?a :: ?b :: ?l) with ([a; b] ++ l).
  rewrite reverse_app, reads_of_app, IH. unfold reads_of. cbn.
  now rewrite Hne.
Qed.

Lemma read_cmds_eq (n : nat) :
  forall len : Z, len <= Z.of_nat n -> read_ops n len = read_cmds len.
Proof.
  unfold read_cmds. induction n as [|n IH]; intros len Hn.
  - rewrite seqZ_nil; [reflexivity|].
    assert ((len + 7) / 8 < 1) by (apply Z.div_lt_upper_bound; lia). lia.
  - cbn [read_ops]. destruct (len >? 0) eqn:E0.
    2: { rewrite Z.gtb_ltb in E0. apply Z.ltb_ge in E0.
         rewrite seqZ_nil; [reflexivity|].
         assert ((len + 7) / 8 < 1) by (apply Z.div_lt_upper_bound; lia). lia. }
    apply Z.gtb_lt in E0.
    assert (Hpos : 0 < (len + 7) / 8) by (apply Z.div_str_pos; lia).
    rewrite (seqZ_cons 0) by lia. cbn [fmap list_fmap].
    destruct (len >? 8) eqn:E8.
    + apply Z.gtb_lt in E8. rewrite IH by lia.
      destruct (ctl1_cmd_layout (8 - 1) SM0_MODE_READ_ACK) as (-> & _);
        [lia | unfold SM0_MODE_READ_ACK; lia |].
      replace (Z.min 8 (len - 8 * 0)) with 8 by lia. f_equal.
      replace (Z.pred ((len + 7) / 8)) with ((len - 8 + 7) / 8).
      2: { replace (len + 7) with (len - 8 + 7 + 1 * 8) by lia.
           rewrite Z.div_add by lia. lia. }
      change (Z.succ 0) with (1 + 0). rewrite <- fmap_add_seqZ, <- list_fmap_compose.
      apply list_fmap_ext. intros _ k _. cbn.
      now replace (len - 8 - 8 * k) with (len - 8 * (1 + k)) by lia.
    + rewrite Z.gtb_ltb in E8. apply Z.ltb_ge in E8.
      destruct (ctl1_cmd_layout (len - 1) SM0_MODE_READ_ACK) as (-> & _);
        [lia | unfold SM0_MODE_READ_ACK; lia |].
      assert ((len + 7) / 8 = 1) as ->
          by (symmetry; apply Z.div_unique with (r := len - 1); lia).
      replace (len - len) with 0 by lia.
      rewrite (IH 0) by lia. change ((0 + 7) / 8) with 0. change (Z.pred 1) with 0.
      rewrite !seqZ_nil by lia.
      cbn [fmap list_fmap]. now replace (Z.min 8 (len - 8 * 0)) with len by lia.
Qed.

(** ** What the read path stores *)

Lemma u8_idem (x : Z) : u8 (u8 x) = u8 x.
Proof. unfold u8. apply Z.mod_mod. lia. Qed.

Lemma load_store (b : list Z) (j v idx : Z) :
  load (store b j v) idx
  = if (idx =? j) && (0 <=? j) && (j <? Z.of_nat (length b)) then u8 v else load b idx.
Proof.
  unfold load, store. destruct (j <? 0) eqn:Ej.
  - apply Z.ltb_lt in Ej. replace (0 <=? j) with false by (symmetry; apply Z.leb_gt; lia).
    now rewrite andb_false_r.
  - apply Z.ltb_ge in Ej. replace (0 <=? j) with true by (symmetry; apply Z.leb_le; lia).
    rewrite andb_true_r. destruct (idx <? 0) eqn:Ei.
    + apply Z.ltb_lt in Ei. replace (idx =? j) with false by (symmetry; apply Z.eqb_neq; lia).
      reflexivity.
    + apply Z.ltb_ge in Ei. destruct (idx =? j) eqn:E.
      * apply Z.eqb_eq in E. subst idx. destruct (j <? Z.of_nat (length b)) eqn:El; cbn [andb].
        -- apply Z.ltb_lt in El. rewrite list_lookup_insert_eq by lia. cbn. apply u8_idem.
        -- apply Z.ltb_ge in El. rewrite list_insert_ge by lia. reflexivity.
      * apply Z.eqb_neq in E. cbn [andb]. rewrite list_lookup_insert_ne by lia. reflexivity.
Qed.

(** After the for loop of [mtk_i2c_read] on one chunk, byte [k] of the
    chunk is byte [k] of [d]; nothing else has changed. *)
Lemma unpack_bytes_load (n : nat) :
  forall (i plen d pkt_num off : Z) (b : list Z) (idx : Z),
    0 <= i -> 0 <= pkt_num -> 0 <= off ->
    load (unpack_bytes n i plen d pkt_num off b) idx
    = if (i <=? idx - off - 8 * pkt_num) && (idx - off - 8 * pkt_num <? plen)
         && (idx - off - 8 * pkt_num <? i + Z.of_nat n) && (idx <? Z.of_nat (length b))
      then u8 (Z.shiftr d (8 * (idx - off - 8 * pkt_num)))
      else load b idx.
Proof.
  induction n as [|n IH]; intros i plen d pkt_num off b idx Hi Hp Ho.
  - cbn [unpack_bytes].
    destruct (i <=? idx - off - 8 * pkt_num) eqn:E1; [|reflexivity].
    destruct (idx - off - 8 * pkt_num <? i + Z.of_nat 0) eqn:E2;
      [|now rewrite andb_false_r].
    apply Z.leb_le in E1. apply Z.ltb_lt in E2. lia.
  - cbn [unpack_bytes]. destruct (i <? plen) eqn:Ep.
    + apply Z.ltb_lt in Ep. rewrite IH by lia. rewrite length_store, load_store.
      set (k := idx - off - 8 * pkt_num).
      destruct (Z.eq_dec k i) as [Hk | Hk].
      * replace (i + 1 <=? k) with false by (symmetry; apply Z.leb_gt; lia).
        cbn [andb].
        replace (idx =? off + (i + pkt_num * 8)) with true
          by (symmetry; apply Z.eqb_eq; lia).
        replace (0 <=? off + (i + pkt_num * 8)) with true
          by (symmetry; apply Z.leb_le; lia).
        replace (i <=? k) with true by (symmetry; apply Z.leb_le; lia).
        replace (k <? plen) with true by (symmetry; apply Z.ltb_lt; lia).
        replace (k <? i + Z.of_nat (S n)) with true by (symmetry; apply Z.ltb_lt; lia).
        cbn [andb].
        replace (off + (i + pkt_num * 8)) with idx by lia.
        rewrite Hk. reflexivity.
      * replace (idx =? off + (i + pkt_num * 8)) with false
          by (symmetry; apply Z.eqb_neq; lia).
        cbn [andb].
        replace (k <? i + 1 + Z.of_nat n) with (k <? i + Z.of_nat (S n))
          by (f_equal; lia).
        destruct (Z_lt_le_dec k i) as [Hlt | Hge].
        -- replace (i + 1 <=? k) with false by (symmetry; apply Z.leb_gt; lia).
           replace (i <=? k) with false by (symmetry; apply Z.leb_gt; lia).
           reflexivity.
        -- replace (i + 1 <=? k) with true by (symmetry; apply Z.leb_le; lia).
           replace (i <=? k) with true by (symmetry; apply Z.leb_le; lia).
           reflexivity.
    + apply Z.ltb_ge in Ep.
      destruct (i <=? idx - off - 8 * pkt_num) eqn:E1; [|reflexivity].
      destruct (idx - off - 8 * pkt_num <? plen) eqn:E2; [|reflexivity].
      apply Z.leb_le in E1. apply Z.ltb_lt in E2. lia.
Qed.

Lemma u8_bits (x n : Z) :
  0 <= n -> Z.testbit (u8 x) n = (n <? 8) && Z.testbit x n.
Proof.
  intros Hn. unfold u8. destruct (n <? 8) eqn:E.
  - apply Z.ltb_lt in E. now rewrite Z.mod_pow2_bits_low by lia.
  - apply Z.ltb_ge in E. now rewrite Z.mod_pow2_bits_high by lia.
Qed.

Lemma u32_high_bits (x n : Z) : 32 <= n -> Z.testbit (u32 x) n = false.
Proof. intros Hn. unfold u32. now rewrite Z.mod_pow2_bits_high by lia. Qed.

(** The 64-bit value [mtk_i2c_read] assembles holds REG_SM0D0 in its low
    and REG_SM0D1 in its high four bytes. *)
Lemma window_bytes (lo hi j : Z) :
  0 <= j < 8 ->
  u8 (Z.shiftr (Z.lor (u32 lo) (u64 (Z.shiftl (u32 hi) 32))) (8 * j))
  = window_byte (u32 lo, u32 hi) j.
Proof.
  intros Hj. unfold window_byte. cbn [fst snd].
  assert (H64 : u64 (Z.shiftl (u32 hi) 32) = Z.shiftl (u32 hi) 32).
  { unfold u64. apply Z.mod_small. rewrite Z.shiftl_mul_pow2 by lia.
    pose proof (u32_range hi). lia. }
  rewrite H64. apply Z.bits_inj'. intros n Hn.
  rewrite !u8_bits by lia. destruct (n <? 8) eqn:E8; [|reflexivity]. cbn [andb].
  apply Z.ltb_lt in E8. rewrite !Z.shiftr_spec, Z.lor_spec, Z.shiftl_spec by lia.
  destruct (j <? 4) eqn:E4.
  - apply Z.ltb_lt in E4. rewrite Z.mod_small by lia.
    rewrite (Z.testbit_neg_r (u32 hi)) by lia. now rewrite orb_false_r.
  - apply Z.ltb_ge in E4. rewrite u32_high_bits by lia. cbn [orb].
    f_equal. assert (j mod 4 = j - 4) by (symmetry; apply Z.mod_unique with (q := 1); lia).
    lia.
Qed.

Section ReadData.
Context {P : Platform}.

Lemma w32_reads (reg val reg' : Z) (w : world) :
  exists w', mtk_i2c_w32 val reg' w = Some (tt, w') /\
             reads_of reg (log w') = reads_of reg (log w).
Proof.
  eexists. split; [reflexivity|]. cbn [log]. rewrite reads_of_cons.
  cbn [is_read_of]. apply app_nil_r.
Qed.

Lemma r32_reads (reg : Z) (w : world) :
  exists v w', mtk_i2c_r32 reg w = Some (v, w') /\ u32 v = v /\
               forall reg', reads_of reg' (log w')
                            = reads_of reg' (log w) ++ (if reg =? reg' then [v] else []).
Proof.
  unfold mtk_i2c_r32. destruct (hw_read (dev w) reg) as [v h].
  eexists _, _. split; [reflexivity|]. split.
  - unfold u32. apply Z.mod_mod. lia.
  - intros reg'. cbn [log]. rewrite reads_of_cons. cbn [is_read_of].
    now destruct (reg =? reg').
Qed.

Lemma wait_done_reads (reg : Z) (w : world) :
  reg <> REG_SM0CTL1 ->
  exists r w', mtk_i2c_wait_done w = Some (r, w') /\
               reads_of reg (log w') = reads_of reg (log w).
Proof.
  intros Hne.
  destruct (poll_down_timeout_run REG_SM0CTL1 SM0_TRI_BUSY w)
    as (r & w' & steps & v & Hrun & Hlog & _).
  exists r, w'. split; [exact Hrun|].
  rewrite Hlog, reads_of_cons, reads_of_app, poll_trace_reads by congruence.
  cbn [is_read_of]. replace (REG_SM0CTL1 =? reg) with false
    by (symmetry; apply Z.eqb_neq; congruence).
  now rewrite !app_nil_r.
Qed.

(** The while loop of [mtk_i2c_read] started at chunk [pkt_num] with [len]
    bytes left: it samples the two data registers once per chunk, and byte
    [k] of what is left comes from byte [k mod 8] of sample [k / 8]. *)
Lemma read_loop_data (n : nat) :
  forall (len pkt_num off : Z) (b : list Z) (w : world),
    0 <= pkt_num -> 0 <= off -> len <= Z.of_nat n ->
    (0 < len -> off + 8 * pkt_num + len <= Z.of_nat (length b)) ->
    exists b' w' chunks,
      mtk_i2c_read_loop n len pkt_num off b w = Some (b', w') /\
      length chunks = Z.to_nat ((len + 7) / 8) /\
      reads_of REG_SM0D0 (log w') = reads_of REG_SM0D0 (log w) ++ chunks.*1 /\
      reads_of REG_SM0D1 (log w') = reads_of REG_SM0D1 (log w) ++ chunks.*2 /\
      (forall k, 0 <= k < len ->
                 load b' (off + 8 * pkt_num + k)
                 = window_byte (default (0, 0) (chunks !! Z.to_nat (k / 8))) (k mod 8)) /\
      (forall idx, idx < off + 8 * pkt_num \/ off + 8 * pkt_num + Z.max 0 len <= idx ->
                   load b' idx = load b idx).
Proof.
  induction n as [|n IH]; intros len pkt_num off b w Hp Ho Hn Hb.
  { exists b, w, []. split; [reflexivity|].
    assert ((len + 7) / 8 < 1) by (apply Z.div_lt_upper_bound; lia).
    split; [cbn; lia|]. cbn [fmap list_fmap]. rewrite !app_nil_r.
    repeat split; auto. intros k Hk. lia. }
  cbn [mtk_i2c_read_loop]. destruct (len >? 0) eqn:E0.
  2: { rewrite Z.gtb_ltb in E0. apply Z.ltb_ge in E0.
       exists b, w, []. split; [reflexivity|].
       assert ((len + 7) / 8 < 1) by (apply Z.div_lt_upper_bound; lia).
       split; [cbn; lia|]. cbn [fmap list_fmap]. rewrite !app_nil_r.
       repeat split; auto. intros k Hk. lia. }
  apply Z.gtb_lt in E0.
  set (plen := if len >? 8 then 8 else len).
  assert (Hplen : plen = Z.min 8 len).
  { unfold plen. destruct (len >? 8) eqn:E8.
    - apply Z.gtb_lt in E8. lia.
    - rewrite Z.gtb_ltb in E8. apply Z.ltb_ge in E8. lia. }
  clearbody plen.
  destruct (w32_reads REG_SM0D0 (ctl1_cmd (plen - 1) SM0_MODE_READ_ACK) REG_SM0CTL1 w)
    as (w1 & H1 & Ha1).
  destruct (w32_reads REG_SM0D1 (ctl1_cmd (plen - 1) SM0_MODE_READ_ACK) REG_SM0CTL1 w)
    as (w1' & H1' & Hb1).
  rewrite H1 in H1'. injection H1' as <-.
  rewrite (bind_run _ _ _ _ _ H1).
  destruct (wait_done_reads REG_SM0D0 w1) as (r & w2 & H2 & Ha2); [discriminate|].
  destruct (wait_done_reads REG_SM0D1 w1) as (r' & w2' & H2' & Hb2); [discriminate|].
  rewrite H2 in H2'. injection H2' as <- <-.
  rewrite (bind_run _ _ _ _ _ H2).
  destruct (r32_reads REG_SM0D0 w2) as (lo & w3 & H3 & Hlo & Hr3).
  rewrite (bind_run _ _ _ _ _ H3).
  destruct (r32_reads REG_SM0D1 w3) as (hi & w4 & H4 & Hhi & Hr4).
  rewrite (bind_run _ _ _ _ _ H4).
  set (d := Z.lor lo (u64 (Z.shiftl hi 32))).
  set (b1 := unpack_bytes 8 0 plen d pkt_num off b).
  assert (Hl1 : length b1 = length b)
    by apply (unpack_bytes_keeps 8 0 plen d pkt_num off b).
  destruct (IH (len - plen) (pkt_num + 1) off b1 w4) as
    (b' & w' & chunks & H5 & Hlen & Ha5 & Hb5 & Hin & Hout); [lia | lia | lia | lia |].
  exists b', w', ((lo, hi) :: chunks). split; [exact H5|].
  split; [|split; [|split; [|split]]].
  - cbn [length]. rewrite Hlen.
    replace (len + 7) with (len - plen + 7 + plen) by lia.
    destruct (Z.eq_dec plen 8) as [-> | Hne].
    + replace (len - 8 + 7 + 8) with (len - 8 + 7 + 1 * 8) by lia.
      rewrite Z.div_add by lia.
      assert (0 <= (len - 8 + 7) / 8) by (apply Z.div_pos; lia). lia.
    + replace (len - plen) with 0 by lia.
      replace ((0 + 7 + plen) / 8) with 1
        by (apply Z.div_unique with (r := plen - 1); lia).
      reflexivity.
  - rewrite Ha5, (Hr4 REG_SM0D0), (Hr3 REG_SM0D0), Ha2, Ha1.
    cbn [fmap list_fmap fst]. change (REG_SM0D0 =? REG_SM0D0) with true.
    change (REG_SM0D1 =? REG_SM0D0) with false.
    now rewrite app_nil_r, <- app_assoc.
  - rewrite Hb5, (Hr4 REG_SM0D1), (Hr3 REG_SM0D1), Hb2, Hb1.
    cbn [fmap list_fmap snd]. change (REG_SM0D1 =? REG_SM0D1) with true.
    change (REG_SM0D0 =? REG_SM0D1) with false.
    now rewrite app_nil_r, <- app_assoc.
  - intros k Hk. destruct (Z_lt_le_dec k plen) as [Hlt | Hge].
    + rewrite Hout by lia. unfold b1.
      rewrite unpack_bytes_load by lia.
      replace (off + 8 * pkt_num + k - off - 8 * pkt_num) with k by lia.
      replace (0 <=? k) with true by (symmetry; apply Z.leb_le; lia).
      replace (k <? plen) with true by (symmetry; apply Z.ltb_lt; lia).
      replace (k <? 0 + Z.of_nat 8) with true by (symmetry; apply Z.ltb_lt; lia).
      replace (off + 8 * pkt_num + k <? Z.of_nat (length b)) with true
        by (symmetry; apply Z.ltb_lt; lia).
      cbn [andb]. rewrite Z.div_small, Z.mod_small by lia.
      change (Z.to_nat 0) with 0%nat. cbn [lookup list_lookup default].
      unfold d. rewrite <- Hlo, <- Hhi. apply window_bytes. lia.
    + assert (plen = 8) as -> by lia.
      replace (off + 8 * pkt_num + k) with (off + 8 * (pkt_num + 1) + (k - 8)) by lia.
      rewrite Hin by lia.
      assert (Hq : k / 8 = (k - 8) / 8 + 1).
      { replace k with (k - 8 + 1 * 8) at 1 by lia. now rewrite Z.div_add by lia. }
      assert (Hm : k mod 8 = (k - 8) mod 8).
      { replace k with (k - 8 + 1 * 8) at 1 by lia. now rewrite Z_mod_plus_full. }
      rewrite Hq, Hm.
      assert (0 <= (k - 8) / 8) by (apply Z.div_pos; lia).
      replace (Z.to_nat ((k - 8) / 8 + 1)) with (S (Z.to_nat ((k - 8) / 8))) by lia.
      reflexivity.
  - intros idx Hidx. rewrite Hout by lia. unfold b1.
    rewrite unpack_bytes_load by lia.
    destruct (0 <=? idx - off - 8 * pkt_num) eqn:Ea; [|reflexivity].
    destruct (idx - off - 8 * pkt_num <? plen) eqn:Eb; [|reflexivity].
    apply Z.leb_le in Ea. apply Z.ltb_lt in Eb. lia.
Qed.

End ReadData.

(** ** The read path, in closed form *)

Section ReadPath.
Context {P : Platform}.

(** X7: [mtk_i2c_read] of [len] bytes always returns.  It issues one read
    operation per chunk of eight bytes, ceil(len / 8) of them and none for
    [len <= 0]; the count field of each is the length of its own chunk less
    one (the write path takes it from the message length instead); the buffer
    keeps its size and the controller is not reset. *)
Theorem read_path_operations (len off : Z) (b : list Z) (w : world) :
  exists b' w',
    mtk_i2c_read len off b w = Some (b', w') /\
    writes (log w') = writes (log w) ++ read_cmds len /\
    Z.of_nat (length (read_cmds len)) = Z.max 0 ((len + 7) / 8) /\
    resets (log w') = resets (log w) /\
    length b' = length b.
Proof.
  destruct (read_run len off b w) as (b' & w' & Hrun & [Hw Hr] & Hl & _).
  exists b', w'. split; [exact Hrun|].
  rewrite read_cmds_eq in Hw by lia.
  split; [exact Hw|]. split; [|split; [exact Hr | exact Hl]].
  unfold read_cmds. rewrite length_fmap, length_seqZ. lia.
Qed.

(** X8: What [mtk_i2c_read] stores.  With [buf] pointing [off] bytes into
    a buffer that holds the [len] bytes asked for, the call samples each of
    REG_SM0D0 and REG_SM0D1 once per chunk, and byte [k] of the result is
    byte [k mod 8] of sample [k / 8]: bytes 0 to 3 of a chunk come from its
    sample of REG_SM0D0, bytes 4 to 7 from its sample of REG_SM0D1, each
    register least significant byte first.  Every other byte of the buffer is
    as before.  Nothing is said of the order of the two reads of a chunk,
    which the source leaves to the compiler. *)
Theorem read_stores_window_bytes (len off : Z) (b : list Z) (w : world) :
  0 <= off ->
  off + len <= Z.of_nat (length b) ->
  exists b' w' chunks,
    mtk_i2c_read len off b w = Some (b', w') /\
    length chunks = Z.to_nat ((len + 7) / 8) /\
    reads_of REG_SM0D0 (log w') = reads_of REG_SM0D0 (log w) ++ chunks.*1 /\
    reads_of REG_SM0D1 (log w') = reads_of REG_SM0D1 (log w) ++ chunks.*2 /\
    (forall k, 0 <= k < len ->
               load b' (off + k)
               = window_byte (default (0, 0) (chunks !! Z.to_nat (k / 8))) (k mod 8)) /\
    (forall idx, idx < off \/ off + Z.max 0 len <= idx -> load b' idx = load b idx).
Proof.
  intros Ho Hb.
  destruct (read_loop_data (Z.to_nat len) len 0 off b w)
    as (b' & w' & chunks & Hrun & Hlen & Ha & Hb' & Hin & Hout); try lia.
  exists b', w', chunks. split; [exact Hrun|]. split; [exact Hlen|].
  split; [exact Ha|]. split; [exact Hb'|]. split.
  - intros k Hk. specialize (Hin k Hk).
    now replace (off + 8 * 0 + k) with (off + k) in Hin by lia.
  - intros idx Hidx. apply Hout. lia.
Qed.

End ReadPath.

Lemma read_stores_window_bytes_witness :
  exists b' w' chunks,
    @mtk_i2c_read sim_platform 11 1 (replicate 12 0)
                  (sim_idle [(0x04030201, 0x08070605); (0x0c0b0a09, 0)])
    = Some (b', w') /\
    length chunks = Z.to_nat ((11 + 7) / 8) /\
    reads_of REG_SM0D0 (log w')
    = reads_of REG_SM0D0 (log (sim_idle [(0x04030201, 0x08070605); (0x0c0b0a09, 0)]))
      ++ chunks.*1 /\
    reads_of REG_SM0D1 (log w')
    = reads_of REG_SM0D1 (log (sim_idle [(0x04030201, 0x08070605); (0x0c0b0a09, 0)]))
      ++ chunks.*2 /\
    (forall k, 0 <= k < 11 ->
               load b' (1 + k)
               = window_byte (default (0, 0) (chunks !! Z.to_nat (k / 8))) (k mod 8)) /\
    (forall idx, idx < 1 \/ 1 + Z.max 0 11 <= idx -> load b' idx = load (replicate 12 0) idx).
Proof.
  apply (@read_stores_window_bytes sim_platform 11 1 (replicate 12 0)
           (sim_idle [(0x04030201, 0x08070605); (0x0c0b0a09, 0)])).
  - lia.
  - cbn. lia.
Defined.

(** ** The transfer entry point *)

Section EntryPoint.
Context {P : Platform}.

(** X9: Every start has its stop.  Whatever the request and the controller
    do, the start commands and the stop commands written by one call of
    [mtk_i2c_master_xfer] are equal in number, also when the call ends in
    -EINVAL or in a timeout; there is at most one pair per message, and
    exactly one when the call returns the number of messages. *)
Theorem every_start_has_its_stop (i2c : mtk_i2c) (msgs : list i2c_msg) (w : world) :
  exists r msgs' w' ws,
    mtk_i2c_master_xfer i2c msgs w = Some ((r, msgs'), w') /\
    writes (log w') = writes (log w) ++ ws /\
    count_cmd SM0_MODE_START ws = count_cmd SM0_MODE_STOP ws /\
    (count_cmd SM0_MODE_START ws <= length msgs)%nat /\
    (r = Z.of_nat (length msgs) -> count_cmd SM0_MODE_START ws = length msgs).
Proof.
  destruct (master_xfer_inv i2c msgs w)
    as (r & msgs' & w' & ws & Hrun & Hw & _ & Heq & Hle & Hall & _).
  exists r, msgs', w', ws. repeat split; assumption.
Qed.


(** X11: The registers a transfer writes.  A call that does not end in the
    timeout recovery writes REG_SM0CFG0, REG_SM0CTL1, REG_SM0D0 and
    REG_SM0D1 and no other register: the clock divisor and the mode set up at
    bring-up (REG_SM0CTL0, REG_SM0CFG2) are never touched by a transfer that
    returns the number of messages or -EINVAL, and the reset line is not
    pulled. *)
Theorem transfer_register_set (i2c : mtk_i2c) (msgs : list i2c_msg) (w : world) :
  exists r msgs' w' ws,
    mtk_i2c_master_xfer i2c msgs w = Some ((r, msgs'), w') /\
    writes (log w') = writes (log w) ++ ws /\
    (r <> - EAGAIN -> Forall xfer_reg ws /\ resets (log w') = resets (log w)).
Proof.
  destruct (master_xfer_inv i2c msgs w)
    as (r & msgs' & w' & ws & Hrun & Hw & _ & _ & _ & _ & Hreg & _).
  now exists r, msgs', w', ws.
Qed.

(** X12: A block read with a length byte in range.  Once the idle wait has
    succeeded, a message with I2C_M_RECV_LEN, no 10-bit flag and a non-zero
    len reads one byte, and when that byte n is between 1 and 31 it reads n
    more bytes behind it and ends with a stop: after the address phase the
    register writes are one read operation for a single byte, ceil(n / 8)
    read operations for the data and the stop command.  The len field of the
    message is as passed. *)
Theorem block_read_good_length (m : i2c_msg) (w0 w1 : world) :
  mtk_i2c_wait_idle w0 = Some (0, w1) ->
  Z.land (u16 (flags m)) I2C_M_TEN = 0 ->
  u16 (len m) <> 0 ->
  Z.land (u16 (flags m)) I2C_M_RECV_LEN <> 0 ->
  exists l m' w',
    xfer_msg m w0 = Some ((l, m'), w') /\
    len m' = len m /\
    length (buf m') = length (buf m) /\
    (0 < load (buf m') 0 < I2C_SMBUS_BLOCK_MAX ->
     l = Next /\
     writes (log w') =
       writes (log w0) ++ addr_ops m ++ read_cmds 1 ++ read_cmds (load (buf m') 0)
       ++ [(REG_SM0CTL1, ctl1_cmd 0 SM0_MODE_STOP)] /\
     resets (log w') = resets (log w0)).
Proof.
  intros Hidle Hten Hlen Hrl.
  destruct (xfer_msg_trace m w0 w1 Hidle Hten Hlen)
    as (l & m' & w' & Hrun & Hw & Hr & Hl & Hk).
  exists l, m', w'. split; [exact Hrun|].
  destruct Hk as (_ & _ & Hln & Hbl & _). split; [exact Hln|]. split; [exact Hbl|].
  intros Hn. set (n0 := load (buf m') 0) in *.
  unfold data_leave in Hl. unfold data_ops in Hw.
  apply Z.eqb_neq in Hrl. rewrite Hrl in Hl, Hw. cbn [negb andb] in Hl, Hw.
  replace (n0 <? I2C_SMBUS_BLOCK_MAX) with true in Hl, Hw
    by (symmetry; apply Z.ltb_lt; lia).
  replace (n0 >? 0) with true in Hl, Hw by (symmetry; apply Z.gtb_lt; lia).
  cbn [negb andb] in Hl, Hw.
  rewrite !read_cmds_eq in Hw by lia.
  split; [exact Hl|]. split; [|exact Hr].
  now rewrite Hw, <- !app_assoc.
Qed.

End EntryPoint.


Lemma block_read_good_length_witness :
  exists w',
    @xfer_msg sim_platform (I2c_msg 0x44 0x401 1 (replicate 34 0))
              (sim_idle [(3, 0); (0x030201, 0)])
    = Some ((Next, I2c_msg 0x44 0x401 1 (3 :: 1 :: 2 :: 3 :: replicate 30 0)), w') /\
    writes (log w') =
      writes (log (sim_idle [(3, 0); (0x030201, 0)])) ++
      addr_ops (I2c_msg 0x44 0x401 1 (replicate 34 0)) ++
      [(REG_SM0CTL1, ctl1_cmd 0 SM0_MODE_READ_ACK);
       (REG_SM0CTL1, ctl1_cmd 2 SM0_MODE_READ_ACK);
       (REG_SM0CTL1, ctl1_cmd 0 SM0_MODE_STOP)] /\
    resets (log w') = resets (log (sim_idle [(3, 0); (0x030201, 0)])).
Proof.
  destruct (@block_read_good_length sim_platform
              (I2c_msg 0x44 0x401 1 (replicate 34 0))
              (sim_idle [(3, 0); (0x030201, 0)]) (sim_sampled [(3, 0); (0x030201, 0)]))
    as (l & m' & w' & Hrun & _ & _ & Hgood).
  - reflexivity.
  - reflexivity.
  - vm_compute. discriminate.
  - vm_compute. discriminate.
  - vm_compute in Hrun. injection Hrun as Hl Hm Hw.
    rewrite <- Hm in Hgood. destruct Hgood as (Hx & Hws & Hrs).
    + vm_compute. split; reflexivity.
    + exists w'. split; [|split; [exact Hws | exact Hrs]].
      rewrite <- Hw. vm_compute. reflexivity.
Defined.

(** ** The bring-up word and the recovery *)

(** The word [mtk_i2c_reset] puts together, for every divisor that fits
    the field: checked on all 4096 of them. *)
Lemma ctl0_word_table :
  forallb (fun d =>
             let v := Z.lor (Z.lor (Z.lor (Z.lor ODRAIN_HIGH_SM0 VSYNC_PULSE)
                                          (u32 (Z.shiftl d CLK_DIV_SHIFT)))
                                   WAIT_HIGH) SM0_EN in
             (u32 v =? 0x90000042 + 65536 * d)
             && (Z.land (Z.shiftr (u32 v) CLK_DIV_SHIFT) CLK_DIV_MASK =? d)
             && (Z.land (Z.shiftr (u32 v) VSYNC_SHIFT) VSYNC_MASK =? 1))
          (seqZ 0 4096) = true.
Proof. vm_compute. reflexivity. Qed.

Lemma ctl0_word (d : Z) :
  0 <= d <= CLK_DIV_MASK ->
  let v := u32 (Z.lor (Z.lor (Z.lor (Z.lor ODRAIN_HIGH_SM0 VSYNC_PULSE)
                                    (u32 (Z.shiftl d CLK_DIV_SHIFT)))
                             WAIT_HIGH) SM0_EN) in
  v = 0x90000042 + 65536 * d /\
  Z.land (Z.shiftr v CLK_DIV_SHIFT) CLK_DIV_MASK = d /\
  Z.land (Z.shiftr v VSYNC_SHIFT) VSYNC_MASK = 1.
Proof.
  intros Hd. pose proof ctl0_word_table as H.
  rewrite forallb_forall in H. specialize (H d).
  cbv zeta in H |- *.
  assert (Hin : In d (seqZ 0 4096)).
  { apply list_elem_of_In, elem_of_seqZ. unfold CLK_DIV_MASK in Hd. lia. }
  apply H in Hin. apply andb_prop in Hin as [Hin H3]. apply andb_prop in Hin as [H1 H2].
  apply Z.eqb_eq in H1, H2, H3. now repeat split.
Qed.

Section Recovery.
Context {P : Platform}.

(** The recovery at the end of a transfer that timed out: after the
    writes of the messages, which stay on the four transfer registers, it
    writes the control word of the divisor stored in [i2c] and clears
    REG_SM0CFG2. *)
Lemma master_xfer_recovery (i2c : mtk_i2c) (msgs : list i2c_msg) (w : world) :
  exists r msgs' w',
    mtk_i2c_master_xfer i2c msgs w = Some ((r, msgs'), w') /\
    (r = - EAGAIN ->
     exists ws,
       Forall xfer_reg ws /\
       writes (log w') =
         writes (log w) ++ ws ++
         [(REG_SM0CTL0,
           u32 (Z.lor (Z.lor (Z.lor (Z.lor ODRAIN_HIGH_SM0 VSYNC_PULSE)
                                    (u32 (Z.shiftl (clk_div i2c) CLK_DIV_SHIFT)))
                             WAIT_HIGH) SM0_EN));
          (REG_SM0CFG2, 0)]).
Proof.
  unfold mtk_i2c_master_xfer.
  destruct (xfer_loop_inv msgs 0 w)
    as (l & k & msgs' & w1 & ws & Hrun & [Hw Hr] & Hk & Hf & _ & _ & _ & Hl & _).
  rewrite (bind_run _ _ _ _ _ Hrun). cbn beta iota.
  destruct Hl as [-> | [-> | ->]].
  - eexists _, _, _. split; [reflexivity|]. intros H.
    pose proof (Zle_0_nat (length msgs)).
    destruct (xfer_loop_app msgs 0 k w w1 msgs' [] Hrun) as [-> _].
    unfold EAGAIN in H. lia.
  - eexists _, _, _. split; [reflexivity|]. unfold EINVAL, EAGAIN. lia.
  - destruct (dump_reg_run w1) as (w2 & H2 & Hw2 & Hr2).
    rewrite (bind_run _ _ _ _ _ H2).
    destruct (reset_run i2c w2) as (w3 & H3 & Hw3 & Hr3).
    rewrite (bind_run _ _ _ _ _ H3).
    eexists _, _, _. split; [reflexivity|]. intros _.
    exists ws. split; [exact Hf|].
    rewrite Hw3, Hw2, Hw, app_nil_r. now rewrite <- app_assoc.
Qed.

(** [mtk_i2c_init] with a bus clock that is not zero. *)
Lemma init_run (i2c : mtk_i2c) (w : world) :
  u32 (cur_clk i2c) <> 0 ->
  exists i2c' w',
    mtk_i2c_init i2c w = Some (i2c', w') /\
    cur_clk i2c' = cur_clk i2c /\
    clk_div i2c' = Z.min (u32 (hw_clk_rate (dev w)) / u32 (cur_clk i2c)) 0xFFF /\
    resets (log w') = S (resets (log w)) /\
    writes (log w') =
      writes (log w) ++
      [(REG_SM0CTL0, 0x90000042 + 65536 * clk_div i2c'); (REG_SM0CFG2, 0)].
Proof.
  intros Hcur. unfold mtk_i2c_init, clk_get_rate. unfold bind at 1.
  apply Z.eqb_neq in Hcur. rewrite Hcur. apply Z.eqb_neq in Hcur.
  set (rate := u32 (hw_clk_rate (dev w))). set (cur := u32 (cur_clk i2c)).
  pose proof (u32_range (hw_clk_rate (dev w))) as Hrate. fold rate in Hrate.
  pose proof (u32_range (cur_clk i2c)) as Hc. fold cur in Hc. fold cur in Hcur.
  assert (Hq : 0 <= rate / cur <= rate).
  { split; [apply Z.div_pos; lia|]. apply Z.div_le_upper_bound; nia. }
  rewrite (u32_small (rate / cur)) by lia.
  set (d := if rate / cur >? CLK_DIV_MASK then CLK_DIV_MASK else rate / cur).
  assert (Hd : d = Z.min (rate / cur) 0xFFF).
  { unfold d, CLK_DIV_MASK. destruct (rate / cur >? 0xfff) eqn:E.
    - apply Z.gtb_lt in E. lia.
    - rewrite Z.gtb_ltb in E. apply Z.ltb_ge in E. lia. }
  destruct (reset_run (Mtk_i2c (cur_clk i2c) d) w) as (w' & Hrun & Hw & Hres).
  rewrite (bind_run _ _ _ _ _ Hrun).
  eexists _, w'. split; [reflexivity|]. cbn [cur_clk clk_div] in *.
  split; [reflexivity|]. split; [exact Hd|]. split; [exact Hres|].
  destruct (ctl0_word d) as (Hv & _); [unfold CLK_DIV_MASK; lia|].
  rewrite Hw, Hv. reflexivity.
Qed.

(** X13: Bring-up and recovery program the same word.  With a bus clock
    that is not zero, [mtk_i2c_init] writes to REG_SM0CTL0 the word
    0x90000042 + 65536 * divisor: open-drain-high, sync field 1, wait-high
    and enable set, everything else clear, and the divisor of the returned
    state readable in its field; then it clears REG_SM0CFG2.  Every later
    transfer that times out ends by writing exactly these two values again:
    the recovery uses the stored divisor and does not look at the clock. *)
Theorem recovery_restores_bring_up (i2c : mtk_i2c) (w : world) :
  u32 (cur_clk i2c) <> 0 ->
  exists i2c' w' v,
    mtk_i2c_init i2c w = Some (i2c', w') /\
    writes (log w') = writes (log w) ++ [(REG_SM0CTL0, v); (REG_SM0CFG2, 0)] /\
    v = 0x90000042 + 65536 * clk_div i2c' /\
    Z.land (Z.shiftr v CLK_DIV_SHIFT) CLK_DIV_MASK = clk_div i2c' /\
    Z.land (Z.shiftr v VSYNC_SHIFT) VSYNC_MASK = 1 /\
    forall (msgs : list i2c_msg) (w2 : world),
    exists r msgs' w3,
      mtk_i2c_master_xfer i2c' msgs w2 = Some ((r, msgs'), w3) /\
      (r = - EAGAIN ->
       exists ws,
         Forall xfer_reg ws /\
         writes (log w3) =
           writes (log w2) ++ ws ++ [(REG_SM0CTL0, v); (REG_SM0CFG2, 0)]).
Proof.
  intros Hclk.
  destruct (init_run i2c w Hclk) as (i2c' & w' & Hrun & _ & Hd & _ & Hw).
  assert (Hr : 0 <= clk_div i2c' <= CLK_DIV_MASK).
  { rewrite Hd. unfold CLK_DIV_MASK.
    pose proof (u32_range (hw_clk_rate (dev w))). pose proof (u32_range (cur_clk i2c)).
    assert (0 <= u32 (hw_clk_rate (dev w)) / u32 (cur_clk i2c))
      by (apply Z.div_pos; lia).
    lia. }
  destruct (ctl0_word (clk_div i2c') Hr) as (Hv & Hdiv & Hsync).
  exists i2c', w', (0x90000042 + 65536 * clk_div i2c').
  split; [exact Hrun|]. split; [exact Hw|]. split; [reflexivity|].
  rewrite <- Hv. split; [exact Hdiv|]. split; [exact Hsync|].
  intros msgs w2.
  destruct (master_xfer_recovery i2c' msgs w2) as (r & msgs' & w3 & Hx & Hrec).
  exists r, msgs', w3. split; [exact Hx|]. exact Hrec.
Qed.

End Recovery.

Lemma recovery_restores_bring_up_witness :
  exists i2c' w',
    @mtk_i2c_init sim_platform (Mtk_i2c 400000 0) (sim_idle [])
    = Some (i2c', w') /\
    clk_div i2c' = 100 /\
    writes (log w') = [(REG_SM0CTL0, 0x90640042); (REG_SM0CFG2, 0)].
Proof.
  destruct (@recovery_restores_bring_up sim_platform (Mtk_i2c 400000 0) (sim_idle []))
    as (i2c' & w' & v & Hrun & Hw & Hv & _).
  - vm_compute. discriminate.
  - exists i2c', w'. split; [exact Hrun|].
    vm_compute in Hrun. injection Hrun as Hi _. subst i2c'.
    split; [reflexivity|]. rewrite Hw, Hv. reflexivity.
Defined.

(** ** Short writes *)

Lemma load_range (b : list Z) (i : Z) : 0 <= load b i < 256.
Proof.
  unfold load. destruct (i <? 0); [lia|]. unfold u8.
  apply Z.mod_pos_bound. lia.
Qed.

Lemma byte_bits (a n : Z) : 0 <= a < 256 -> 8 <= n -> Z.testbit a n = false.
Proof.
  intros Ha Hn. destruct (Z.eq_dec a 0) as [-> | Hne]; [apply Z.bits_0|].
  apply Z.bits_above_log2; [lia|].
  assert (Z.log2 a < 8); [|lia]. apply Z.log2_lt_pow2; lia.
Qed.

Lemma low_bits_u64_s32 (y p : Z) :
  0 <= p < 32 -> Z.testbit (u64 (s32 y)) p = Z.testbit y p.
Proof.
  intros Hp. unfold u64, s32.
  rewrite Z.mod_pow2_bits_low by lia.
  replace ((y + 2 ^ 31) mod 2 ^ 32 - 2 ^ 31)
    with (y + 2 ^ 32 * (- ((y + 2 ^ 31) / 2 ^ 32)))
    by (pose proof (Z.div_mod (y + 2 ^ 31) (2 ^ 32)); lia).
  rewrite <- (Z.mod_pow2_bits_low _ 32) by lia.
  rewrite Z.mul_comm, Z_mod_plus_full.
  now rewrite Z.mod_pow2_bits_low by lia.
Qed.

Section ShortWrite.
Context {P : Platform}.

(** The low word of what the for loop of the write branch packs, for a
    chunk of at most four bytes, bit by bit. *)
Lemma pack_bytes_low_bits (n : nat) :
  forall (j len pkt_num : Z) (b : list Z) (verb p : Z),
    0 <= j -> len <= 4 -> 0 <= p < 32 ->
    Z.testbit (pack_bytes n j len pkt_num b verb) p
    = Z.testbit verb p
      || ((j <=? p / 8) && (p / 8 <? len) && (p / 8 <? j + Z.of_nat n)
          && Z.testbit (load b (p / 8 + pkt_num * 8)) (p mod 8)).
Proof.
  induction n as [|n IH]; intros j len pkt_num b verb p Hj Hlen Hp.
  { cbn [pack_bytes].
    destruct (j <=? p / 8) eqn:E1; [|now rewrite orb_false_r].
    destruct (p / 8 <? j + Z.of_nat 0) eqn:E2.
    - apply Z.leb_le in E1. apply Z.ltb_lt in E2. lia.
    - now rewrite andb_false_r, orb_false_r. }
  cbn [pack_bytes]. destruct (j <? len) eqn:Ej.
  - apply Z.ltb_lt in Ej. rewrite IH by lia.
    rewrite Z.lor_spec. unfold int_shl.
    replace (0 <=? j * 8) with true by (symmetry; apply Z.leb_le; lia).
    replace (j * 8 <? 32) with true by (symmetry; apply Z.ltb_lt; lia).
    cbn [andb]. rewrite low_bits_u64_s32, Z.shiftl_spec by lia.
    rewrite <- orb_assoc. f_equal.
    pose proof (Z.div_mod p 8) as Hdm. pose proof (Z.mod_pos_bound p 8) as Hm.
    replace (p / 8 <? j + 1 + Z.of_nat n) with (p / 8 <? j + Z.of_nat (S n))
      by (f_equal; lia).
    destruct (Z.eq_dec (p / 8) j) as [Hq | Hq].
    + replace (p - j * 8) with (p mod 8) by lia. rewrite Hq.
      replace (j + 1 <=? j) with false by (symmetry; apply Z.leb_gt; lia).
      replace (j <=? j) with true by (symmetry; apply Z.leb_le; lia).
      replace (j <? len) with true by (symmetry; apply Z.ltb_lt; lia).
      replace (j <? j + Z.of_nat (S n)) with true by (symmetry; apply Z.ltb_lt; lia).
      cbn [andb]. now rewrite orb_false_r.
    + assert (Z.testbit (load b (j + pkt_num * 8)) (p - j * 8) = false) as ->.
      { destruct (Z_lt_le_dec (p / 8) j).
        - apply Z.testbit_neg_r. lia.
        - apply byte_bits; [apply load_range | lia]. }
      cbn [orb]. destruct (Z_lt_le_dec (p / 8) j).
      * replace (j + 1 <=? p / 8) with false by (symmetry; apply Z.leb_gt; lia).
        replace (j <=? p / 8) with false by (symmetry; apply Z.leb_gt; lia).
        reflexivity.
      * replace (j + 1 <=? p / 8) with true by (symmetry; apply Z.leb_le; lia).
        replace (j <=? p / 8) with true by (symmetry; apply Z.leb_le; lia).
        reflexivity.
  - apply Z.ltb_ge in Ej.
    destruct (j <=? p / 8) eqn:E1; [|now rewrite orb_false_r].
    destruct (p / 8 <? len) eqn:E2; [|now rewrite orb_false_r].
    apply Z.leb_le in E1. apply Z.ltb_lt in E2. lia.
Qed.

(** Byte [j] of the low data word of a short chunk is byte [j] of the
    chunk. *)
Lemma pack_bytes_short (len pkt_num : Z) (b : list Z) (j : Z) :
  len <= 4 -> 0 <= j < len ->
  window_byte (u32 (pack_bytes 8 0 len pkt_num b 0),
               u32 (Z.shiftr (pack_bytes 8 0 len pkt_num b 0) 32)) j
  = load b (j + pkt_num * 8).
Proof.
  intros Hlen Hj. unfold window_byte. cbn [fst snd].
  replace (j <? 4) with true by (symmetry; apply Z.ltb_lt; lia).
  rewrite Z.mod_small by lia.
  apply Z.bits_inj'. intros q Hq.
  rewrite u8_bits by lia. destruct (q <? 8) eqn:E8.
  - apply Z.ltb_lt in E8. cbn [andb]. rewrite Z.shiftr_spec by lia.
    unfold u32. rewrite Z.mod_pow2_bits_low by lia.
    rewrite pack_bytes_low_bits by lia. rewrite Z.bits_0. cbn [orb].
    assert (Hd : (q + 8 * j) / 8 = j)
      by (symmetry; apply Z.div_unique with (r := q); lia).
    assert (Hm : (q + 8 * j) mod 8 = q)
      by (symmetry; apply Z.mod_unique with (q := j); lia).
    rewrite Hd, Hm.
    replace (0 <=? j) with true by (symmetry; apply Z.leb_le; lia).
    replace (j <? len) with true by (symmetry; apply Z.ltb_lt; lia).
    replace (j <? 0 + Z.of_nat 8) with true by (symmetry; apply Z.ltb_lt; lia).
    reflexivity.
  - apply Z.ltb_ge in E8. cbn [andb]. symmetry.
    apply byte_bits; [apply load_range | lia].
Qed.

(** X14: A plain write of at most four bytes is exact.  It takes one write
    operation whose count field is the length less one, and the bytes of the
    buffer sit in REG_SM0D0 where the read path looks for them: unpacking
    the two words written gives the buffer back, whatever the bytes are.
    (REG_SM0D1 is written too, but the count field keeps the controller from
    sending it.) *)
Theorem short_write_round_trip (m : i2c_msg) (w : world) :
  0 < u16 (len m) <= 4 ->
  exists w' d0 d1,
    xfer_write_loop (Z.to_nat (u16 (len m))) (u16 (len m)) (u16 (len m)) 0 (buf m) w
    = Some (tt, w') /\
    writes (log w') =
      writes (log w) ++
      [(REG_SM0D0, d0); (REG_SM0D1, d1);
       (REG_SM0CTL1, ctl1_cmd (u16 (len m) - 1) SM0_MODE_WRITE)] /\
    forall j, 0 <= j < u16 (len m) -> window_byte (d0, d1) j = load (buf m) j.
Proof.
  intros HL. set (L := u16 (len m)) in *.
  destruct (write_loop_run (Z.to_nat L) L L 0 (buf m) w) as (w' & Hrun & Hw & _).
  exists w', (u32 (pack_bytes 8 0 L 0 (buf m) 0)),
    (u32 (Z.shiftr (pack_bytes 8 0 L 0 (buf m) 0) 32)).
  split; [exact Hrun|]. split.
  - rewrite Hw. f_equal.
    destruct (Z.to_nat L) as [|n] eqn:En; [lia|].
    cbn [write_ops].
    replace (L >? 0) with true by (symmetry; apply Z.gtb_lt; lia).
    replace (L >? 8) with false by (symmetry; rewrite Z.gtb_ltb; apply Z.ltb_ge; lia).
    replace (L - L) with 0 by lia.
    assert (write_ops n L 0 (0 + 1) (buf m) = []) as ->
        by (destruct n; reflexivity).
    assert (Hc : Z.land (L - 1) 7 = L - 1).
    { assert (L = 1 \/ L = 2 \/ L = 3 \/ L = 4) as [-> | [-> | [-> | ->]]] by lia;
        reflexivity. }
    rewrite Hc.
    destruct (ctl1_cmd_layout (L - 1) SM0_MODE_WRITE) as (-> & _);
      [lia | unfold SM0_MODE_WRITE; lia |].
    reflexivity.
  - intros j Hj. rewrite pack_bytes_short by lia.
    f_equal. lia.
Qed.

End ShortWrite.

Lemma short_write_round_trip_witness :
  exists w' d0 d1,
    @xfer_write_loop sim_platform 4 4 4 0 [0x12; 0x34; 0x56; 0xF8] (sim_idle [])
    = Some (tt, w') /\
    writes (log w') =
      [(REG_SM0D0, d0); (REG_SM0D1, d1); (REG_SM0CTL1, ctl1_cmd 3 SM0_MODE_WRITE)] /\
    d0 = 0xF8563412 /\
    window_byte (d0, d1) 3 = 0xF8.
Proof.
  destruct (@short_write_round_trip sim_platform
              (I2c_msg 0x50 0 4 [0x12; 0x34; 0x56; 0xF8]) (sim_idle []))
    as (w' & d0 & d1 & Hrun & Hw & Hb).
  - vm_compute. split; [reflexivity | discriminate].
  - exists w', d0, d1. split; [exact Hrun|].
    vm_compute in Hrun. injection Hrun as Hw'. subst w'.
    vm_compute in Hw. injection Hw as <- <-.
    split; [reflexivity|]. split; [reflexivity|]. vm_compute. reflexivity.
Defined.

(** ** Bring-up and removal *)

Section ProbeFacts.
Context {P : Platform}.
Variables ENODEV ENOMEM : Z.

(** X15: Probe, and remove after it, leave the clock balanced.  With a bus
    clock that is not zero (the property of the device, or 400 kHz when it
    has none) [mtk_i2c_probe] always returns, and what it does is decided by
    the first thing that is missing.  Without the memory resource it returns
    -ENODEV, without memory -ENOMEM, with a failed mapping the error of the
    mapping, with a failed clock lookup -ENODEV whatever the error was; in
    these four cases it has made no call and touched no register.  With
    everything there it enables the clock and sets the driver data before
    its first register access, resets the controller once, programs the
    divisor min(rate / bus clock, 0xFFF), registers the adapter after its
    last register access and returns what i2c_add_adapter returned: when
    that is negative the clock is disabled again, and when it is not the
    clock stays enabled until [mtk_i2c_remove], which unregisters the
    adapter, disables the clock and returns 0. *)
Theorem probe_remove_clock_balance (pdev : platform_device) (w : world) :
  u32 (default 400000 (clock_frequency pdev)) <> 0 ->
  (mem_resource pdev = false ->
   mtk_i2c_probe ENODEV ENOMEM pdev w = Some ((- ENODEV, None, []), w)) /\
  (mem_resource pdev = true -> kzalloc_ok pdev = false ->
   mtk_i2c_probe ENODEV ENOMEM pdev w = Some ((- ENOMEM, None, []), w)) /\
  (forall e, mem_resource pdev = true -> kzalloc_ok pdev = true ->
             ioremap_err pdev = Some e ->
             mtk_i2c_probe ENODEV ENOMEM pdev w = Some ((e, None, []), w)) /\
  (forall e, mem_resource pdev = true -> kzalloc_ok pdev = true ->
             ioremap_err pdev = None -> clk_err pdev = Some e ->
             mtk_i2c_probe ENODEV ENOMEM pdev w = Some ((- ENODEV, None, []), w)) /\
  (mem_resource pdev = true -> kzalloc_ok pdev = true ->
   ioremap_err pdev = None -> clk_err pdev = None ->
   exists i2c w' calls,
     mtk_i2c_probe ENODEV ENOMEM pdev w
     = Some ((add_adapter_ret pdev, Some i2c, calls), w') /\
     calls =
       [(ClkPrepareEnable, length (log w)); (SetDrvdata, length (log w));
        (AddAdapter (I2c_adapter 3 BYTECNT_MAX BYTECNT_MAX), length (log w'))]
       ++ (if add_adapter_ret pdev <? 0
           then [(ClkDisableUnprepare, length (log w'))] else []) /\
     clk_enabled calls = (if add_adapter_ret pdev <? 0 then 0 else 1) /\
     cur_clk i2c = match clock_frequency pdev with Some v => u32 v | None => 400000 end /\
     clk_div i2c = Z.min (u32 (hw_clk_rate (dev w)) / cur_clk i2c) 0xFFF /\
     resets (log w') = S (resets (log w)) /\
     writes (log w') =
       writes (log w) ++
       [(REG_SM0CTL0, 0x90000042 + 65536 * clk_div i2c); (REG_SM0CFG2, 0)] /\
     forall w2,
       mtk_i2c_remove i2c w2
       = Some ((0, [(DelAdapter, length (log w2));
                    (ClkDisableUnprepare, length (log w2))]), w2) /\
       (0 <= add_adapter_ret pdev ->
        clk_enabled (calls ++ [(DelAdapter, length (log w2));
                               (ClkDisableUnprepare, length (log w2))]) = 0)).
Proof.
  intros Hclk. unfold mtk_i2c_probe.
  split; [intros ->; reflexivity|].
  split; [intros -> ->; reflexivity|].
  split; [intros e -> -> ->; reflexivity|].
  split; [intros e -> -> -> ->; reflexivity|].
  intros -> -> -> ->. cbn [negb].
  unfold bind at 1, kstamp at 1. unfold bind at 1, kstamp at 1.
  set (cur := match clock_frequency pdev with Some v => u32 v | None => 400000 end).
  assert (Hcur : u32 cur <> 0).
  { unfold cur. destruct (clock_frequency pdev) as [v|]; cbn [default] in Hclk.
    - unfold u32 in *. now rewrite Z.mod_mod by lia.
    - exact Hclk. }
  assert (Hcur' : u32 cur = cur).
  { unfold cur. destruct (clock_frequency pdev) as [v|]; [|reflexivity].
    unfold u32. apply Z.mod_mod. lia. }
  destruct (init_run (Mtk_i2c cur 0) w Hcur)
    as (i2c & w1 & Hrun & Hc & Hd & Hr & Hw). cbn [cur_clk] in *.
  rewrite (bind_run _ _ _ _ _ Hrun).
  unfold bind at 1, kstamp at 1.
  destruct (add_adapter_ret pdev <? 0) eqn:Er.
  - unfold bind at 1, kstamp at 1.
    eexists i2c, w1, _. split; [reflexivity|].
    split; [reflexivity|]. split; [reflexivity|]. split; [exact Hc|].
    split; [rewrite Hd, Hc, Hcur'; reflexivity|].
    split; [exact Hr|]. split; [exact Hw|].
    intros w2. split; [reflexivity|]. apply Z.ltb_lt in Er. lia.
  - eexists i2c, w1, _. split; [reflexivity|].
    split; [reflexivity|]. split; [reflexivity|]. split; [exact Hc|].
    split; [rewrite Hd, Hc, Hcur'; reflexivity|].
    split; [exact Hr|]. split; [exact Hw|].
    intros w2. split; [reflexivity|]. intros _. reflexivity.
Qed.

End ProbeFacts.

Lemma probe_remove_clock_balance_witness :
  exists i2c w',
    @mtk_i2c_probe sim_platform 19 12 (Platform_device true true None None None 0)
                   (sim_idle [])
    = Some ((0, Some i2c,
             [(ClkPrepareEnable, 0%nat); (SetDrvdata, 0%nat);
              (AddAdapter (I2c_adapter 3 BYTECNT_MAX BYTECNT_MAX), 3%nat)]), w') /\
    cur_clk i2c = 400000 /\
    clk_div i2c = 100 /\
    writes (log w') = [(REG_SM0CTL0, 0x90640042); (REG_SM0CFG2, 0)].
Proof.
  destruct (@probe_remove_clock_balance sim_platform 19 12
              (Platform_device true true None None None 0) (sim_idle []))
    as (_ & _ & _ & _ & Hall).
  - vm_compute. discriminate.
  - destruct Hall as (i2c & w' & calls & Hrun & Hcalls & _ & Hcur & Hdiv & _ & Hws & _);
      try reflexivity.
    pose proof Hrun as Hc. vm_compute in Hc. injection Hc as Hi Hcs Hw.
    exists i2c, w'. split.
    + rewrite Hrun, <- Hcs. reflexivity.
    + split; [exact Hcur|]. split; [rewrite <- Hi; reflexivity|].
      rewrite Hws, <- Hi. reflexivity.
Defined.

(** ** Requests in sequence *)

Section Sequence.
Context {P : Platform}.

(** The index the for loop starts from shows in nothing but the index it
    ends with. *)
Lemma xfer_loop_index (msgs : list i2c_msg) :
  forall (i : Z) (w : world),
    xfer_loop i msgs w =
    match xfer_loop 0 msgs w with
    | Some ((l, k, msgs'), w') => Some ((l, i + k, msgs'), w')
    | None => None
    end.
Proof.
  induction msgs as [|m msgs IH]; intros i w.
  - cbn [xfer_loop]. unfold ret. now replace (i + 0) with i by lia.
  - cbn [xfer_loop]. unfold bind at 1 3.
    destruct (xfer_msg m w) as [[[l m'] w1]|]; [|reflexivity].
    destruct l.
    + unfold bind. rewrite (IH (i + 1)), (IH (0 + 1)).
      destruct (xfer_loop 0 msgs w1) as [[[[l' k] msgs'] w2]|]; [|reflexivity].
      unfold ret. now replace (i + (0 + 1 + k)) with (i + 1 + k) by lia.
    + unfold ret. now replace (i + 0) with i by lia.
    + unfold ret. now replace (i + 0) with i by lia.
Qed.

(** X16: A request is the sequence of its parts.  When a call on the
    messages [pre] has returned their number, a call on [pre ++ post] from
    the same state does what a second call on [post] does from the state the
    first one left: same register traffic, same buffers, and the result of
    the second call, counted from the end of [pre] when it is not an error.
    The driver carries nothing from one message to the next; each message is
    a transfer of its own, from start to stop. *)
Theorem request_splits (i2c : mtk_i2c) (pre post pre' : list i2c_msg) (w w0 : world) :
  mtk_i2c_master_xfer i2c pre w = Some ((Z.of_nat (length pre), pre'), w0) ->
  exists r post' w',
    mtk_i2c_master_xfer i2c post w0 = Some ((r, post'), w') /\
    mtk_i2c_master_xfer i2c (pre ++ post) w
    = Some ((if r <? 0 then r else Z.of_nat (length pre) + r, pre' ++ post'), w').
Proof.
  intros Hpre. unfold mtk_i2c_master_xfer in Hpre.
  destruct (xfer_loop_total pre 0 w) as (l & k & p' & w1 & Hrun & Hl & _).
  rewrite (bind_run _ _ _ _ _ Hrun) in Hpre. cbn beta iota in Hpre.
  pose proof (Zle_0_nat (length pre)) as Hn.
  destruct Hl as [[-> Hk] | [-> | ->]].
  2: { injection Hpre as Hr _ _. unfold EINVAL in Hr. lia. }
  2: { unfold bind in Hpre.
       destruct (mtk_i2c_dump_reg w1) as [[[] w2]|]; [|discriminate].
       destruct (mtk_i2c_reset i2c w2) as [[[] w3]|]; [|discriminate].
       injection Hpre as Hr _ _. unfold EAGAIN in Hr. lia. }
  injection Hpre as _ -> ->.
  destruct (xfer_loop_app pre 0 k w w0 pre' post Hrun) as [_ Happ].
  rewrite (xfer_loop_index post k) in Happ.
  destruct (xfer_loop_total post 0 w0) as (l & j & q' & w2 & Hpost & Hl & _).
  rewrite Hpost in Happ.
  unfold mtk_i2c_master_xfer.
  rewrite (bind_run _ _ _ _ _ Hpost), (bind_run _ _ _ _ _ Happ). cbn beta iota.
  pose proof (Zle_0_nat (length post)) as Hm.
  destruct Hl as [[-> Hj] | [-> | ->]].
  - eexists _, _, _. split; [reflexivity|].
    replace (j <? 0) with false by (symmetry; apply Z.ltb_ge; lia).
    unfold ret. do 3 f_equal. lia.
  - eexists _, _, _. split; [reflexivity|]. reflexivity.
  - destruct (dump_reg_run w2) as (w3 & H3 & _).
    rewrite !(bind_run _ _ _ _ _ H3).
    destruct (reset_run i2c w3) as (w4 & H4 & _).
    rewrite !(bind_run _ _ _ _ _ H4).
    eexists _, _, _. split; [reflexivity|]. reflexivity.
Qed.

End Sequence.

Lemma request_splits_witness :
  exists r post' w',
    @mtk_i2c_master_xfer sim_platform i2c_400k [msg_read 0x50 4] sim_after_write
    = Some ((r, post'), w') /\
    r = 1 /\
    @mtk_i2c_master_xfer sim_platform i2c_400k
       ([msg_write 0x50 [0; 0x10]] ++ [msg_read 0x50 4]) (sim_idle [])
    = Some ((2, [msg_write 0x50 [0; 0x10]] ++ post'), w').
Proof.
  destruct (@request_splits sim_platform i2c_400k [msg_write 0x50 [0; 0x10]]
              [msg_read 0x50 4] [msg_write 0x50 [0; 0x10]] (sim_idle [])
              sim_after_write)
    as (r & post' & w' & Hpost & Hall).
  - vm_compute. reflexivity.
  - exists r, post', w'. split; [exact Hpost|].
    assert (Hr : r = 1).
    { vm_compute in Hpost. now injection Hpost as <- _ _. }
    split; [exact Hr|]. rewrite Hall, Hr. reflexivity.
Defined.

(** * The board driver *)


Lemma u8_load (s : list Z) (i : Z) : u8 (load s i) = load s i.
Proof. unfold u8. apply Z.mod_small, load_range. Qed.



Lemma strcmp_zero (lit : list Z) :
  Forall (fun c => 0 < c < 256) lit ->
  forall (s : list Z) (i : Z),
    0 <= i ->
    (strcmp s i lit = 0 <->
     (forall k : nat, (k < length lit)%nat ->
                      lit !! k = Some (load s (i + Z.of_nat k))) /\
     load s (i + Z.of_nat (length lit)) = 0).
Proof.
  induction 1 as [|c lit Hc Hlit IH]; intros s i Hi; cbn [strcmp length].
  - replace (i + Z.of_nat 0) with i by lia. split.
    + intros H. split; [intros k Hk; lia | exact H].
    + now intros [_ H].
  - assert (Hu : u8 c = c) by (unfold u8; apply Z.mod_small; lia). rewrite !Hu.
    replace (c =? 0) with false by (symmetry; apply Z.eqb_neq; lia).
    destruct (load s i =? c) eqn:E.
    + apply Z.eqb_eq in E. rewrite IH by lia. split.
      * intros [Hall Hend]. split.
        -- intros [|k] Hk; simpl.
           ++ replace (i + Z.of_nat 0) with i by lia. now rewrite E.
           ++ replace (i + Z.of_nat (S k)) with (i + 1 + Z.of_nat k) by lia.
              apply Hall. lia.
        -- now replace (i + Z.of_nat (S (length lit)))
             with (i + 1 + Z.of_nat (length lit)) by lia.
      * intros [Hall Hend]. split.
        -- intros k Hk. specialize (Hall (S k) ltac:(lia)). simpl in Hall.
           now replace (i + 1 + Z.of_nat k) with (i + Z.of_nat (S k)) by lia.
        -- now replace (i + 1 + Z.of_nat (length lit))
             with (i + Z.of_nat (S (length lit))) by lia.
    + apply Z.eqb_neq in E. split.
      * lia.
      * intros [Hall _]. specialize (Hall 0%nat ltac:(lia)). simpl in Hall.
        replace (i + Z.of_nat 0) with i in Hall by lia. congruence.
Qed.

Section LinkitFacts.
Variable char_signed : bool.

Lemma sanify_loop_length (n : nat) :
  forall (i : Z) (s : list Z), length (sanify_loop char_signed n i s) = length s.
Proof.
  induction n as [|n IH]; intros i s; cbn [sanify_loop]; [reflexivity|].
  destruct (i <? 15); [|reflexivity]. rewrite IH.
  destruct (char_val char_signed (load s i) <=? 32); [apply length_store | reflexivity].
Qed.

(** The for loop from index [i] on, byte by byte. *)
Lemma sanify_loop_load (n : nat) :
  forall (i : Z) (s : list Z) (idx : Z),
    0 <= i ->
    load (sanify_loop char_signed n i s) idx
    = if (i <=? idx) && (idx <? 15) && (idx <? i + Z.of_nat n)
         && (char_val char_signed (load s idx) <=? 0x20)
      then 0 else load s idx.
Proof.
  induction n as [|n IH]; intros i s idx Hi; cbn [sanify_loop].
  { destruct (i <=? idx) eqn:E1; [|reflexivity].
    destruct (idx <? 15); [|reflexivity].
    destruct (idx <? i + Z.of_nat 0) eqn:E2; [|reflexivity].
    apply Z.leb_le in E1. apply Z.ltb_lt in E2. lia. }
  destruct (i <? 15) eqn:E15.
  - apply Z.ltb_lt in E15. rewrite IH by lia.
    replace (idx <? i + 1 + Z.of_nat n) with (idx <? i + Z.of_nat (S n))
      by (f_equal; lia).
    destruct (Z.eq_dec idx i) as [-> | Hne].
    + replace (i + 1 <=? i) with false by (symmetry; apply Z.leb_gt; lia).
      replace (i <=? i) with true by (symmetry; apply Z.leb_le; lia).
      replace (i <? 15) with true by (symmetry; apply Z.ltb_lt; lia).
      replace (i <? i + Z.of_nat (S n)) with true by (symmetry; apply Z.ltb_lt; lia).
      cbn [andb].
      destruct (char_val char_signed (load s i) <=? 32) eqn:Eb; [|reflexivity].
      rewrite load_store.
      replace (i =? i) with true by (symmetry; apply Z.eqb_eq; lia).
      replace (0 <=? i) with true by (symmetry; apply Z.leb_le; lia).
      cbn [andb]. destruct (i <? Z.of_nat (length s)) eqn:El; [reflexivity|].
      apply Z.ltb_ge in El. unfold load.
      replace (i <? 0) with false by (symmetry; apply Z.ltb_ge; lia).
      rewrite lookup_ge_None_2 by lia. reflexivity.
    + assert (Hsame : load (if char_val char_signed (load s i) <=? 32
                            then store s i 0 else s) idx = load s idx).
      { destruct (char_val char_signed (load s i) <=? 32); [|reflexivity].
        rewrite load_store.
        now replace (idx =? i) with false by (symmetry; apply Z.eqb_neq; lia). }
      rewrite Hsame.
      destruct (Z_lt_le_dec idx i).
      * replace (i + 1 <=? idx) with false by (symmetry; apply Z.leb_gt; lia).
        replace (i <=? idx) with false by (symmetry; apply Z.leb_gt; lia).
        reflexivity.
      * replace (i + 1 <=? idx) with true by (symmetry; apply Z.leb_le; lia).
        replace (i <=? idx) with true by (symmetry; apply Z.leb_le; lia).
        reflexivity.
  - apply Z.ltb_ge in E15.
    destruct (i <=? idx) eqn:E1; [|reflexivity].
    destruct (idx <? 15) eqn:E2; [|reflexivity].
    apply Z.leb_le in E1. apply Z.ltb_lt in E2. lia.
Qed.


(** [sanify_string] on a char[16], byte by byte. *)
Lemma sanify_string_load (s : list Z) (idx : Z) :
  length s = 16%nat ->
  load (sanify_string char_signed s) idx
  = if (idx =? 15)
       || ((0 <=? idx) && (idx <? 15) && (char_val char_signed (load s idx) <=? 0x20))
    then 0 else load s idx.
Proof.
  intros Hl. unfold sanify_string.
  rewrite load_store, sanify_loop_length, Hl, sanify_loop_load by lia.
  change (0 <=? 15) with true. change (15 <? Z.of_nat 16) with true.
  rewrite !andb_true_r.
  destruct (idx =? 15) eqn:E; [reflexivity|]. cbn [orb].
  apply Z.eqb_neq in E.
  destruct (0 <=? idx) eqn:E0; [|reflexivity].
  destruct (idx <? 15) eqn:E1; [|reflexivity].
  apply Z.ltb_lt in E1.
  replace (idx <? 0 + Z.of_nat 15) with true by (symmetry; apply Z.ltb_lt; lia).
  reflexivity.
Qed.

Lemma char_val_zero : char_val char_signed 0 = 0.
Proof. unfold char_val. cbn. now rewrite andb_false_r. Qed.

End LinkitFacts.


Lemma LINKITS7688_chars : Forall (fun c => 0x20 < c < 128) LINKITS7688.
Proof. unfold LINKITS7688. repeat (constructor; [lia|]). constructor. Qed.

Section LinkitTheorems.
Variable char_signed : bool.

Lemma char_val_plain (c : Z) : 0 <= c < 128 -> char_val char_signed c = c.
Proof.
  intros Hc. unfold char_val, u8. rewrite (Z.mod_small c (2 ^ 8)) by lia.
  replace (128 <=? c) with false by (symmetry; apply Z.leb_gt; lia).
  now rewrite andb_false_r.
Qed.


(** The cleaned board string compares equal to the literal exactly for
    the raw bytes [names_board] describes. *)
Lemma board_strcmp (raw : list Z) :
  length raw = 16%nat ->
  strcmp (sanify_string char_signed raw) 0 LINKITS7688 = 0
  <-> names_board char_signed raw.
Proof.
  intros Hl. pose proof LINKITS7688_chars as Hchars.
  rewrite strcmp_zero.
  2: { eapply Forall_impl; [exact Hchars|]. cbn. intros c Hc. lia. }
  2: lia.
  change (length LINKITS7688) with 11%nat. change (0 + Z.of_nat 11) with 11.
  unfold names_board. rewrite Forall_lookup in Hchars.
  assert (Hload : forall k, 0 <= k < 15 ->
             load (sanify_string char_signed raw) k
             = if char_val char_signed (load raw k) <=? 32 then 0 else load raw k).
  { intros k Hk. rewrite sanify_string_load by exact Hl.
    replace (k =? 15) with false by (symmetry; apply Z.eqb_neq; lia).
    replace (0 <=? k) with true by (symmetry; apply Z.leb_le; lia).
    now replace (k <? 15) with true by (symmetry; apply Z.ltb_lt; lia). }
  split.
  - intros [Hall Hend]. split.
    + intros k Hk. specialize (Hall k Hk). rewrite Z.add_0_l in Hall.
      pose proof (Hchars _ _ Hall) as Hc. cbn beta in Hc.
      rewrite Hload in Hall, Hc by lia.
      destruct (char_val char_signed (load raw (Z.of_nat k)) <=? 32); [lia | exact Hall].
    + rewrite Hload in Hend by lia.
      destruct (char_val char_signed (load raw 11) <=? 32) eqn:E;
        [now apply Z.leb_le in E|].
      rewrite Hend. rewrite char_val_zero. lia.
  - intros [Hall Hend]. split.
    + intros k Hk. specialize (Hall k Hk). rewrite Z.add_0_l.
      pose proof (Hchars _ _ Hall) as Hc. cbn beta in Hc.
      rewrite Hload by lia.
      rewrite (char_val_plain (load raw (Z.of_nat k))) by lia.
      replace (load raw (Z.of_nat k) <=? 32) with false
        by (symmetry; apply Z.leb_gt; lia).
      exact Hall.
    + rewrite Hload by lia. apply Z.leb_le in Hend. now rewrite Hend.
Qed.

(** X18: When the latch is set up.  Once the factory partition is there,
    [linkit_probe] gives the partition back first and prints the two cleaned
    strings, whatever mtd_read did.  It claims GPIO 11 exactly when the raw
    board field begins with the eleven characters LINKITS7688 followed by a
    byte that is not above 0x20 as a char (a NUL, a blank, a line end, and
    with a signed char also 0xFF of erased flash): then it drives the line
    low and returns 0, or returns -1 without driving it when the claim
    failed.  For every other content it returns 0 and touches no GPIO. *)
Theorem linkit_probe_latch (env : linkit_env) :
  mtd_err env = None ->
  length (board (hw_after_read env)) = 16%nat ->
  let info := [PutMtdDevice;
               DevInfo (cstr (sanify_string char_signed (board (hw_after_read env))));
               DevInfo (cstr (sanify_string char_signed (rev (hw_after_read env))))] in
  (names_board char_signed (board (hw_after_read env)) /\
   gpio_request_ret env = 0 /\
   linkit_probe char_signed env
   = (0, info ++ [GpioRequest LINKIT_LATCH_GPIO;
                  GpioDirectionOutput LINKIT_LATCH_GPIO 0])) \/
  (names_board char_signed (board (hw_after_read env)) /\
   gpio_request_ret env <> 0 /\
   linkit_probe char_signed env = (-1, info ++ [GpioRequest LINKIT_LATCH_GPIO])) \/
  ((names_board char_signed (board (hw_after_read env)) -> False) /\
   linkit_probe char_signed env = (0, info)).
Proof.
  intros Hmtd Hl info. unfold linkit_probe. rewrite Hmtd. cbn [board rev].
  pose proof (board_strcmp (board (hw_after_read env)) Hl) as Hiff.
  destruct (strcmp (sanify_string char_signed (board (hw_after_read env))) 0
                   LINKITS7688 =? 0) eqn:E.
  - apply Z.eqb_eq in E. apply Hiff in E.
    destruct (gpio_request_ret env =? 0) eqn:Eg; cbn [negb].
    + apply Z.eqb_eq in Eg. left. split; [exact E|]. split; [exact Eg | reflexivity].
    + apply Z.eqb_neq in Eg. right. left.
      split; [exact E|]. split; [exact Eg | reflexivity].
  - apply Z.eqb_neq in E. right. right. split; [|reflexivity].
    intros Hn. apply E, Hiff, Hn.
Qed.

End LinkitTheorems.


Lemma linkit_probe_latch_witness :
  linkit_probe true
    (Linkit_env None
       (Linkit_hw_data
          [0x4C; 0x49; 0x4E; 0x4B; 0x49; 0x54; 0x53; 0x37; 0x36; 0x38; 0x38;
           0x0A; 0x31; 0x32; 0x33; 0x34]
          (replicate 16 0xFF)) 0)
  = (0, [PutMtdDevice; DevInfo LINKITS7688; DevInfo [];
         GpioRequest 11; GpioDirectionOutput 11 0]).
Proof.
  destruct (linkit_probe_latch true
              (Linkit_env None
                 (Linkit_hw_data
                    [0x4C; 0x49; 0x4E; 0x4B; 0x49; 0x54; 0x53; 0x37; 0x36; 0x38; 0x38;
                     0x0A; 0x31; 0x32; 0x33; 0x34]
                    (replicate 16 0xFF)) 0))
    as [(_ & _ & H) | [(_ & Hne & _) | (Hno & _)]].
  - reflexivity.
  - reflexivity.
  - rewrite H. vm_compute. reflexivity.
  - now contradiction Hne.
  - exfalso. apply Hno. split.
    + intros k Hk. do 11 (destruct k as [|k]; [reflexivity|]). lia.
    + vm_compute. discriminate.
Defined.

(** ** What a read message delivers *)

Section ReadMessages.
Context {P : Platform}.

Lemma w32_reads_all (val reg' : Z) (w : world) :
  exists w', mtk_i2c_w32 val reg' w = Some (tt, w') /\
             forall reg, reads_of reg (log w') = reads_of reg (log w).
Proof.
  eexists. split; [reflexivity|]. intros reg. cbn [log]. rewrite reads_of_cons.
  cbn [is_read_of]. apply app_nil_r.
Qed.

Lemma poll_down_reads (reg0 mask : Z) (w : world) :
  exists r w', poll_down_timeout reg0 mask w = Some (r, w') /\
               forall reg, reg <> reg0 -> reads_of reg (log w') = reads_of reg (log w).
Proof.
  destruct (poll_down_timeout_run reg0 mask w)
    as (r & w' & steps & v & Hrun & Hlog & _).
  exists r, w'. split; [exact Hrun|]. intros reg Hne.
  rewrite Hlog, reads_of_cons, reads_of_app, poll_trace_reads by congruence.
  cbn [is_read_of]. replace (reg0 =? reg) with false
    by (symmetry; apply Z.eqb_neq; congruence).
  now rewrite !app_nil_r.
Qed.

(** The start and address phase takes no sample of a data register. *)
Lemma xfer_msg_addressed_reads (m : i2c_msg) (w w1 : world) :
  mtk_i2c_wait_idle w = Some (0, w1) ->
  Z.land (u16 (flags m)) I2C_M_TEN = 0 ->
  u16 (len m) <> 0 ->
  exists w2,
    xfer_msg m w = xfer_data m w2 /\
    forall reg, reg <> REG_SM0ST -> reg <> REG_SM0CTL1 ->
                reads_of reg (log w2) = reads_of reg (log w).
Proof.
  intros Hi Ht Hl. unfold xfer_msg. rewrite (bind_run _ _ _ _ _ Hi).
  destruct (poll_down_reads REG_SM0ST I2C_BUSY w) as (r0 & w1' & H0 & Hr1).
  change (poll_down_timeout REG_SM0ST I2C_BUSY w) with (mtk_i2c_wait_idle w) in H0.
  rewrite Hi in H0. injection H0 as <- <-.
  apply Z.eqb_eq in Ht. rewrite Ht. cbn [negb Z.eqb].
  destruct (w32_reads_all (Z.land (u16 (addr m)) I2C_DEVADDR_MASK) REG_SM0CFG0 w1)
    as (w2 & H2 & Hr2).
  rewrite (bind_run _ _ _ _ _ H2).
  apply Z.eqb_neq in Hl. rewrite Hl.
  destruct (w32_reads_all (ctl1_cmd 0 SM0_MODE_START) REG_SM0CTL1 w2) as (w3 & H3 & Hr3).
  rewrite (bind_run _ _ _ _ _ H3).
  destruct (poll_down_reads REG_SM0CTL1 SM0_TRI_BUSY w3) as (r4 & w4 & H4 & Hr4).
  change (poll_down_timeout REG_SM0CTL1 SM0_TRI_BUSY w3) with (mtk_i2c_wait_done w3) in H4.
  rewrite (bind_run _ _ _ _ _ H4).
  match goal with
  | |- context [bind (mtk_i2c_w32 ?v REG_SM0D0) _ w4] =>
      destruct (w32_reads_all v REG_SM0D0 w4) as (w5 & H5 & Hr5)
  end.
  rewrite (bind_run _ _ _ _ _ H5).
  destruct (w32_reads_all (ctl1_cmd 0 SM0_MODE_WRITE) REG_SM0CTL1 w5) as (w6 & H6 & Hr6).
  rewrite (bind_run _ _ _ _ _ H6).
  destruct (poll_down_reads REG_SM0CTL1 SM0_TRI_BUSY w6) as (r7 & w7 & H7 & Hr7).
  change (poll_down_timeout REG_SM0CTL1 SM0_TRI_BUSY w6) with (mtk_i2c_wait_done w6) in H7.
  rewrite (bind_run _ _ _ _ _ H7).
  exists w7. split; [reflexivity|]. intros reg Hst Hctl.
  now rewrite Hr7, Hr6, Hr5, Hr4, Hr3, Hr2, Hr1.
Qed.

Lemma xfer_stop_reads (m : i2c_msg) (b : list Z) (w : world) :
  exists w',
    xfer_stop m b w = Some ((Next, I2c_msg (addr m) (flags m) (len m) b), w') /\
    forall reg, reg <> REG_SM0CTL1 -> reads_of reg (log w') = reads_of reg (log w).
Proof.
  unfold xfer_stop.
  destruct (w32_reads_all (ctl1_cmd 0 SM0_MODE_STOP) REG_SM0CTL1 w) as (w1 & H1 & Hr1).
  rewrite (bind_run _ _ _ _ _ H1).
  destruct (poll_down_reads REG_SM0CTL1 SM0_TRI_BUSY w1) as (r & w2 & H2 & Hr2).
  change (poll_down_timeout REG_SM0CTL1 SM0_TRI_BUSY w1) with (mtk_i2c_wait_done w1) in H2.
  rewrite (bind_run _ _ _ _ _ H2).
  exists w2. split; [reflexivity|]. intros reg Hne. now rewrite Hr2, Hr1.
Qed.

(** Whatever the buffer, the while loop of [mtk_i2c_read] samples the two
    data registers together, a pair per chunk. *)
Lemma read_loop_reads (n : nat) :
  forall (len pkt_num off : Z) (b : list Z) (w : world),
    exists b' w' chunks,
      mtk_i2c_read_loop n len pkt_num off b w = Some (b', w') /\
      reads_of REG_SM0D0 (log w') = reads_of REG_SM0D0 (log w) ++ chunks.*1 /\
      reads_of REG_SM0D1 (log w') = reads_of REG_SM0D1 (log w) ++ chunks.*2.
Proof.
  induction n as [|n IH]; intros len pkt_num off b w.
  { exists b, w, []. split; [reflexivity|]. cbn [fmap list_fmap].
    now rewrite !app_nil_r. }
  cbn [mtk_i2c_read_loop]. destruct (len >? 0).
  2: { exists b, w, []. split; [reflexivity|]. cbn [fmap list_fmap].
       now rewrite !app_nil_r. }
  set (plen := if len >? 8 then 8 else len).
  destruct (w32_reads_all (ctl1_cmd (plen - 1) SM0_MODE_READ_ACK) REG_SM0CTL1 w)
    as (w1 & H1 & Hr1).
  rewrite (bind_run _ _ _ _ _ H1).
  destruct (poll_down_reads REG_SM0CTL1 SM0_TRI_BUSY w1) as (r & w2 & H2 & Hr2).
  change (poll_down_timeout REG_SM0CTL1 SM0_TRI_BUSY w1) with (mtk_i2c_wait_done w1) in H2.
  rewrite (bind_run _ _ _ _ _ H2).
  destruct (r32_reads REG_SM0D0 w2) as (lo & w3 & H3 & _ & Hr3).
  rewrite (bind_run _ _ _ _ _ H3).
  destruct (r32_reads REG_SM0D1 w3) as (hi & w4 & H4 & _ & Hr4).
  rewrite (bind_run _ _ _ _ _ H4).
  set (b1 := unpack_bytes 8 0 plen _ pkt_num off b).
  destruct (IH (len - plen) (pkt_num + 1) off b1 w4) as (b' & w' & chunks & H5 & Ha & Hb).
  exists b', w', ((lo, hi) :: chunks). split; [exact H5|]. split.
  - rewrite Ha, (Hr4 REG_SM0D0), (Hr3 REG_SM0D0), Hr2, Hr1 by discriminate.
    cbn [fmap list_fmap fst]. change (REG_SM0D0 =? REG_SM0D0) with true.
    change (REG_SM0D1 =? REG_SM0D0) with false.
    now rewrite app_nil_r, <- app_assoc.
  - rewrite Hb, (Hr4 REG_SM0D1), (Hr3 REG_SM0D1), Hr2, Hr1 by discriminate.
    cbn [fmap list_fmap snd]. change (REG_SM0D1 =? REG_SM0D1) with true.
    change (REG_SM0D0 =? REG_SM0D1) with false.
    now rewrite app_nil_r, <- app_assoc.
Qed.

(** X19: What a read message delivers.  For a plain read (I2C_M_RD, no
    block-read and no 10-bit flag) of len bytes into a buffer that holds
    them, once the idle wait has succeeded: the message is executed, the two
    data registers are sampled ceil(len / 8) times and at no other moment of
    the message, and byte k of the buffer is byte k mod 8 of sample k / 8,
    low register first, least significant byte first. *)
Theorem read_message_delivers (m : i2c_msg) (w0 w1 : world) :
  mtk_i2c_wait_idle w0 = Some (0, w1) ->
  Z.land (u16 (flags m)) I2C_M_TEN = 0 ->
  u16 (len m) <> 0 ->
  Z.land (u16 (flags m)) I2C_M_RECV_LEN = 0 ->
  Z.land (u16 (flags m)) I2C_M_RD <> 0 ->
  u16 (len m) <= Z.of_nat (length (buf m)) ->
  exists m' w' chunks,
    xfer_msg m w0 = Some ((Next, m'), w') /\
    length chunks = Z.to_nat ((u16 (len m) + 7) / 8) /\
    reads_of REG_SM0D0 (log w') = reads_of REG_SM0D0 (log w0) ++ chunks.*1 /\
    reads_of REG_SM0D1 (log w') = reads_of REG_SM0D1 (log w0) ++ chunks.*2 /\
    forall k, 0 <= k < u16 (len m) ->
              load (buf m') k
              = window_byte (default (0, 0) (chunks !! Z.to_nat (k / 8))) (k mod 8).
Proof.
  intros Hidle Hten Hlen Hrl Hrd Hbuf.
  destruct (xfer_msg_addressed_reads m w0 w1 Hidle Hten Hlen) as (w2 & -> & Hr2).
  unfold xfer_data. apply Z.eqb_eq in Hrl. rewrite Hrl.
  apply Z.eqb_neq in Hrd. rewrite Hrd. cbn [negb].
  unfold mtk_i2c_read.
  destruct (read_loop_data (Z.to_nat (u16 (len m))) (u16 (len m)) 0 0 (buf m) w2)
    as (b' & w3 & chunks & Hrun & Hn & Ha & Hb & Hin & _); try lia.
  rewrite (bind_run _ _ _ _ _ Hrun).
  destruct (xfer_stop_reads m b' w3) as (w4 & Hstop & Hr4).
  exists (I2c_msg (addr m) (flags m) (len m) b'), w4, chunks.
  split; [exact Hstop|]. split; [exact Hn|].
  split; [rewrite Hr4, Ha, Hr2 by discriminate; reflexivity|].
  split; [rewrite Hr4, Hb, Hr2 by discriminate; reflexivity|].
  intros k Hk. cbn [buf]. specialize (Hin k Hk).
  now replace (0 + 8 * 0 + k) with k in Hin by lia.
Qed.

(** X20: What a block read delivers.  For a block-read message whose
    buffer has room for the count, once the idle wait has succeeded: byte 0
    of the buffer is the lowest byte of the first sample of REG_SM0D0; when
    it is a count n between 1 and 31 and the buffer has room for n more
    bytes, the message is executed, the data registers are sampled
    ceil(n / 8) more times and byte 1 + k of the buffer is byte k mod 8 of
    the sample k / 8 of these. *)
Theorem block_read_delivers (m : i2c_msg) (w0 w1 : world) :
  mtk_i2c_wait_idle w0 = Some (0, w1) ->
  Z.land (u16 (flags m)) I2C_M_TEN = 0 ->
  u16 (len m) <> 0 ->
  Z.land (u16 (flags m)) I2C_M_RECV_LEN <> 0 ->
  (1 <= length (buf m))%nat ->
  exists l m' w' first chunks,
    xfer_msg m w0 = Some ((l, m'), w') /\
    reads_of REG_SM0D0 (log w') = reads_of REG_SM0D0 (log w0) ++ (first :: chunks).*1 /\
    reads_of REG_SM0D1 (log w') = reads_of REG_SM0D1 (log w0) ++ (first :: chunks).*2 /\
    load (buf m') 0 = window_byte first 0 /\
    (0 < load (buf m') 0 < I2C_SMBUS_BLOCK_MAX ->
     1 + load (buf m') 0 <= Z.of_nat (length (buf m)) ->
     l = Next /\
     length chunks = Z.to_nat ((load (buf m') 0 + 7) / 8) /\
     forall k, 0 <= k < load (buf m') 0 ->
               load (buf m') (1 + k)
               = window_byte (default (0, 0) (chunks !! Z.to_nat (k / 8))) (k mod 8)).
Proof.
  intros Hidle Hten Hlen Hrl Hbuf.
  destruct (xfer_msg_addressed_reads m w0 w1 Hidle Hten Hlen) as (w2 & -> & Hr2).
  unfold xfer_data. apply Z.eqb_neq in Hrl. rewrite Hrl. cbn [negb].
  unfold mtk_i2c_read at 1.
  destruct (read_loop_data (Z.to_nat 1) 1 0 0 (buf m) w2)
    as (b1 & w3 & c1 & Hrun1 & Hn1 & Ha1 & Hb1 & Hin1 & _); try lia.
  rewrite (bind_run _ _ _ _ _ Hrun1).
  change (Z.to_nat ((1 + 7) / 8)) with 1%nat in Hn1.
  destruct c1 as [|first [|? ?]]; try discriminate Hn1.
  pose proof (Hin1 0 ltac:(lia)) as H0. cbn in H0.
  assert (Hl1 : length b1 = length (buf m)).
  { destruct (read_loop_run (Z.to_nat 1) 1 0 0 (buf m) w2) as (b1' & w3' & Hx & _ & Hl & _).
    rewrite Hrun1 in Hx. now injection Hx as <- _. }
  destruct ((load b1 0 <? I2C_SMBUS_BLOCK_MAX) && (load b1 0 >? 0)) eqn:Hn.
  - unfold mtk_i2c_read.
    destruct (read_loop_run (Z.to_nat (load b1 0)) (load b1 0) 0 1 b1 w3)
      as (b2 & w4 & Hrun2 & _ & Hl2 & Hk2).
    rewrite (bind_run _ _ _ _ _ Hrun2).
    destruct (xfer_stop_reads m b2 w4) as (w5 & Hstop & Hr5).
    specialize (Hk2 ltac:(lia) ltac:(lia)).
    destruct (Z_le_gt_dec (1 + load b1 0) (Z.of_nat (length (buf m)))) as [Hroom | Hroom].
    + destruct (read_loop_data (Z.to_nat (load b1 0)) (load b1 0) 0 1 b1 w3)
        as (b2' & w4' & chunks & Hrun2' & Hn2 & Ha2 & Hb2 & Hin2 & _); try lia.
      rewrite Hrun2 in Hrun2'. injection Hrun2' as <- <-.
      exists Next, (I2c_msg (addr m) (flags m) (len m) b2), w5, first, chunks.
      split; [exact Hstop|]. cbn [buf].
      split; [rewrite Hr5, Ha2, Ha1, Hr2 by discriminate;
              now rewrite <- app_assoc|].
      split; [rewrite Hr5, Hb2, Hb1, Hr2 by discriminate;
              now rewrite <- app_assoc|].
      rewrite Hk2. split; [exact H0|]. intros _ _.
      split; [reflexivity|]. split; [exact Hn2|].
      intros k Hk. specialize (Hin2 k Hk).
      now replace (1 + 8 * 0 + k) with (1 + k) in Hin2 by lia.
    + destruct (read_loop_reads (Z.to_nat (load b1 0)) (load b1 0) 0 1 b1 w3)
        as (b2' & w4' & chunks & Hrun2' & Ha2 & Hb2).
      rewrite Hrun2 in Hrun2'. injection Hrun2' as <- <-.
      exists Next, (I2c_msg (addr m) (flags m) (len m) b2), w5, first, chunks.
      split; [exact Hstop|]. cbn [buf].
      split; [rewrite Hr5, Ha2, Ha1, Hr2 by discriminate;
              now rewrite <- app_assoc|].
      split; [rewrite Hr5, Hb2, Hb1, Hr2 by discriminate;
              now rewrite <- app_assoc|].
      rewrite Hk2. split; [exact H0|]. intros _ Hc. lia.
  - destruct (w32_reads_all (ctl1_cmd 0 SM0_MODE_STOP) REG_SM0CTL1 w3) as (w4 & H4 & Hr4).
    rewrite (bind_run _ _ _ _ _ H4).
    destruct (poll_down_reads REG_SM0CTL1 SM0_TRI_BUSY w4) as (r & w5 & H5 & Hr5).
    change (poll_down_timeout REG_SM0CTL1 SM0_TRI_BUSY w4) with (mtk_i2c_wait_done w4) in H5.
    rewrite (bind_run _ _ _ _ _ H5).
    eexists _, _, w5, first, []. split; [reflexivity|]. cbn [buf].
    split; [rewrite Hr5, Hr4, Ha1, Hr2 by discriminate; reflexivity|].
    split; [rewrite Hr5, Hr4, Hb1, Hr2 by discriminate; reflexivity|].
    split; [exact H0|]. intros Hc _.
    apply andb_false_iff in Hn as [Hn | Hn].
    + apply Z.ltb_ge in Hn. lia.
    + rewrite Z.gtb_ltb in Hn. apply Z.ltb_ge in Hn. lia.
Qed.

End ReadMessages.

Lemma read_message_delivers_witness :
  exists w',
    @xfer_msg sim_platform (I2c_msg 0x50 I2C_M_RD 4 (replicate 4 0))
              (sim_idle [(0x44332211, 0)])
    = Some ((Next, I2c_msg 0x50 I2C_M_RD 4 [0x11; 0x22; 0x33; 0x44]), w').
Proof.
  destruct (@read_message_delivers sim_platform
              (I2c_msg 0x50 I2C_M_RD 4 (replicate 4 0))
              (sim_idle [(0x44332211, 0)]) (sim_sampled [(0x44332211, 0)]))
    as (m' & w' & chunks & Hrun & _).
  - reflexivity.
  - reflexivity.
  - vm_compute. discriminate.
  - reflexivity.
  - vm_compute. discriminate.
  - vm_compute. discriminate.
  - pose proof Hrun as Hc. vm_compute in Hc. injection Hc as Hm _.
    exists w'. rewrite Hrun, <- Hm. reflexivity.
Defined.

Lemma block_read_delivers_witness :
  exists w',
    @xfer_msg sim_platform (I2c_msg 0x44 0x401 1 (replicate 34 0))
              (sim_idle [(3, 0); (0x030201, 0)])
    = Some ((Next, I2c_msg 0x44 0x401 1 (3 :: 1 :: 2 :: 3 :: replicate 30 0)), w').
Proof.
  destruct (@block_read_delivers sim_platform
              (I2c_msg 0x44 0x401 1 (replicate 34 0))
              (sim_idle [(3, 0); (0x030201, 0)]) (sim_sampled [(3, 0); (0x030201, 0)]))
    as (l & m' & w' & first & chunks & Hrun & _).
  - reflexivity.
  - reflexivity.
  - vm_compute. discriminate.
  - vm_compute. discriminate.
  - cbn. lia.
  - pose proof Hrun as Hc. vm_compute in Hc. injection Hc as Hl Hm _.
    exists w'. rewrite Hrun, <- Hm, <- Hl. reflexivity.
Defined.
